(** * snps.utils: a shallow embedding and its verification

    The module [snps/utils.py] is a set of independent helpers.  Each one is
    embedded below next to a model of the Python runtime pieces it calls
    ([re.sub], [multiprocessing.Pool.map], [os.makedirs], [tempfile.mkstemp],
    [os.rename], ...).  Definitions come first; the theorems follow in the
    second half of the file. *)

From Stdlib Require Import ZArith NArith String Ascii List Lia Permutation.
From stdpp Require Import base option list gmap strings.

Open Scope string_scope.

(* ===================================================================== *)
(** * Part I: definitions *)
(* ===================================================================== *)

(** ** Python exceptions and results *)

Inductive exn :=
| AttributeError
| ValueError
| IndexError
| KeyError
| FileExistsError
| FileNotFoundError
| NotADirectoryError
| IsADirectoryError
| OSError
| OverflowError
| TypeError
| RecursionError.

#[export] Instance exn_eq_dec : EqDecision exn.
Proof. solve_decision. Defined.

(** What evaluating a Python expression gives: a value or a raised
    exception. *)
Inductive result (A : Type) :=
| Ok (a : A)
| Raise (e : exn).
Arguments Ok {A} a.
Arguments Raise {A} e.

(** ** Python [str]: a sequence of Unicode code points *)

Definition char := N.
Definition str := list char.

(** A literal of the development as a Python [str]. *)
Definition py_str (s : string) : str :=
  map N_of_ascii (list_ascii_of_string s).

Definition underscore : char := 95%N.

(** The Unicode database behind [re]: [Py_UNICODE_ISALNUM] and
    [Py_UNICODE_ISDECIMAL].  Their values on ASCII are fixed; above ASCII
    they are the table's, left open here. *)
Class UnicodeDB := {
  uni_isalnum : char -> bool;
  uni_isdecimal : char -> bool
}.

Definition ascii_isdigit (c : char) : bool :=
  ((48 <=? c) && (c <=? 57))%N.

Definition ascii_isalpha (c : char) : bool :=
  (((65 <=? c) && (c <=? 90)) || ((97 <=? c) && (c <=? 122)))%N.

Definition Py_UNICODE_ISDECIMAL `{UnicodeDB} (c : char) : bool :=
  if (c <? 128)%N then ascii_isdigit c else uni_isdecimal c.

Definition Py_UNICODE_ISALNUM `{UnicodeDB} (c : char) : bool :=
  if (c <? 128)%N then ascii_isalpha c || ascii_isdigit c else uni_isalnum c.

(** [SRE_UNI_IS_WORD]: alphanumeric or the underscore. *)
Definition SRE_UNI_IS_WORD `{UnicodeDB} (c : char) : bool :=
  Py_UNICODE_ISALNUM c || (c =? underscore)%N.

(** A database with nothing above ASCII, to run examples. *)
Definition ascii_only_db : UnicodeDB :=
  {| uni_isalnum := fun _ => false; uni_isdecimal := fun _ => false |}.

(** ** A model of [re]: patterns without repetition

    The constructors follow the opcodes [sre_parse] produces. *)
Module Re.

Inductive category :=
| CATEGORY_DIGIT
| CATEGORY_NOT_DIGIT
| CATEGORY_WORD
| CATEGORY_NOT_WORD.

Inductive pattern :=
| EMPTY
| LITERAL (c : char)
| IN (cat : category)
| AT_BEGINNING
| ASSERT (p : pattern)
| ASSERT_NOT (p : pattern)
| SEQ (p q : pattern)
| BRANCH (p q : pattern).

Definition category_test `{UnicodeDB} (cat : category) (c : char) : bool :=
  match cat with
  | CATEGORY_DIGIT => Py_UNICODE_ISDECIMAL c
  | CATEGORY_NOT_DIGIT => negb (Py_UNICODE_ISDECIMAL c)
  | CATEGORY_WORD => SRE_UNI_IS_WORD c
  | CATEGORY_NOT_WORD => negb (SRE_UNI_IS_WORD c)
  end.

(** The lengths of the matches of [p] at the current position, in the order
    the backtracking matcher finds them (left alternative first).  [bol]
    says whether the position is the start of the string, [s] is the text
    from the position on. *)
Fixpoint match_lens `{UnicodeDB} (p : pattern) (bol : bool) (s : str) : list nat :=
  match p with
  | EMPTY => [0]
  | LITERAL c =>
      match s with
      | x :: _ => if (x =? c)%N then [1] else []
      | [] => []
      end
  | IN cat =>
      match s with
      | x :: _ => if category_test cat x then [1] else []
      | [] => []
      end
  | AT_BEGINNING => if bol then [0] else []
  | ASSERT q =>
      match match_lens q bol s with
      | [] => []
      | _ :: _ => [0]
      end
  | ASSERT_NOT q =>
      match match_lens q bol s with
      | [] => [0]
      | _ :: _ => []
      end
  | SEQ q r =>
      flat_map
        (fun k => map (Nat.add k)
                    (match_lens r (bol && (k =? 0)%nat) (drop k s)))
        (match_lens q bol s)
  | BRANCH q r => match_lens q bol s ++ match_lens r bol s
  end.

(** [sre_search] at one position: the first match, and when [must_advance]
    is set (the previous match was empty and ended here) the first one that
    is not empty. *)
Definition sre_match `{UnicodeDB} (p : pattern) (bol must_advance : bool)
    (s : str) : option nat :=
  List.find (fun k => negb must_advance || negb (k =? 0)%nat)
    (match_lens p bol s).

(** The loop of [pattern_subx] with a string replacement and [count = 0]:
    search from the current position; copy the text before the match, then
    the replacement; resume where the match ended, with [must_advance] set
    when it was empty.  One round of the loop either moves on in the text
    or follows an empty match, so [fuel] bounds the rounds. *)
Fixpoint sub_loop `{UnicodeDB} (fuel : nat) (p : pattern) (repl : str)
    (bol must_advance : bool) (s : str) : option str :=
  match fuel with
  | O => None
  | S fuel' =>
      match sre_match p bol must_advance s with
      | Some O =>
          app repl <$> sub_loop fuel' p repl bol true s
      | Some (S k) =>
          app repl <$> sub_loop fuel' p repl false false (drop (S k) s)
      | None =>
          match s with
          | [] => Some []
          | c :: s' => cons c <$> sub_loop fuel' p repl false false s'
          end
      end
  end.

(** [re.sub(pattern, repl, string)]. *)
Definition sub `{UnicodeDB} (p : pattern) (repl : str) (s : str) : option str :=
  sub_loop (2 * length s + 2) p repl true false s.

End Re.

(** ** [clean_str] *)

(** The pattern [r"\W|^(?=\d)"]. *)
Definition clean_str_pattern : Re.pattern :=
  Re.BRANCH (Re.IN Re.CATEGORY_NOT_WORD)
            (Re.SEQ Re.AT_BEGINNING (Re.ASSERT (Re.IN Re.CATEGORY_DIGIT))).

Definition clean_str `{UnicodeDB} (s : str) : option str :=
  Re.sub clean_str_pattern [underscore] s.

(** What [clean_str] comes to, character by character: a character that is
    no word character becomes an underscore, and an underscore is put in
    front of a first character that is a digit. *)
Definition sanitize_char `{UnicodeDB} (c : char) : char :=
  if SRE_UNI_IS_WORD c then c else underscore.

Definition clean_str_chars `{UnicodeDB} (s : str) : str :=
  match s with
  | [] => []
  | c :: _ =>
      ((if SRE_UNI_IS_WORD c && Py_UNICODE_ISDECIMAL c then [underscore] else [])
       ++ map sanitize_char s)%list
  end.

(** ** [Parallelizer] *)

(** [multiprocessing.Pool.map]: the tasks are cut into chunks, the chunks go
    to the workers, and each finished chunk is stored in its slice of the
    result list ([MapResult._set]).  The order in which the chunks finish
    is the scheduler's; it is the argument [order] below. *)
Module Pool.

(** [Pool.__init__]: the number of workers, or [ValueError]. *)
Definition processes_of (processes : option Z) (cpu_count : option Z) : result nat :=
  let n := match processes with
           | Some n => n
           | None => match cpu_count with
                     | Some c => if (c =? 0)%Z then 1%Z else c
                     | None => 1%Z
                     end
           end in
  if (n <? 1)%Z then Raise ValueError else Ok (Z.to_nat n).

(** [_map_async]: [divmod(len(iterable), len(self._pool) * 4)], rounded up,
    and [0] for no task. *)
Definition chunksize (len nproc : nat) : nat :=
  if (len =? 0)%nat then 0
  else
    let q := len / (nproc * 4) in
    let extra := len mod (nproc * 4) in
    if (extra =? 0)%nat then q else q + 1.

(** [Pool._get_tasks]: slices of [size] items until the input is used up. *)
Fixpoint get_tasks {A} (fuel size : nat) (it : list A) : list (list A) :=
  match fuel with
  | O => []
  | S fuel' =>
      match take size it with
      | [] => []
      | x => x :: get_tasks fuel' size (drop size it)
      end
  end.

(** The slice assignment [l[a:b] = r]. *)
Definition slice_assign {A} (a b : nat) (r l : list A) : list A :=
  take a l ++ r ++ drop b l.

Record MapResult (B : Type) := {
  _value : list (option B);
  _number_left : nat
}.
Arguments _value {B} m.
Arguments _number_left {B} m.

(** [MapResult.__init__]. *)
Definition MapResult_init (B : Type) (chunksize length : nat) : MapResult B :=
  {| _value := replicate length None;
     _number_left :=
       if (chunksize =? 0)%nat then 0
       else length / chunksize + (if (length mod chunksize =? 0)%nat then 0 else 1) |}.

(** [MapResult._set(i, (True, result))]. *)
Definition MapResult_set {B} (chunksize i : nat) (res : list B)
    (m : MapResult B) : MapResult B :=
  {| _value := slice_assign (i * chunksize) ((i + 1) * chunksize)
                 (map Some res) (_value m);
     _number_left := pred (_number_left m) |}.

(** The worker's [mapstar] on chunk [i], then [_set]. *)
Definition complete {A B} (f : A -> B) (chunksize : nat)
    (batches : list (list A)) (m : MapResult B) (i : nat) : MapResult B :=
  match batches !! i with
  | Some chunk => MapResult_set chunksize i (map f chunk) m
  | None => m
  end.

(** [Pool.map(f, tasks)]: [None] when the result never becomes ready. *)
Definition map {A B} (nproc : nat) (order : list nat) (f : A -> B)
    (tasks : list A) : option (list B) :=
  let cs := chunksize (length tasks) nproc in
  let batches := get_tasks (length tasks) cs tasks in
  let m := foldl (complete f cs batches)
             (MapResult_init B cs (length tasks)) order in
  if (_number_left m =? 0)%nat then mapM id (_value m) else None.

(** The result list once the chunks [done] have finished: slot [j] belongs
    to chunk [j / chunksize]. *)
Definition filled {A B} (f : A -> B) (chunksize : nat) (done : list nat)
    (tasks : list A) : list (option B) :=
  imap (fun j t => if bool_decide (j / chunksize ∈ done) then Some (f t) else None)
    tasks.

(** How many chunks [get_tasks] cuts. *)
Definition num_batches (len nproc : nat) : nat :=
  let cs := chunksize len nproc in
  if (cs =? 0)%nat then 0 else len / cs + (if (len mod cs =? 0)%nat then 0 else 1).

End Pool.

(** The builtin [map(f, tasks)]: a lazy iterator. *)
Record map_object (A B : Type) := {
  map_func : A -> B;
  map_iter : list A
}.
Arguments map_func {A B} m.
Arguments map_iter {A B} m.

(** [next(it)]: the next output and the advanced iterator, [None] at
    [StopIteration]. *)
Definition map_next {A B} (it : map_object A B) : option (B * map_object A B) :=
  match map_iter it with
  | [] => None
  | x :: rest => Some (map_func it x, {| map_func := map_func it; map_iter := rest |})
  end.

(** What [Parallelizer.__call__] returns: a list or a [map] object. *)
Inductive outputs (A B : Type) :=
| OutList (l : list B)
| OutMap (it : map_object A B).
Arguments OutList {A B} l.
Arguments OutMap {A B} it.

(** Calling [next] until [StopIteration], at most [fuel] times. *)
Fixpoint next_all {A B} (fuel : nat) (it : map_object A B) : list B :=
  match fuel with
  | O => []
  | S fuel' =>
      match map_next it with
      | None => []
      | Some (y, it') => y :: next_all fuel' it'
      end
  end.

(** Iterating over the outputs to the end, as [list(...)] does. *)
Definition outputs_list {A B} (o : outputs A B) : list B :=
  match o with
  | OutList l => l
  | OutMap it => next_all (length (map_iter it)) it
  end.

Record Parallelizer := {
  _parallelize : bool;
  _processes : option Z
}.

(** [Parallelizer.__call__(f, tasks)].  [cpu_count] is [os.cpu_count()],
    [order] the order in which the pool's chunks finish.  The result is
    [None] when the pool never delivers. *)
Definition Parallelizer_call {A B} (self : Parallelizer) (cpu_count : option Z)
    (order : list nat) (f : A -> B) (tasks : list A)
    : option (result (outputs A B)) :=
  if _parallelize self then
    match Pool.processes_of (_processes self) cpu_count with
    | Raise e => Some (Raise e)
    | Ok nproc =>
        match Pool.map nproc order f tasks with
        | Some l => Some (Ok (OutList l))
        | None => None
        end
    end
  else Some (Ok (OutMap {| map_func := f; map_iter := tasks |})).

(** ** [Singleton] *)

Module Meta.

Definition class_id := string.
(** The identity of an object ([id(obj)]). *)
Definition ref := nat.

Section WithArgs.
Context {Args : Type}.

(** The interpreter state the metaclass sees: the registry
    [Singleton._instances], and the objects made so far, each with its
    class and the arguments it was made from. *)
Record interp := {
  _instances : gmap class_id ref;
  objects : list (class_id * Args)
}.

(** [type.__call__]: a new object, then its [__init__], which may raise
    ([init cls args] is what it raises).  Object identities are positions
    in [objects]: a new object is never an old one. *)
Definition type_call (init : class_id -> Args -> option exn)
    (cls : class_id) (args : Args) (st : interp) : result ref * interp :=
  match init cls args with
  | Some e => (Raise e, st)
  | None =>
      (Ok (length (objects st)),
       {| _instances := _instances st;
          objects := objects st ++ [(cls, args)] |})
  end.

(** [Singleton.__call__(cls, *args, **kwargs)]. *)
Definition Singleton_call (init : class_id -> Args -> option exn)
    (cls : class_id) (args : Args) (st : interp) : result ref * interp :=
  let filled :=
    match _instances st !! cls with
    | None =>
        match type_call init cls args st with
        | (Ok r, st') =>
            (Ok tt, {| _instances := <[cls := r]> (_instances st');
                       objects := objects st' |})
        | (Raise e, st') => (Raise e, st')
        end
    | Some _ => (Ok tt, st)
    end in
  match filled with
  | (Raise e, st') => (Raise e, st')
  | (Ok _, st') =>
      match _instances st' !! cls with
      | Some r => (Ok r, st')
      | None => (Raise KeyError, st')
      end
  end.

(** A run of constructions, one after the other. *)
Fixpoint run_calls (init : class_id -> Args -> option exn)
    (calls : list (class_id * Args)) (st : interp) : list (result ref) * interp :=
  match calls with
  | [] => ([], st)
  | (cls, args) :: rest =>
      let '(r, st') := Singleton_call init cls args st in
      let '(rs, st'') := run_calls init rest st' in
      (r :: rs, st'')
  end.

End WithArgs.
Arguments interp Args : clear implicits.

End Meta.

(** ** Path names ([posixpath]) *)

Definition slash : ascii := "/"%char.

(** [s.split(sep)] for a one-character separator. *)
Fixpoint split_on (sep : ascii) (s : string) : list string :=
  match s with
  | EmptyString => [EmptyString]
  | String c s' =>
      if Ascii.eqb c sep then EmptyString :: split_on sep s'
      else
        match split_on sep s' with
        | x :: xs => String c x :: xs
        | [] => [String c EmptyString]
        end
  end.

Fixpoint drop_while {A} (f : A -> bool) (l : list A) : list A :=
  match l with
  | [] => []
  | x :: l' => if f x then drop_while f l' else l
  end.

Definition is_slash (c : ascii) : bool := Ascii.eqb c slash.

Definition endswith_slash (s : string) : bool :=
  match rev (list_ascii_of_string s) with
  | c :: _ => is_slash c
  | [] => false
  end.

(** [os.path.join(a, b)]. *)
Definition os_path_join (a b : string) : string :=
  if String.prefix "/" b then b
  else if (a =? "")%string || endswith_slash a then a ++ b
  else a ++ "/" ++ b.

(** [os.path.dirname(p)]: up to the last slash, with the slashes that end
    the head removed unless the head is only slashes. *)
Definition os_path_dirname (p : string) : string :=
  let head := drop_while (fun c => negb (is_slash c)) (rev (list_ascii_of_string p)) in
  if forallb is_slash head then string_of_list_ascii (rev head)
  else string_of_list_ascii (rev (drop_while is_slash head)).

Fixpoint take_while {A} (f : A -> bool) (l : list A) : list A :=
  match l with
  | [] => []
  | x :: l' => if f x then x :: take_while f l' else []
  end.

(** [os.path.basename(p)]: what follows the last slash. *)
Definition os_path_basename (p : string) : string :=
  string_of_list_ascii
    (rev (take_while (fun c => negb (is_slash c)) (rev (list_ascii_of_string p)))).

(** [os.path.split(p)]. *)
Definition os_path_split (p : string) : string * string :=
  (os_path_dirname p, os_path_basename p).

(** The components of a name: what stands between its slashes, the empty
    pieces left out. *)
Definition components (name : string) : list string :=
  List.filter (fun c => negb (c =? "")%string) (split_on slash name).

(** One round of the loop of [os.path.normpath]; [new_comps] is kept with
    its last component first. *)
Definition normpath_step (initial_slashes : nat) (new_comps : list string)
    (comp : string) : list string :=
  if (comp =? "")%string || (comp =? ".")%string then new_comps
  else if negb (comp =? "..")%string
          || ((initial_slashes =? 0)%nat && bool_decide (new_comps = []))
          || match new_comps with
             | last :: _ => (last =? "..")%string
             | [] => false
             end
       then comp :: new_comps
       else tail new_comps.

(** [os.path.normpath(path)]. *)
Definition os_path_normpath (path : string) : string :=
  if (path =? "")%string then "."
  else
    let initial_slashes :=
      if String.prefix "/" path then
        if String.prefix "//" path && negb (String.prefix "///" path) then 2 else 1
      else 0 in
    let comps := fold_left (normpath_step initial_slashes) (split_on slash path) [] in
    let joined := String.concat "/" (rev comps) in
    let res := string_of_list_ascii (replicate initial_slashes slash) ++ joined in
    if (res =? "")%string then "." else res.

(** ** The operating system

    The file system is a table from places to what is there; a place is
    the list of the names of the directories that lead to it from the
    root, with its own name last.  Links, permissions and limits on the
    length of names are not modelled. *)

Abbreviation path := (list string).

Inductive node :=
| Dir
| File (data : string).

#[export] Instance node_eq_dec : EqDecision node.
Proof. solve_decision. Defined.

Definition resolve_step (stack : list string) (comp : string) : list string :=
  if (comp =? "")%string || (comp =? ".")%string then stack
  else if (comp =? "..")%string then tail stack
  else comp :: stack.

(** Where the name [name] leads from the working directory [cwd] when
    every directory on its way is there: an empty component and [.] stay
    in place, [..] goes one up.  The system calls walk a name through the
    directories instead ([name_lookup] below) and fail when one is missing;
    where they find a place, it is this one. *)
Definition locate (cwd : path) (name : string) : path :=
  rev (fold_left resolve_step (split_on slash name)
         (if String.prefix "/" name then [] else rev cwd)).

Inductive level := INFO | WARNING.

(** What a run leaves behind, in order: the system calls that change the
    file system, the log records, the calls to the clock. *)
Inductive event :=
| EvMkdir (p : path)
| EvCreate (p : path)
| EvAppend (p : path) (data : string)
| EvRename (src dst : path)
| EvUnlink (p : path)
| EvLog (lvl : level) (msg : string)
| EvClock (aware : bool).

Record datetime := {
  dt_instant : Z;
  dt_aware : bool
}.

(** An open stream ([io.IOBase]): text or binary, its content, its
    position. *)
Record buffer := {
  b_text : bool;
  b_data : string;
  b_pos : nat
}.

Record world := {
  cwd : path;
  fs : gmap path node;
  trace : list event;
  (** the names [tempfile] draws next *)
  tmp_names : list string;
  (** whether the runtime has [datetime.UTC] *)
  has_datetime_UTC : bool;
  now_raises : option exn;
  utcnow_raises : option exn;
  instant : Z;
  buffers : gmap nat buffer
}.

Definition set_fs_trace (f : gmap path node) (t : list event) (w : world) : world :=
  {| cwd := cwd w; fs := f; trace := t; tmp_names := tmp_names w;
     has_datetime_UTC := has_datetime_UTC w; now_raises := now_raises w;
     utcnow_raises := utcnow_raises w; instant := instant w;
     buffers := buffers w |}.

Definition set_tmp_names (l : list string) (w : world) : world :=
  {| cwd := cwd w; fs := fs w; trace := trace w; tmp_names := l;
     has_datetime_UTC := has_datetime_UTC w; now_raises := now_raises w;
     utcnow_raises := utcnow_raises w; instant := instant w;
     buffers := buffers w |}.

Definition set_buffers (b : gmap nat buffer) (w : world) : world :=
  {| cwd := cwd w; fs := fs w; trace := trace w; tmp_names := tmp_names w;
     has_datetime_UTC := has_datetime_UTC w; now_raises := now_raises w;
     utcnow_raises := utcnow_raises w; instant := instant w;
     buffers := b |}.

(** The root is always there. *)
Definition node_at (f : gmap path node) (p : path) : option node :=
  match p with
  | [] => Some Dir
  | _ => f !! p
  end.

(** How a name ends: in a component of its own, in slashes after such a
    component, or at a directory it reaches by [.] or [..] (or at the
    root). *)
Inductive last_kind := Plain | Slash | Dots.

#[export] Instance last_kind_eq_dec : EqDecision last_kind.
Proof. solve_decision. Defined.

(** The walk of the kernel through the components [comps] from the
    directory [pos]: a component that is followed by another one has to be
    a directory that is there, the last one is only named.  The result is
    the place the name ends at, and whether it got there by [.] or [..]. *)
Fixpoint walk (f : gmap path node) (pos : path) (comps : list string)
    : result (path * bool) :=
  match comps with
  | [] => Ok (pos, true)
  | c :: rest =>
      if (c =? ".")%string then walk f pos rest
      else if (c =? "..")%string then
        match node_at f (removelast pos) with
        | Some Dir => walk f (removelast pos) rest
        | _ => Raise FileNotFoundError
        end
      else
        match rest with
        | [] => Ok ((pos ++ [c])%list, false)
        | _ :: _ =>
            match node_at f (pos ++ [c])%list with
            | Some Dir => walk f (pos ++ [c])%list rest
            | Some (File _) => Raise NotADirectoryError
            | None => Raise FileNotFoundError
            end
        end
  end.

Definition has_nul (name : string) : bool :=
  existsb (Ascii.eqb Ascii.zero) (list_ascii_of_string name).

(** What a system call finds for the name [name]: Python refuses a name
    with a NUL in it and the kernel the empty name; a name that starts
    with a slash is walked from the root, any other from the working
    directory, which has to be there. *)
Definition name_lookup (w : world) (name : string) : result (path * last_kind) :=
  if has_nul name then Raise ValueError
  else if (name =? "")%string then Raise FileNotFoundError
  else if negb (String.prefix "/" name)
          && negb (bool_decide (node_at (fs w) (cwd w) = Some Dir))
  then Raise FileNotFoundError
  else
    match walk (fs w) (if String.prefix "/" name then [] else cwd w)
            (components name) with
    | Raise e => Raise e
    | Ok (p, true) => Ok (p, Dots)
    | Ok (p, false) => Ok (p, if endswith_slash name then Slash else Plain)
    end.

Definition append_data (data : string) (n : node) : node :=
  match n with
  | File d => File (d ++ data)
  | Dir => Dir
  end.

(** The effect of one event on the file system. *)
Definition apply_event (ev : event) (f : gmap path node) : gmap path node :=
  match ev with
  | EvMkdir p => <[p := Dir]> f
  | EvCreate p => <[p := File ""]> f
  | EvAppend p data => alter (append_data data) p f
  | EvRename src dst =>
      match f !! src with
      | Some n => <[dst := n]> (delete src f)
      | None => f
      end
  | EvUnlink p => delete p f
  | EvLog _ _ => f
  | EvClock _ => f
  end.

(** The file system after the events [evs], one after the other. *)
Definition replay (evs : list event) (f : gmap path node) : gmap path node :=
  foldl (fun f ev => apply_event ev f) f evs.

(** Whether the event [ev] changes what is at [p]. *)
Definition touches (p : path) (ev : event) : bool :=
  match ev with
  | EvMkdir q | EvCreate q | EvUnlink q | EvAppend q _ => bool_decide (p = q)
  | EvRename src dst => bool_decide (p = src) || bool_decide (p = dst)
  | EvLog _ _ | EvClock _ => false
  end.

(** From [w] a run got to [w'] and left the events [evs]: the file system
    of [w'] is that of [w] after [evs], the trace has grown by [evs], the
    temporary names still to draw are among those of [w], and the working
    directory and the clock are the same. *)
Definition evolves (w w' : world) (evs : list event) : Prop :=
  cwd w' = cwd w
  /\ trace w' = (trace w ++ evs)%list
  /\ fs w' = replay evs (fs w)
  /\ tmp_names w' `suffix_of` tmp_names w
  /\ has_datetime_UTC w' = has_datetime_UTC w
  /\ now_raises w' = now_raises w
  /\ utcnow_raises w' = utcnow_raises w
  /\ instant w' = instant w.

(** A run from [w] to [w'] none of whose events touches [p]. *)
Definition quiet_run (p : path) (w w' : world) : Prop :=
  exists evs, evolves w w' evs /\ Forall (fun ev => touches p ev = false) evs.

(** The directories of [f] are directories of [f']. *)
Definition dirs_kept (f f' : gmap path node) : Prop :=
  forall p, node_at f p = Some Dir -> node_at f' p = Some Dir.

(** ** Computations: state and exceptions *)

Definition M (A : Type) : Type := world -> result A * world.

Definition ret {A} (a : A) : M A := fun w => (Ok a, w).

Definition raise {A} (e : exn) : M A := fun w => (Raise e, w).

Definition bind {A B} (m : M A) (k : A -> M B) : M B :=
  fun w =>
    match m w with
    | (Ok a, w') => k a w'
    | (Raise e, w') => (Raise e, w')
    end.

Notation "'let*' x ':=' m 'in' k" := (bind m (fun x => k))
  (at level 10, x name, m at level 100, k at level 200, only parsing).

(** [try: m except: h]. *)
Definition try_except {A} (m : M A) (h : exn -> M A) : M A :=
  fun w =>
    match m w with
    | (Ok a, w') => (Ok a, w')
    | (Raise e, w') => h e w'
    end.

(** [isinstance(e, OSError)]. *)
Definition is_OSError (e : exn) : bool :=
  match e with
  | FileExistsError | FileNotFoundError | NotADirectoryError
  | IsADirectoryError | OSError => true
  | _ => false
  end.

Definition emit (ev : event) : M unit :=
  fun w => (Ok tt, set_fs_trace (apply_event ev (fs w)) (trace w ++ [ev])%list w).

(** ** System calls and library functions *)

(** A system call on the name [name]: it fails when the walk does. *)
Definition with_name {A} (name : string) (k : path -> last_kind -> M A) : M A :=
  fun w =>
    match name_lookup w name with
    | Ok (p, last) => k p last w
    | Raise e => raise e w
    end.

(** [os.stat(name)], as far as the kind of the file; behind a slash only
    a directory is found. *)
Definition os_stat (name : string) : M node :=
  with_name name (fun p last w =>
    match node_at (fs w) p with
    | None => raise FileNotFoundError w
    | Some Dir => ret Dir w
    | Some (File d) =>
        if bool_decide (last = Slash) then raise NotADirectoryError w
        else ret (File d) w
    end).

(** [os.path.exists(name)]: whether [os.stat] succeeds. *)
Definition os_path_exists (name : string) : M bool :=
  try_except (let* _ := os_stat name in ret true)
    (fun e => if is_OSError e || bool_decide (e = ValueError) then ret false
              else raise e).

(** [os.path.isdir(name)]. *)
Definition os_path_isdir (name : string) : M bool :=
  try_except
    (let* st := os_stat name in
     ret (match st with Dir => true | File _ => false end))
    (fun e => if is_OSError e || bool_decide (e = ValueError) then ret false
              else raise e).

(** [os.mkdir(name)]. *)
Definition os_mkdir (name : string) : M unit :=
  with_name name (fun p _ w =>
    match node_at (fs w) p with
    | Some _ => raise FileExistsError w
    | None => emit (EvMkdir p) w
    end).

(** The first lines of [os.makedirs]: [head, tail = path.split(name)],
    and once more on [head] when [tail] is empty. *)
Definition makedirs_split (name : string) : string * string :=
  let '(head, tail) := os_path_split name in
  if (tail =? "")%string then os_path_split head else (head, tail).

(** The last statement of [os.makedirs]: [mkdir], and with [exist_ok] an
    [OSError] is let go when a directory is there. *)
Definition mkdir_exist_ok (name : string) (exist_ok : bool) : M unit :=
  try_except (os_mkdir name)
    (fun e =>
       if is_OSError e then
         if negb exist_ok then raise e
         else
           let* isdir := os_path_isdir name in
           if negb isdir then raise e else ret tt
       else raise e).

(** [os.makedirs(name, exist_ok=exist_ok)].  The head is made first when
    it is not there, and a [FileExistsError] of that is passed over; a
    name that ends in [.] is then done.  The recursion is on a shorter
    name each time; [fuel] bounds it. *)
Fixpoint makedirs_loop (fuel : nat) (name : string) (exist_ok : bool) : M unit :=
  match fuel with
  | 0 => raise RecursionError
  | S fuel =>
      let '(head, tail) := makedirs_split name in
      let* done :=
        if negb (head =? "")%string && negb (tail =? "")%string then
          let* found := os_path_exists head in
          if found then ret false
          else
            let* _ :=
              try_except (makedirs_loop fuel head exist_ok)
                (fun e => if bool_decide (e = FileExistsError) then ret tt
                          else raise e) in
            ret (tail =? ".")%string
        else ret false in
      if done then ret tt else mkdir_exist_ok name exist_ok
  end.

Definition os_makedirs (name : string) (exist_ok : bool) : M unit :=
  makedirs_loop (S (String.length name)) name exist_ok.

(** The names [os.makedirs(name)] may call [mkdir] on: [name], the head
    of [name], the head of that, and so on. *)
Fixpoint makedirs_names (fuel : nat) (name : string) : list string :=
  match fuel with
  | 0 => []
  | S fuel =>
      name ::
      (let '(head, tail) := makedirs_split name in
       if negb (head =? "")%string && negb (tail =? "")%string
       then makedirs_names fuel head else [])
  end.

Definition makedirs_chain (name : string) : list string :=
  makedirs_names (S (String.length name)) name.

(** [ev] makes a directory where one of the names [names] leads. *)
Definition is_mkdir_of (cwd : path) (names : list string) (ev : event) : Prop :=
  exists h, h ∈ names /\ ev = EvMkdir (locate cwd h).

(** A run that only makes directories, where the names [names] lead:
    what was there stays as it was, and what is new is such a directory. *)
Definition only_mkdirs (w w' : world) (names : list string) : Prop :=
  exists evs, evolves w w' evs
    /\ Forall (is_mkdir_of (cwd w) names) evs
    /\ fs w ⊆ fs w'
    /\ (forall q n, fs w' !! q = Some n ->
          fs w !! q = Some n
          \/ (n = Dir /\ exists h, h ∈ names /\ q = locate (cwd w) h)).

(** [os.open(file, O_RDWR | O_CREAT | O_EXCL)]. *)
Definition os_open_excl (name : string) : M unit :=
  with_name name (fun p last w =>
    if bool_decide (last = Slash) then raise IsADirectoryError w
    else
      match node_at (fs w) p with
      | Some _ => raise FileExistsError w
      | None => emit (EvCreate p) w
      end).

(** [os.getcwd()] and [os.path.abspath(name)]. *)
Definition getcwd_of (cwd : path) : string := "/" ++ String.concat "/" cwd.

Definition abspath_of (cwd : path) (name : string) : string :=
  os_path_normpath
    (if String.prefix "/" name then name else os_path_join (getcwd_of cwd) name).

(** [tempfile._mkstemp_inner], after [dir] has been made absolute: try
    the drawn names until one is free. *)
Fixpoint mkstemp_inner (dir : string) (names : list string) : M string :=
  match names with
  | [] => raise FileExistsError
  | name :: rest =>
      fun w =>
        let file := os_path_join dir ("tmp" ++ name) in
        match os_open_excl file (set_tmp_names rest w) with
        | (Ok _, w') => (Ok file, w')
        | (Raise e, w') =>
            if bool_decide (e = FileExistsError) then mkstemp_inner dir rest w'
            else (Raise e, w')
        end
  end.

(** [tempfile.mkstemp(dir=dir)]; the descriptor it returns is the file of
    the returned name. *)
Definition tempfile_mkstemp (dir : string) : M string :=
  fun w => mkstemp_inner (abspath_of (cwd w) dir) (tmp_names w) w.

(** [f.write(data)] on the open file [name]. *)
Definition fd_write (name : string) (data : string) : M unit :=
  with_name name (fun p _ w =>
    match node_at (fs w) p with
    | Some (File _) => emit (EvAppend p data) w
    | Some Dir => raise IsADirectoryError w
    | None => raise FileNotFoundError w
    end).

(** [open(name, "w")] or [open(name, "a")]: the file is made when it is
    missing, and emptied when [truncate] is set. *)
Definition open_for_write (name : string) (truncate : bool) : M unit :=
  with_name name (fun p last w =>
    if bool_decide (last = Slash) then raise IsADirectoryError w
    else
      match node_at (fs w) p with
      | Some Dir => raise IsADirectoryError w
      | Some (File _) => if truncate then emit (EvCreate p) w else ret tt w
      | None => emit (EvCreate p) w
      end).

(** [open(name, "rb")]. *)
Definition open_rb (name : string) : M unit :=
  with_name name (fun p last w =>
    match node_at (fs w) p with
    | None => raise FileNotFoundError w
    | Some Dir => raise IsADirectoryError w
    | Some (File _) =>
        if bool_decide (last = Slash) then raise NotADirectoryError w
        else ret tt w
    end).

(** [f.read()] on the open file [name], to its end. *)
Definition read_file (name : string) : M string :=
  with_name name (fun p _ w =>
    match node_at (fs w) p with
    | Some (File d) => ret d w
    | Some Dir => raise IsADirectoryError w
    | None => raise FileNotFoundError w
    end).

(** [os.rename(src, dst)] for a regular file [src]; renaming a directory
    is not used by the module and reported as [OSError]. *)
Definition os_rename (src dst : string) : M unit :=
  with_name src (fun ps lasts =>
  with_name dst (fun pd lastd w =>
    if bool_decide (lasts = Dots) || bool_decide (lastd = Dots) then raise OSError w
    else
      match node_at (fs w) ps with
      | None => raise FileNotFoundError w
      | Some Dir => raise OSError w
      | Some (File _) =>
          if bool_decide (lasts = Slash) || bool_decide (lastd = Slash)
          then raise NotADirectoryError w
          else
            match node_at (fs w) pd with
            | Some Dir => raise IsADirectoryError w
            | _ => emit (EvRename ps pd) w
            end
      end)).

(** [os.unlink(name)]. *)
Definition os_unlink (name : string) : M unit :=
  with_name name (fun p last w =>
    match node_at (fs w) p with
    | None => raise FileNotFoundError w
    | Some Dir => raise IsADirectoryError w
    | Some (File _) =>
        if bool_decide (last = Slash) then raise NotADirectoryError w
        else emit (EvUnlink p) w
    end).

Definition logger_info (msg : string) : M unit := emit (EvLog INFO msg).
Definition logger_warning (msg : string) : M unit := emit (EvLog WARNING msg).

(** The longest common prefix of two paths taken off both. *)
Fixpoint strip_common (a b : path) : path * path :=
  match a, b with
  | x :: a', y :: b' => if (x =? y)%string then strip_common a' b' else (a, b)
  | _, _ => (a, b)
  end.

(** [os.path.relpath(name)], from the working directory. *)
Definition os_path_relpath (name : string) : M string :=
  fun w =>
    if (name =? "")%string then raise ValueError w
    else
      let '(start_rest, path_rest) := strip_common (cwd w) (locate (cwd w) name) in
      let rel_list := (replicate (length start_rest) ".." ++ path_rest)%list in
      match rel_list with
      | [] => ret "." w
      | _ => ret (String.concat "/" rel_list) w
      end.

(** Streams. A stream that is not in the table has been closed. *)
Definition str_take (n : nat) (s : string) : string := String.substring 0 n s.
Definition str_drop (n : nat) (s : string) : string :=
  String.substring n (String.length s - n) s.

(** Writing at the position: what is there is overwritten, a gap is filled
    with zeros, and the position moves on. *)
Definition buffer_write (data : string) (b : buffer) : buffer :=
  let old := b_data b in
  let padded :=
    old ++ string_of_list_ascii (replicate (b_pos b - String.length old) Ascii.zero) in
  {| b_text := b_text b;
     b_data := str_take (b_pos b) padded ++ data
               ++ str_drop (b_pos b + String.length data) old;
     b_pos := b_pos b + String.length data |}.

Definition stream_get (id : nat) : M buffer :=
  fun w =>
    match buffers w !! id with
    | Some b => ret b w
    | None => raise ValueError w
    end.

Definition stream_write (id : nat) (data : string) : M unit :=
  let* b := stream_get id in
  fun w => (Ok tt, set_buffers (<[id := buffer_write data b]> (buffers w)) w).

Definition stream_seek (id : nat) (pos : nat) : M unit :=
  let* b := stream_get id in
  fun w =>
    (Ok tt,
     set_buffers (<[id := {| b_text := b_text b; b_data := b_data b; b_pos := pos |}]>
                    (buffers w)) w).

(** What [datetime.datetime.now(datetime.UTC)] evaluates to: the attribute
    is looked up, then the clock is read. *)
Definition now_UTC_outcome (w : world) : result datetime :=
  if has_datetime_UTC w then
    match now_raises w with
    | Some e => Raise e
    | None => Ok {| dt_instant := instant w; dt_aware := true |}
    end
  else Raise AttributeError.

(** What [datetime.datetime.utcnow()] evaluates to. *)
Definition utcnow_outcome (w : world) : result datetime :=
  match utcnow_raises w with
  | Some e => Raise e
  | None => Ok {| dt_instant := instant w; dt_aware := false |}
  end.

Definition datetime_now_UTC : M datetime :=
  let* _ := emit (EvClock true) in
  fun w => (now_UTC_outcome w, w).

Definition datetime_utcnow : M datetime :=
  let* _ := emit (EvClock false) in
  fun w => (utcnow_outcome w, w).

(** ** Tables and the libraries that are only called *)

Record dataframe := {
  df_columns : list string;
  df_rows : list (list string)
}.

(** The argument [df]: a [pandas.DataFrame] or something else. *)
Inductive pyobj :=
| PyDataFrame (d : dataframe)
| PyOther.

(** The argument [filename]: a name or an open stream. *)
Inductive filename_arg :=
| FName (s : string)
| FStream (id : nat).

(** What [save_df_as_csv] returns: a [str] or the stream it was given. *)
Inductive dest_val :=
| DPath (s : string)
| DStream (id : nat).

(** The functions of other packages whose text or bytes the module only
    passes on: [snps.__version__], [datetime.strftime], the text
    [DataFrame.to_csv] writes for a table and its keyword arguments (or what
    it raises), the bytes of a gzip container of some data and of a zip
    archive of some entries. *)
Class External := {
  snps_version : string;
  strftime : datetime -> string -> string;
  to_csv : dataframe -> gmap string string -> result string;
  gzip_compress : string -> string;
  zip_encode : list (string * string) -> string
}.

(** [s.encode()]: text is kept as its UTF-8 bytes throughout. *)
Definition str_encode (s : string) : string := s.

Definition nl : string := String (ascii_of_nat 10) EmptyString.

(** ** [create_dir] *)

Definition create_dir (path : string) : M bool :=
  let* _ := os_makedirs path true in
  let* found := os_path_exists path in
  if found then ret true else ret false.

(** ** [get_utc_now] *)

Definition get_utc_now : M datetime :=
  let* utc_now :=
    try_except datetime_now_UTC
      (fun e => if bool_decide (e = AttributeError) then datetime_utcnow
                else raise e) in
  ret utc_now.

(** ** [save_df_as_csv] *)

(** The two lines put in front with [prepend_info]. *)
Definition info_header `{External} (now : datetime) : string :=
  "# Generated by snps v" ++ snps_version
  ++ ", https://pypi.org/project/snps/" ++ nl
  ++ "# Generated at " ++ strftime now "%Y-%m-%d %H:%M:%S" ++ " UTC" ++ nl.

(** [isinstance(df, pd.DataFrame) and len(df) > 0]. *)
Definition df_with_rows (df : pyobj) : option dataframe :=
  match df with
  | PyDataFrame d => if (0 <? length (df_rows d))%nat then Some d else None
  | PyOther => None
  end.

(** [if "na_rep" not in kwargs: kwargs["na_rep"] = "--"]. *)
Definition default_na_rep (kwargs : gmap string string) : gmap string string :=
  match kwargs !! "na_rep" with
  | None => <["na_rep" := "--"]> kwargs
  | Some _ => kwargs
  end.

(** [df.to_csv(name, mode="a", **kwargs)]: a [mode] among [kwargs] is a
    second value for the keyword. *)
Definition to_csv_append `{External} (d : dataframe) (name : string)
    (kwargs : gmap string string) : M unit :=
  match kwargs !! "mode" with
  | Some _ => raise TypeError
  | None =>
      match to_csv d kwargs with
      | Raise e => raise e
      | Ok body =>
          let* _ := open_for_write name false in
          fd_write name body
      end
  end.

(** [df.to_csv(stream, **kwargs)]. *)
Definition to_csv_stream `{External} (d : dataframe) (id : nat)
    (kwargs : gmap string string) : M unit :=
  match to_csv d kwargs with
  | Raise e => raise e
  | Ok body => stream_write id body
  end.

Definition save_df_as_csv `{External} (df : pyobj) (path : string)
    (filename : filename_arg) (comment : string) (prepend_info atomic : bool)
    (kwargs : gmap string string) : M dest_val :=
  let buffer := match filename with FStream _ => true | FName _ => false end in
  match df_with_rows df with
  | Some d =>
      let* stop :=
        if negb buffer then (let* made := create_dir path in ret (negb made))
        else ret false in
      if stop then ret (DPath "")
      else
        let* destination :=
          match filename with
          | FStream id => ret (DStream id)
          | FName f =>
              let destination := os_path_join path f in
              let* rel := os_path_relpath destination in
              let* _ := logger_info ("Saving " ++ rel) in
              ret (DPath destination)
          end in
        let* s :=
          if prepend_info then
            let* now := get_utc_now in
            ret (info_header now)
          else ret "" in
        let s := s ++ comment in
        let kwargs := default_na_rep kwargs in
        let* _ :=
          match destination with
          | DStream id =>
              let* b := stream_get id in
              let s := if negb (b_text b) then str_encode s else s in
              let* _ := stream_write id s in
              let* _ := to_csv_stream d id kwargs in
              stream_seek id 0
          | DPath destination =>
              if atomic then
                let* tmp_path := tempfile_mkstemp path in
                let* _ := fd_write tmp_path s in
                let* _ := to_csv_append d tmp_path kwargs in
                os_rename tmp_path destination
              else
                let* _ := open_for_write destination true in
                let* _ := fd_write destination s in
                to_csv_append d destination kwargs
          end in
        ret destination
  | None =>
      let* _ := logger_warning "no data to save..." in
      ret (DPath "")
  end.

(** The two ways [save_df_as_csv] writes to a path, on their own: the
    branch [elif atomic] and the branch [else]. *)
Definition write_atomic `{External} (d : dataframe) (path destination s : string)
    (kwargs : gmap string string) : M unit :=
  let* tmp_path := tempfile_mkstemp path in
  let* _ := fd_write tmp_path s in
  let* _ := to_csv_append d tmp_path kwargs in
  os_rename tmp_path destination.

Definition write_in_place `{External} (d : dataframe) (destination s : string)
    (kwargs : gmap string string) : M unit :=
  let* _ := open_for_write destination true in
  let* _ := fd_write destination s in
  to_csv_append d destination kwargs.

(** What happens before the writing: directories made, log records,
    calls to the clock. *)
Definition is_setup_event (ev : event) : Prop :=
  (exists q, ev = EvMkdir q)
  \/ (exists lvl msg, ev = EvLog lvl msg)
  \/ (exists aware, ev = EvClock aware).

(** ** [zip_file] and [gzip_file] *)

(** The name of the temporary file [atomic_write] makes for [dest] when
    [mkstemp] draws [name]. *)
Definition atomic_tmp (cwd : path) (dest name : string) : string :=
  os_path_join (abspath_of cwd (os_path_normpath (os_path_dirname dest)))
    ("tmp" ++ name).

(** [with atomic_write(dest, mode="wb", overwrite=True) as f: body f]
    (package atomicwrites): a temporary file beside [dest], the body, then
    the rename onto [dest]; when the body or the rename raises, the
    temporary file is removed and the exception goes on. *)
Definition atomic_write {A} (dest : string) (body : string -> M A) : M A :=
  let* f := tempfile_mkstemp (os_path_normpath (os_path_dirname dest)) in
  try_except
    (let* a := body f in
     let* _ := os_rename f dest in
     ret a)
    (fun e =>
       let* _ := try_except (os_unlink f) (fun _ => ret tt) in
       raise e).

Fixpoint lstrip_slash (s : string) : string :=
  match s with
  | String c s' => if is_slash c then lstrip_slash s' else s
  | EmptyString => EmptyString
  end.

(** The text before the first NUL. *)
Fixpoint until_nul (s : string) : string :=
  match s with
  | String c s' => if Ascii.eqb c Ascii.zero then EmptyString else String c (until_nul s')
  | EmptyString => EmptyString
  end.

(** The name [ZipInfo.from_file] and [ZipInfo.__init__] give the entry:
    [arcname] normalised, without the slashes it starts with (indexing the
    name raises when nothing is left), with a slash at the end for a
    directory, and cut at a NUL. *)
Definition ZipInfo_filename (arcname : string) (isdir : bool) : result string :=
  let arcname := lstrip_slash (os_path_normpath arcname) in
  if (arcname =? "")%string then Raise IndexError
  else
    let arcname := if isdir then arcname ++ "/" else arcname in
    Ok (until_nul arcname).

(** [ZipInfo.is_dir()]: [self.filename[-1] == '/'], which raises for the
    empty name. *)
Definition ZipInfo_is_dir (name : string) : result bool :=
  if (name =? "")%string then Raise IndexError else Ok (endswith_slash name).

(** [ZipFile.write(src, arcname=arcname)]: the entry that is added.  The
    name decides what is stored: an entry whose name ends with a slash is
    made as a directory, without content, and for any other name [src] is
    opened and copied. *)
Definition ZipFile_write (src arcname : string) : M (string * string) :=
  let* st := os_stat src in
  match ZipInfo_filename arcname (bool_decide (st = Dir)) with
  | Raise e => raise e
  | Ok name =>
      match ZipInfo_is_dir name with
      | Raise e => raise e
      | Ok true => ret (name, "")
      | Ok false =>
          let* data := read_file src in
          ret (name, data)
      end
  end.

(** [with zipfile.ZipFile(f, "w") as f_zip: body]: the archive is closed,
    and so written out, also when the body raises. *)
Definition with_ZipFile `{External} (f : string)
    (body : M (list (string * string))) : M unit :=
  fun w =>
    match body w with
    | (Ok entries, w') => fd_write f (zip_encode entries) w'
    | (Raise e, w') => (let* _ := fd_write f (zip_encode []) in raise e) w'
    end.

Definition zip_file `{External} (src dest arcname : string) : M string :=
  let* _ :=
    atomic_write dest (fun f =>
      with_ZipFile f (let* entry := ZipFile_write src arcname in ret [entry])) in
  ret dest.

Definition gzip_file `{External} (src dest : string) : M string :=
  let* _ := open_rb src in
  let* _ :=
    atomic_write dest (fun f_out =>
      let* data := read_file src in
      fd_write f_out (gzip_compress data)) in
  ret dest.

(** ** Worlds and libraries to run the code on *)

(** A home directory, two temporary names to draw, a runtime with
    [datetime.UTC]. *)
Definition demo_world : world :=
  {| cwd := ["home"];
     fs := {[ ["home"] := Dir ]};
     trace := [];
     tmp_names := ["a1b2c3d4"; "e5f6g7h8"];
     has_datetime_UTC := true;
     now_raises := None;
     utcnow_raises := None;
     instant := 1700000000%Z;
     buffers := ∅ |}.

(** Stand-ins for the libraries: a CSV writer that joins the cells with
    commas, a gzip container that is a two-byte mark and the data, a zip
    archive of one entry that is the escaped name and the data. *)
Definition demo_to_csv (d : dataframe) (kwargs : gmap string string) : result string :=
  Ok (String.concat nl (map (String.concat ",") (df_columns d :: df_rows d)) ++ nl).

Definition demo_gzip_compress (data : string) : string := "GZ" ++ data.

Definition demo_gzip_decompress (z : string) : option string :=
  match z with
  | String "G" (String "Z" data) => Some data
  | _ => None
  end.

(** Each character of the name after a [1], then a [0]. *)
Fixpoint demo_escape (name : string) : string :=
  match name with
  | EmptyString => "0"
  | String c rest => String "1" (String c (demo_escape rest))
  end.

Fixpoint demo_unescape (z : string) : option (string * string) :=
  match z with
  | String "0" rest => Some (EmptyString, rest)
  | String "1" (String c rest) =>
      match demo_unescape rest with
      | Some (name, data) => Some (String c name, data)
      | None => None
      end
  | _ => None
  end.

Definition demo_zip_encode (entries : list (string * string)) : string :=
  match entries with
  | [(name, data)] => demo_escape name ++ data
  | _ => ""
  end.

Definition demo_zip_decode (z : string) : option (list (string * string)) :=
  match demo_unescape z with
  | Some (name, data) => Some [(name, data)]
  | None => None
  end.

Definition demo_external : External :=
  {| snps_version := "2.1.0";
     strftime := fun _ _ => "2023-11-14 22:13:20";
     to_csv := demo_to_csv;
     gzip_compress := demo_gzip_compress;
     zip_encode := demo_zip_encode |}.

Definition demo_df : dataframe :=
  {| df_columns := ["rsid"; "chrom"; "pos"];
     df_rows := [["rs1"; "1"; "101"]; ["rs2"; "1"; "102"]] |}.

Definition empty_df : dataframe :=
  {| df_columns := ["rsid"; "chrom"; "pos"]; df_rows := [] |}.

(** [demo_world] with a directory [out] and a file in it. *)
Definition demo_world_src : world :=
  {| cwd := ["home"];
     fs := {[ ["home"] := Dir; ["home"; "out"] := Dir;
              ["home"; "out"; "snps.csv"] := File "rsid,chrom,pos" ]};
     trace := [];
     tmp_names := ["a1b2c3d4"; "e5f6g7h8"];
     has_datetime_UTC := true;
     now_raises := None;
     utcnow_raises := None;
     instant := 1700000000%Z;
     buffers := ∅ |}.

(** A name of one component: not empty, not [.] or [..], with no slash
    and no NUL in it. *)
Definition is_plain_name (name : string) : bool :=
  negb (name =? "")%string && negb (name =? ".")%string
  && negb (name =? "..")%string
  && forallb (fun c => negb (is_slash c) && negb (Ascii.eqb c Ascii.zero))
       (list_ascii_of_string name).

(** [demo_world] with an empty text stream open. *)
Definition demo_world_stream : world :=
  {| cwd := ["home"];
     fs := {[ ["home"] := Dir ]};
     trace := [];
     tmp_names := ["a1b2c3d4"; "e5f6g7h8"];
     has_datetime_UTC := false;
     now_raises := None;
     utcnow_raises := None;
     instant := 1700000000%Z;
     buffers := {[ 3 := {| b_text := true; b_data := ""; b_pos := 0 |} ]} |}.

(* ===================================================================== *)
(** * Part II: theorems *)
(* ===================================================================== *)

(** ** [clean_str] *)

Section CleanStr.
Context `{UnicodeDB}.

Lemma underscore_is_word : SRE_UNI_IS_WORD underscore = true.
Proof. unfold SRE_UNI_IS_WORD. apply orb_true_r. Qed.

Lemma underscore_not_decimal : Py_UNICODE_ISDECIMAL underscore = false.
Proof. reflexivity. Qed.

Lemma sanitize_char_word c : SRE_UNI_IS_WORD (sanitize_char c) = true.
Proof.
  unfold sanitize_char. destruct (SRE_UNI_IS_WORD c) eqn:E; [exact E|].
  apply underscore_is_word.
Qed.

Lemma sanitize_char_id c : SRE_UNI_IS_WORD c = true -> sanitize_char c = c.
Proof. unfold sanitize_char. intros ->. reflexivity. Qed.

(** After the start of the string only [\W] can match. *)
Lemma sre_match_inside ma (s : str) :
  Re.sre_match clean_str_pattern false ma s =
  match s with
  | c :: _ => if SRE_UNI_IS_WORD c then None else Some 1
  | [] => None
  end.
Proof.
  unfold Re.sre_match. cbn [clean_str_pattern Re.match_lens].
  destruct s as [|c s]; cbn; [reflexivity|].
  destruct (SRE_UNI_IS_WORD c); cbn; [reflexivity|].
  rewrite orb_true_r. reflexivity.
Qed.

Lemma sub_loop_inside (s : str) : forall fuel ma,
  length s < fuel ->
  Re.sub_loop fuel clean_str_pattern [underscore] false ma s
  = Some (map sanitize_char s).
Proof.
  induction s as [|c s IH]; intros fuel ma Hf.
  - destruct fuel as [|fuel]; [lia|]. cbn [Re.sub_loop].
    rewrite sre_match_inside. reflexivity.
  - destruct fuel as [|fuel]; [simpl in Hf; lia|]. cbn [Re.sub_loop].
    rewrite sre_match_inside. cbn [map]. unfold sanitize_char at 1.
    simpl in Hf.
    destruct (SRE_UNI_IS_WORD c).
    + rewrite IH by lia. reflexivity.
    + cbn [drop]. change (drop 0 s) with s. rewrite IH by lia. reflexivity.
Qed.

(** At the start of the string: [\W] first, else the empty match in front
    of a digit. *)
Lemma sre_match_start ma (c : char) (s : str) :
  Re.sre_match clean_str_pattern true ma (c :: s) =
  if SRE_UNI_IS_WORD c then
    if Py_UNICODE_ISDECIMAL c && negb ma then Some 0 else None
  else Some 1.
Proof.
  unfold Re.sre_match. cbn.
  destruct (SRE_UNI_IS_WORD c); cbn.
  - destruct (Py_UNICODE_ISDECIMAL c); cbn; [|reflexivity].
    destruct ma; reflexivity.
  - rewrite orb_true_r. reflexivity.
Qed.

Lemma sub_loop_S fuel p repl bol ma (s : str) :
  Re.sub_loop (S fuel) p repl bol ma s =
  match Re.sre_match p bol ma s with
  | Some O => app repl <$> Re.sub_loop fuel p repl bol true s
  | Some (S k) => app repl <$> Re.sub_loop fuel p repl false false (drop (S k) s)
  | None =>
      match s with
      | [] => Some []
      | c :: s' => cons c <$> Re.sub_loop fuel p repl false false s'
      end
  end.
Proof. reflexivity. Qed.

(** [clean_str] returns, and what it returns is [clean_str_chars]. *)
Lemma clean_str_eq (s : str) : clean_str s = Some (clean_str_chars s).
Proof.
  unfold clean_str, Re.sub. destruct s as [|c s].
  - reflexivity.
  - cbn [length].
    replace (2 * S (length s) + 2) with (S (S (S (S (2 * length s))))) by lia.
    assert (Hn : length s < S (S (2 * length s))) by lia.
    revert Hn. generalize (S (S (2 * length s))). intros n Hn.
    rewrite sub_loop_S, sre_match_start. cbn [negb]. rewrite andb_true_r.
    unfold clean_str_chars. cbn [map]. unfold sanitize_char at 1.
    destruct (SRE_UNI_IS_WORD c) eqn:Ew.
    + destruct (Py_UNICODE_ISDECIMAL c) eqn:Ed; cbn [andb].
      * rewrite sub_loop_S, sre_match_start, Ew, Ed. cbn [andb negb].
        rewrite sub_loop_inside by lia. reflexivity.
      * rewrite sub_loop_inside by lia. reflexivity.
    + cbn [andb drop]. change (drop 0 s) with s.
      rewrite sub_loop_inside by lia. reflexivity.
Qed.

Lemma clean_str_chars_word (s : str) :
  Forall (fun c => SRE_UNI_IS_WORD c = true) (clean_str_chars s).
Proof.
  unfold clean_str_chars. destruct s as [|c s]; [constructor|].
  apply Forall_app. split.
  - destruct (_ && _); [|constructor].
    constructor; [apply underscore_is_word|constructor].
  - apply Forall_forall. intros x Hx. apply list_elem_of_In, in_map_iff in Hx.
    destruct Hx as (y & <- & _). apply sanitize_char_word.
Qed.

Lemma clean_str_chars_head (s : str) (c : char) :
  head (clean_str_chars s) = Some c -> Py_UNICODE_ISDECIMAL c = false.
Proof.
  unfold clean_str_chars. destruct s as [|x s]; [discriminate|].
  destruct (SRE_UNI_IS_WORD x) eqn:Ew; cbn [andb].
  - destruct (Py_UNICODE_ISDECIMAL x) eqn:Ed; cbn.
    + intros [= <-]. apply underscore_not_decimal.
    + unfold sanitize_char. rewrite Ew. intros [= <-]. exact Ed.
  - cbn. unfold sanitize_char. rewrite Ew. intros [= <-].
    apply underscore_not_decimal.
Qed.

Lemma map_sanitize_char_id (s : str) :
  Forall (fun c => SRE_UNI_IS_WORD c = true) s -> map sanitize_char s = s.
Proof.
  induction 1 as [|x l Hx _ IH]; [reflexivity|].
  cbn [map]. rewrite (sanitize_char_id x Hx), IH. reflexivity.
Qed.

(** A string of word characters that does not start with a digit is left
    as it is. *)
Lemma clean_str_chars_fixed (s : str) :
  Forall (fun c => SRE_UNI_IS_WORD c = true) s ->
  (forall c, head s = Some c -> Py_UNICODE_ISDECIMAL c = false) ->
  clean_str_chars s = s.
Proof.
  intros Hw Hd. unfold clean_str_chars. destruct s as [|c s]; [reflexivity|].
  rewrite (Hd c eq_refl), andb_false_r. cbn [app].
  apply map_sanitize_char_id, Hw.
Qed.

(** C1 (as the code has it): on ["1st place!"] the sanitizer returns
    ["_1st_place_"]: an underscore is put in front of the leading digit,
    which stays; the space and the [!] each become an underscore; the
    letters are unchanged. *)
Theorem clean_str_1st_place :
  clean_str (py_str "1st place!") = Some (py_str "_1st_place_").
Proof. rewrite clean_str_eq. reflexivity. Qed.

(** C6: for every string, [clean_str] returns, every character of the
    result is a word character (a letter, a digit or the underscore), and
    the first character, if there is one, is no digit. *)
Theorem clean_str_identifier (s : str) :
  exists t, clean_str s = Some t
    /\ Forall (fun c => SRE_UNI_IS_WORD c = true) t
    /\ (forall c, head t = Some c -> Py_UNICODE_ISDECIMAL c = false).
Proof.
  exists (clean_str_chars s). split; [apply clean_str_eq|]. split.
  - apply clean_str_chars_word.
  - apply clean_str_chars_head.
Qed.

(** C9: [clean_str] is idempotent: cleaning what it returned returns the
    same string, [clean_str(clean_str(s)) = clean_str(s)]. *)
Theorem clean_str_idempotent (s : str) :
  clean_str s ≫= clean_str = clean_str s.
Proof.
  rewrite clean_str_eq. cbn [mbind option_bind]. rewrite clean_str_eq.
  f_equal. apply clean_str_chars_fixed.
  - apply clean_str_chars_word.
  - apply clean_str_chars_head.
Qed.

(** X1: [clean_str] returns the input with every character that is no
    word character replaced by an underscore, and with one underscore in
    front when the first character is a digit; nothing else changes. *)
Theorem clean_str_characterised (s : str) :
  clean_str s =
  Some (match s with
        | [] => []
        | c :: _ =>
            ((if SRE_UNI_IS_WORD c && Py_UNICODE_ISDECIMAL c then [underscore] else [])
             ++ map (fun c => if SRE_UNI_IS_WORD c then c else underscore) s)%list
        end).
Proof. rewrite clean_str_eq. reflexivity. Qed.

(** X2: a string that is an identifier already (word characters only, no
    digit in front) is returned unchanged. *)
Theorem clean_str_identifier_unchanged (s : str) :
  Forall (fun c => SRE_UNI_IS_WORD c = true) s ->
  (forall c, head s = Some c -> Py_UNICODE_ISDECIMAL c = false) ->
  clean_str s = Some s.
Proof.
  intros Hw Hd. rewrite clean_str_eq. f_equal. apply clean_str_chars_fixed; assumption.
Qed.

(** X3: [clean_str] never drops a character: the result is as long as the
    input, and one longer when the input starts with a digit. *)
Theorem clean_str_length (s : str) :
  exists t, clean_str s = Some t
    /\ length t = length s
                  + match s with
                    | c :: _ => if SRE_UNI_IS_WORD c && Py_UNICODE_ISDECIMAL c then 1 else 0
                    | [] => 0
                    end.
Proof.
  exists (clean_str_chars s). split; [apply clean_str_eq|].
  unfold clean_str_chars. destruct s as [|c s]; [reflexivity|].
  rewrite length_app, length_map. destruct (_ && _); cbn; lia.
Qed.

End CleanStr.

(** C1 (as the spec has it) fails: the result is not ["_st_place_"], the
    digit is kept. *)
Lemma clean_str_1st_place_not_spec :
  @clean_str ascii_only_db (py_str "1st place!") <> Some (py_str "_st_place_").
Proof. rewrite clean_str_eq. discriminate. Qed.

Lemma clean_str_identifier_unchanged_witness :
  (Forall (fun c => @SRE_UNI_IS_WORD ascii_only_db c = true) (py_str "rs_id2")
   /\ (forall c, head (py_str "rs_id2") = Some c ->
         @Py_UNICODE_ISDECIMAL ascii_only_db c = false))
  /\ @clean_str ascii_only_db (py_str "rs_id2") = Some (py_str "rs_id2").
Proof.
  assert (H1 : Forall (fun c => @SRE_UNI_IS_WORD ascii_only_db c = true) (py_str "rs_id2")).
  { repeat constructor. }
  assert (H2 : forall c, head (py_str "rs_id2") = Some c ->
                 @Py_UNICODE_ISDECIMAL ascii_only_db c = false).
  { intros c [= <-]. reflexivity. }
  split; [exact (conj H1 H2)|].
  exact (@clean_str_identifier_unchanged ascii_only_db (py_str "rs_id2") H1 H2).
Defined.

(** ** [Parallelizer] *)

Section PoolMap.
Context {A B : Type} (f : A -> B).

Lemma div_eq_iff (j cs i : nat) :
  0 < cs -> j / cs = i <-> i * cs <= j < (i + 1) * cs.
Proof.
  intros Hcs. pose proof (Nat.div_mod_eq j cs) as E.
  pose proof (Nat.mod_upper_bound j cs ltac:(lia)) as U.
  split; [intros <-; nia|]. intros [L R].
  assert (~ j / cs < i) by nia. assert (~ i < j / cs) by nia. lia.
Qed.

Lemma chunksize_pos (len nproc : nat) :
  0 < len -> 0 < nproc -> 0 < Pool.chunksize len nproc.
Proof.
  intros Hl Hn. unfold Pool.chunksize.
  destruct (len =? 0)%nat eqn:E0; [apply Nat.eqb_eq in E0; lia|].
  destruct (len mod (nproc * 4) =? 0)%nat eqn:E; [|lia].
  apply Nat.eqb_eq in E. pose proof (Nat.div_mod_eq len (nproc * 4)). nia.
Qed.

Lemma get_tasks_lookup (cs : nat) : 0 < cs ->
  forall fuel (l : list A) i, length l <= fuel ->
  Pool.get_tasks fuel cs l !! i =
  if decide (i * cs < length l) then Some (take cs (drop (i * cs) l)) else None.
Proof.
  intros Hcs. induction fuel as [|fuel IH]; intros l i Hl.
  - destruct l; [|simpl in Hl; lia]. rewrite decide_False by (simpl; lia). reflexivity.
  - cbn [Pool.get_tasks]. destruct l as [|x l].
    + rewrite take_nil. rewrite decide_False by (simpl; lia). reflexivity.
    + destruct cs as [|cs]; [lia|]. cbn [take].
      destruct i as [|i].
      * simpl. reflexivity.
      * cbn [lookup list_lookup]. change (list_lookup i) with (lookup (M:=list (list A)) i).
        rewrite IH by (rewrite length_drop; simpl in *; lia).
        rewrite length_drop, drop_drop. cbn [length].
        replace (S cs + i * S cs) with (S i * S cs) by lia.
        repeat case_decide; try reflexivity; lia.
Qed.

Lemma num_batches_spec (len nproc i : nat) :
  0 < Pool.chunksize len nproc ->
  i < Pool.num_batches len nproc <-> i * Pool.chunksize len nproc < len.
Proof.
  unfold Pool.num_batches. generalize (Pool.chunksize len nproc). intros cs Hcs.
  destruct (cs =? 0)%nat eqn:E0; [apply Nat.eqb_eq in E0; lia|].
  pose proof (Nat.div_mod_eq len cs) as E.
  pose proof (Nat.mod_upper_bound len cs ltac:(lia)) as U.
  destruct (len mod cs =? 0)%nat eqn:Em.
  - apply Nat.eqb_eq in Em. split; intros; nia.
  - apply Nat.eqb_neq in Em. split; intros; nia.
Qed.

Lemma get_tasks_length (tasks : list A) (nproc : nat) :
  0 < Pool.chunksize (length tasks) nproc ->
  length (Pool.get_tasks (length tasks) (Pool.chunksize (length tasks) nproc) tasks)
  = Pool.num_batches (length tasks) nproc.
Proof.
  intros Hcs.
  set (bs := Pool.get_tasks _ _ _).
  assert (Hb : forall i, i < length bs <-> i < Pool.num_batches (length tasks) nproc).
  { intros i. rewrite num_batches_spec by exact Hcs.
    rewrite <- lookup_lt_is_Some. unfold bs.
    rewrite get_tasks_lookup by lia. case_decide.
    - split; [lia | eauto].
    - split; [intros [? ?]; discriminate | lia]. }
  pose proof (Hb (length bs)). pose proof (Hb (Pool.num_batches (length tasks) nproc)).
  lia.
Qed.

Lemma filled_length cs done (tasks : list A) :
  length (Pool.filled f cs done tasks) = length tasks.
Proof. unfold Pool.filled. apply length_imap. Qed.

Lemma filled_lookup cs done (tasks : list A) j :
  Pool.filled f cs done tasks !! j =
  (fun t => if bool_decide (j / cs ∈ done) then Some (f t) else None) <$> tasks !! j.
Proof. unfold Pool.filled. apply list_lookup_imap. Qed.

(** Storing chunk [i] fills its slots and touches no other. *)
Lemma slice_assign_filled cs done (tasks : list A) i :
  0 < cs -> i * cs < length tasks ->
  Pool.slice_assign (i * cs) ((i + 1) * cs)
    (map Some (map f (take cs (drop (i * cs) tasks))))
    (Pool.filled f cs done tasks)
  = Pool.filled f cs (i :: done) tasks.
Proof.
  intros Hcs Hi. unfold Pool.slice_assign.
  change (map Some (map f ?l)) with (Some <$> (f <$> l)).
  apply list_eq. intros j.
  rewrite (filled_lookup cs (i :: done)).
  set (v := Pool.filled f cs done tasks).
  assert (Hv : length v = length tasks) by apply filled_length.
  set (r := Some <$> (f <$> take cs (drop (i * cs) tasks))).
  assert (Hr : length r = cs `min` (length tasks - i * cs)).
  { unfold r. rewrite !length_fmap, length_take, length_drop. reflexivity. }
  assert (Ha : length (take (i * cs) v) = i * cs).
  { rewrite length_take. lia. }
  destruct (decide (j < i * cs)) as [Hj|Hj].
  - rewrite lookup_app_l by lia. rewrite lookup_take_lt by lia.
    unfold v. rewrite filled_lookup.
    destruct (tasks !! j) as [t|]; [|reflexivity]. cbn.
    assert (j / cs <> i) by (rewrite div_eq_iff by lia; lia).
    rewrite (bool_decide_ext (j / cs ∈ i :: done) (j / cs ∈ done)); [reflexivity|].
    rewrite elem_of_cons. intuition congruence.
  - rewrite lookup_app_r by lia. rewrite Ha.
    destruct (decide (j - i * cs < length r)) as [Hjr|Hjr].
    + rewrite lookup_app_l by lia. unfold r.
      rewrite !list_lookup_fmap, lookup_take_lt by lia. rewrite lookup_drop.
      replace (i * cs + (j - i * cs)) with j by lia.
      destruct (tasks !! j) as [t|]; [|reflexivity]. cbn.
      assert (j / cs = i) as -> by (rewrite div_eq_iff by lia; lia).
      rewrite bool_decide_eq_true_2 by (apply elem_of_cons; auto). reflexivity.
    + rewrite lookup_app_r by lia. rewrite lookup_drop.
      destruct (decide (j < length tasks)) as [Hjl|Hjl].
      * assert (length r = cs) by lia.
        replace ((i + 1) * cs + (j - i * cs - length r)) with j by lia.
        unfold v. rewrite filled_lookup.
        destruct (tasks !! j) as [t|]; [|reflexivity]. cbn.
        assert (j / cs <> i) by (rewrite div_eq_iff by lia; lia).
        rewrite (bool_decide_ext (j / cs ∈ i :: done) (j / cs ∈ done)); [reflexivity|].
        rewrite elem_of_cons. intuition congruence.
      * rewrite (lookup_ge_None_2 tasks j) by lia.
        apply lookup_ge_None_2. lia.
Qed.

Lemma foldl_complete_filled (nproc : nat) (tasks : list A) :
  let cs := Pool.chunksize (length tasks) nproc in
  let batches := Pool.get_tasks (length tasks) cs tasks in
  0 < cs ->
  forall order done n,
  Forall (fun i => i * cs < length tasks) order ->
  foldl (Pool.complete f cs batches)
    {| Pool._value := Pool.filled f cs done tasks; Pool._number_left := n |} order
  = {| Pool._value := Pool.filled f cs (rev order ++ done) tasks;
       Pool._number_left := n - length order |}.
Proof.
  intros cs batches Hcs. induction order as [|i order IH]; intros done n Ho.
  - simpl. f_equal. lia.
  - apply Forall_cons in Ho as [Hi Ho]. cbn [foldl].
    unfold Pool.complete at 2. unfold batches at 2.
    rewrite get_tasks_lookup by lia. rewrite decide_True by exact Hi.
    unfold Pool.MapResult_set. cbn [Pool._value Pool._number_left].
    rewrite slice_assign_filled by assumption.
    rewrite IH by exact Ho. cbn [rev length].
    rewrite <- app_assoc. cbn [app]. f_equal. lia.
Qed.

Lemma filled_all cs done (tasks : list A) :
  (forall j, j < length tasks -> j / cs ∈ done) ->
  Pool.filled f cs done tasks = Some <$> (f <$> tasks).
Proof.
  intros Hd. apply list_eq. intros j. rewrite filled_lookup, !list_lookup_fmap.
  destruct (tasks !! j) as [t|] eqn:E; [|reflexivity]. cbn.
  rewrite bool_decide_eq_true_2; [reflexivity|].
  apply Hd. apply lookup_lt_Some in E. exact E.
Qed.

Lemma filled_none cs (tasks : list A) :
  Pool.filled f cs [] tasks = replicate (length tasks) None.
Proof.
  apply list_eq. intros j. rewrite filled_lookup.
  destruct (tasks !! j) as [t|] eqn:E; cbn.
  - rewrite bool_decide_eq_false_2 by (apply not_elem_of_nil).
    symmetry. apply lookup_replicate_2. apply lookup_lt_Some in E. exact E.
  - symmetry. apply lookup_replicate_None. apply lookup_ge_None in E. exact E.
Qed.

(** [Pool.map] returns [f] of each task, in the order of the tasks, in
    whatever order the chunks finish. *)
Lemma Pool_map_eq (nproc : nat) (order : list nat) (tasks : list A) :
  0 < nproc ->
  Permutation order (seq 0 (Pool.num_batches (length tasks) nproc)) ->
  Pool.map nproc order f tasks = Some (map f tasks).
Proof.
  intros Hn Hp. unfold Pool.map.
  destruct (decide (length tasks = 0)) as [H0|H0].
  - destruct tasks; [|discriminate]. cbn in Hp.
    apply Permutation_nil_r in Hp. subst order. reflexivity.
  - pose proof (chunksize_pos (length tasks) nproc ltac:(lia) Hn) as Hcs.
    assert (Ho : Forall (fun i => i * Pool.chunksize (length tasks) nproc < length tasks) order).
    { apply Forall_forall. intros i Hi. apply num_batches_spec; [exact Hcs|].
      rewrite Hp in Hi. apply elem_of_seq in Hi. lia. }
    unfold Pool.MapResult_init. rewrite <- filled_none with (cs := Pool.chunksize (length tasks) nproc).
    rewrite foldl_complete_filled by assumption.
    cbn [Pool._value Pool._number_left].
    assert (Hlen : length order = Pool.num_batches (length tasks) nproc).
    { rewrite Hp. apply length_seq. }
    unfold Pool.num_batches in Hlen.
    destruct (Pool.chunksize (length tasks) nproc =? 0)%nat eqn:E0;
      [apply Nat.eqb_eq in E0; lia|].
    rewrite Hlen, Nat.sub_diag. cbn [Nat.eqb].
    rewrite filled_all.
    + change (map f tasks) with (f <$> tasks). apply mapM_fmap_Some. reflexivity.
    + intros j Hj. rewrite app_nil_r.
      apply list_elem_of_In, in_rev, list_elem_of_In. rewrite rev_involutive, Hp.
      apply elem_of_seq. split; [lia|]. cbn.
      apply num_batches_spec; [exact Hcs|].
      pose proof (Nat.div_mod_eq j (Pool.chunksize (length tasks) nproc)). nia.
Qed.

End PoolMap.

Lemma next_all_eq {A B} (f : A -> B) (src : list A) :
  next_all (length src) {| map_func := f; map_iter := src |} = map f src.
Proof.
  induction src as [|x src IH]; [reflexivity|].
  cbn [length next_all]. unfold map_next. cbn [map_iter map_func map].
  rewrite IH. reflexivity.
Qed.

(** C7: for a pure function [f] and a list of tasks, the outputs of the
    [Parallelizer] are [f] of each task in the order of the tasks, with
    [parallelize] false (the lazy [map]) and with [parallelize] true (a pool
    that has at least one worker, each of whose chunks finishes once, in any
    order). *)
Theorem Parallelizer_call_order {A B} (self : Parallelizer) (cpu_count : option Z)
    (order : list nat) (f : A -> B) (tasks : list A) :
  (_parallelize self = true ->
   exists nproc, Pool.processes_of (_processes self) cpu_count = Ok nproc
     /\ Permutation order (seq 0 (Pool.num_batches (length tasks) nproc))) ->
  exists o, Parallelizer_call self cpu_count order f tasks = Some (Ok o)
    /\ outputs_list o = map f tasks.
Proof.
  intros Hpar. unfold Parallelizer_call. destruct (_parallelize self).
  - destruct (Hpar eq_refl) as (nproc & Hn & Hp). rewrite Hn.
    assert (0 < nproc).
    { unfold Pool.processes_of in Hn.
      destruct (_ <? 1)%Z eqn:E; [discriminate|]. apply Z.ltb_ge in E.
      injection Hn as <-. lia. }
    rewrite Pool_map_eq by assumption. eexists. split; reflexivity.
  - eexists. split; [reflexivity|]. cbn. apply next_all_eq.
Qed.

Lemma Parallelizer_call_order_witness :
  exists o,
    Parallelizer_call {| _parallelize := true; _processes := Some 1%Z |} None
      [1; 0; 2] S [10; 20; 30; 40; 50; 60] = Some (Ok o)
    /\ outputs_list o = map S [10; 20; 30; 40; 50; 60].
Proof.
  apply (Parallelizer_call_order
           {| _parallelize := true; _processes := Some 1%Z |} None
           [1; 0; 2] S [10; 20; 30; 40; 50; 60]).
  intros _. exists 1. split; [reflexivity|]. apply perm_swap.
Defined.

(** X4: with [parallelize] set and a number of processes below one, the
    call raises [ValueError] (the pool cannot be built), whatever the
    function and the tasks; nothing is computed. *)
Theorem Parallelizer_call_no_worker {A B} (self : Parallelizer) (cpu_count : option Z)
    (order : list nat) (f : A -> B) (tasks : list A) (n : Z) :
  _parallelize self = true ->
  _processes self = Some n ->
  (n < 1)%Z ->
  Parallelizer_call self cpu_count order f tasks = Some (Raise ValueError).
Proof.
  intros Hp Hn Hlt. unfold Parallelizer_call, Pool.processes_of. rewrite Hp, Hn.
  destruct (n <? 1)%Z eqn:E; [reflexivity|]. apply Z.ltb_ge in E. lia.
Qed.

Lemma Parallelizer_call_no_worker_witness :
  (true = true /\ Some 0%Z = Some 0%Z /\ (0 < 1)%Z)
  /\ Parallelizer_call {| _parallelize := true; _processes := Some 0%Z |} (Some 8%Z)
       [] S [1; 2; 3] = Some (Raise ValueError).
Proof.
  split; [repeat split; reflexivity|].
  exact (Parallelizer_call_no_worker
           {| _parallelize := true; _processes := Some 0%Z |} (Some 8%Z)
           [] S [1; 2; 3] 0%Z eq_refl eq_refl eq_refl).
Defined.

(** ** [Singleton] *)

Section SingletonFacts.
Import Meta.
Context {Args : Type} (init : class_id -> Args -> option exn).

(** Once a class is in the registry, constructing it gives the registered
    object and changes nothing. *)
Lemma Singleton_call_cached cls args (st : interp Args) r :
  _instances st !! cls = Some r ->
  Singleton_call init cls args st = (Ok r, st).
Proof. intros Hr. unfold Singleton_call. rewrite Hr. cbn. rewrite Hr. reflexivity. Qed.

(** A construction that returns has its object in the registry. *)
Lemma Singleton_call_registers cls args (st st' : interp Args) r :
  Singleton_call init cls args st = (Ok r, st') ->
  _instances st' !! cls = Some r.
Proof.
  unfold Singleton_call. destruct (_instances st !! cls) as [r0|] eqn:E.
  - cbn. rewrite E. intros [= <- <-]. exact E.
  - unfold type_call. destruct (init cls args); [discriminate|].
    cbn. rewrite lookup_insert_eq. intros [= <- <-]. cbn.
    apply lookup_insert_eq.
Qed.

(** No construction, of any class, changes an entry of the registry. *)
Lemma Singleton_call_keeps cls r c args (st st' : interp Args) res :
  _instances st !! cls = Some r ->
  Singleton_call init c args st = (res, st') ->
  _instances st' !! cls = Some r.
Proof.
  intros Hr. unfold Singleton_call.
  destruct (_instances st !! c) as [r0|] eqn:E.
  - cbn. rewrite E. intros [= <- <-]. exact Hr.
  - unfold type_call. destruct (init c args).
    + intros [= <- <-]. exact Hr.
    + cbn. rewrite lookup_insert_eq. intros [= <- <-]. cbn.
      rewrite lookup_insert_ne; [exact Hr|]. intros ->. congruence.
Qed.

Lemma run_calls_keeps cls r calls : forall (st st' : interp Args) rs,
  _instances st !! cls = Some r ->
  run_calls init calls st = (rs, st') ->
  _instances st' !! cls = Some r
  /\ forall k args, calls !! k = Some (cls, args) -> rs !! k = Some (Ok r).
Proof.
  induction calls as [|[c a] calls IH]; intros st st' rs Hr.
  - cbn. intros [= <- <-]. split; [exact Hr|]. intros k args Hk. discriminate.
  - cbn [run_calls]. destruct (Singleton_call init c a st) as [res st1] eqn:E1.
    destruct (run_calls init calls st1) as [rs1 st2] eqn:E2.
    intros [= <- <-].
    pose proof (Singleton_call_keeps cls r c a st st1 res Hr E1) as Hr1.
    destruct (IH st1 st2 rs1 Hr1 E2) as [Hr2 Hk2].
    split; [exact Hr2|]. intros [|k] args Hk.
    + cbn in Hk. injection Hk as -> ->.
      rewrite (Singleton_call_cached cls args st r Hr) in E1.
      injection E1 as <- _. reflexivity.
    + cbn in *. eauto.
Qed.

(** C4: when the construction of a class through the metaclass has
    returned an object, every later construction of the class, with the
    same or other arguments, returns that same object and constructs
    nothing (the state is unchanged); and through any run of later
    constructions of any classes the registry keeps that one object for
    the class. *)
Theorem Singleton_one_instance cls args1 (st st1 : interp Args) r :
  Singleton_call init cls args1 st = (Ok r, st1) ->
  (forall args2, Singleton_call init cls args2 st1 = (Ok r, st1))
  /\ (forall calls rs st2, run_calls init calls st1 = (rs, st2) ->
        _instances st2 !! cls = Some r
        /\ forall k args, calls !! k = Some (cls, args) -> rs !! k = Some (Ok r)).
Proof.
  intros H1. pose proof (Singleton_call_registers _ _ _ _ _ H1) as Hr. split.
  - intros args2. apply Singleton_call_cached, Hr.
  - intros calls rs st2. apply run_calls_keeps, Hr.
Qed.

(** The objects made so far are each the registered instance of their
    class. *)
Lemma Singleton_call_objects_registered c args (st st' : interp Args) res :
  (forall i cl a, objects st !! i = Some (cl, a) -> _instances st !! cl = Some i) ->
  Singleton_call init c args st = (res, st') ->
  forall i cl a, objects st' !! i = Some (cl, a) -> _instances st' !! cl = Some i.
Proof.
  intros Hinv. unfold Singleton_call.
  destruct (_instances st !! c) as [r0|] eqn:E.
  - cbn. rewrite E. intros [= <- <-]. exact Hinv.
  - unfold type_call. destruct (init c args).
    + intros [= <- <-]. exact Hinv.
    + cbn. rewrite lookup_insert_eq. intros [= <- <-]. cbn.
      intros i cl a Hi. apply lookup_app_Some in Hi as [Hi|[Hlen Hi]].
      * pose proof (Hinv i cl a Hi) as Hr.
        rewrite lookup_insert_ne; [exact Hr|]. intros ->.
        assert (X : Some i = None) by (rewrite <- Hr; exact E). discriminate X.
      * destruct (i - length (objects st)) as [|k] eqn:Ek; [|destruct k; discriminate].
        cbn in Hi. injection Hi as <- <-.
        replace i with (length (objects st)) by lia. apply lookup_insert_eq.
Qed.

Lemma run_calls_objects_registered calls : forall (st st' : interp Args) rs,
  (forall i cl a, objects st !! i = Some (cl, a) -> _instances st !! cl = Some i) ->
  run_calls init calls st = (rs, st') ->
  forall i cl a, objects st' !! i = Some (cl, a) -> _instances st' !! cl = Some i.
Proof.
  induction calls as [|[c a] calls IH]; intros st st' rs Hinv.
  - cbn. intros [= <- <-]. exact Hinv.
  - cbn [run_calls]. destruct (Singleton_call init c a st) as [res st1] eqn:E1.
    destruct (run_calls init calls st1) as [rs1 st2] eqn:E2.
    intros [= <- <-]. eapply IH; [|exact E2].
    eapply Singleton_call_objects_registered; eassumption.
Qed.

(** X5: through any run of constructions that starts with an empty
    registry, at most one object of each class is ever made: two objects
    of the same class are the same object. *)
Theorem Singleton_at_most_one_object calls rs (st : interp Args) i j cls a a' :
  run_calls init calls {| _instances := ∅; objects := [] |} = (rs, st) ->
  objects st !! i = Some (cls, a) ->
  objects st !! j = Some (cls, a') ->
  i = j.
Proof.
  intros Hrun Hi Hj.
  assert (Hinv : forall i cl a, objects st !! i = Some (cl, a) ->
                   _instances st !! cl = Some i).
  { eapply run_calls_objects_registered; [|exact Hrun].
    intros k cl b Hk. cbn in Hk. discriminate. }
  pose proof (Hinv i cls a Hi). pose proof (Hinv j cls a' Hj). congruence.
Qed.

(** X6: when [__init__] raises in the first construction of a class, the
    exception goes to the caller and nothing is cached: the state is as
    before, so a later construction runs the constructor again. *)
Theorem Singleton_call_init_raises cls args e (st : interp Args) :
  _instances st !! cls = None ->
  init cls args = Some e ->
  Singleton_call init cls args st = (Raise e, st).
Proof.
  intros Hr He. unfold Singleton_call, type_call. rewrite Hr, He. reflexivity.
Qed.

(** X7: the instance is the one made from the arguments of the first
    construction: it is registered with them, and later constructions with
    other arguments do not change it. *)
Theorem Singleton_first_arguments_stay cls args1 args2 (st st1 : interp Args) r :
  _instances st !! cls = None ->
  Singleton_call init cls args1 st = (Ok r, st1) ->
  objects st1 !! r = Some (cls, args1)
  /\ exists r2 st2, Singleton_call init cls args2 st1 = (Ok r2, st2)
       /\ objects st2 !! r2 = Some (cls, args1).
Proof.
  intros Hnone H1.
  assert (Hobj : objects st1 !! r = Some (cls, args1)).
  { revert H1. unfold Singleton_call, type_call. rewrite Hnone.
    destruct (init cls args1); [discriminate|]. cbn.
    rewrite lookup_insert_eq. intros [= <- <-]. cbn.
    apply list_lookup_middle. reflexivity. }
  split; [exact Hobj|]. exists r, st1. split; [|exact Hobj].
  apply Singleton_call_cached. eapply Singleton_call_registers. exact H1.
Qed.

End SingletonFacts.

Lemma Singleton_at_most_one_object_witness :
  let st := {| Meta._instances := {["Resources" := 0]};
               Meta.objects := [("Resources", 7)] |} in
  (Meta.run_calls (fun _ _ => None) [("Resources", 7); ("Resources", 9)]
     {| Meta._instances := ∅; Meta.objects := [] |} = ([Ok 0; Ok 0], st)
   /\ Meta.objects st !! 0 = Some ("Resources", 7))
  /\ 0 = 0.
Proof.
  cbv zeta.
  assert (Hrun : Meta.run_calls (fun _ _ => None) [("Resources", 7); ("Resources", 9)]
                   {| Meta._instances := ∅; Meta.objects := [] |}
                 = ([Ok 0; Ok 0],
                    {| Meta._instances := {["Resources" := 0]};
                       Meta.objects := [("Resources", 7)] |})) by reflexivity.
  split; [split; [exact Hrun|reflexivity]|].
  exact (Singleton_at_most_one_object (fun _ _ => None) _ _ _ 0 0 "Resources" 7 7
           Hrun eq_refl eq_refl).
Defined.

Lemma Singleton_call_init_raises_witness :
  let st := {| Meta._instances := ∅; Meta.objects := @nil (Meta.class_id * nat) |} in
  Meta._instances st !! "Resources" = None
  /\ Meta.Singleton_call (fun _ n => if (n =? 0)%nat then Some ValueError else None)
       "Resources" 0 st = (Raise ValueError, st).
Proof.
  split; [reflexivity|].
  exact (Singleton_call_init_raises
           (fun _ n => if (n =? 0)%nat then Some ValueError else None)
           "Resources" 0 ValueError
           {| Meta._instances := ∅; Meta.objects := [] |} eq_refl eq_refl).
Defined.

Lemma Singleton_first_arguments_stay_witness :
  let st0 := {| Meta._instances := ∅; Meta.objects := @nil (Meta.class_id * nat) |} in
  let st1 := {| Meta._instances := {["Resources" := 0]};
                Meta.objects := [("Resources", 7)] |} in
  Meta.Singleton_call (fun _ _ => None) "Resources" 7 st0 = (Ok 0, st1)
  /\ Meta.objects st1 !! 0 = Some ("Resources", 7)
  /\ exists r2 st2,
       Meta.Singleton_call (fun _ _ => None) "Resources" 9 st1 = (Ok r2, st2)
       /\ Meta.objects st2 !! r2 = Some ("Resources", 7).
Proof.
  split; [reflexivity|].
  exact (Singleton_first_arguments_stay (fun _ _ => None) "Resources" 7 9
           {| Meta._instances := ∅; Meta.objects := [] |}
           {| Meta._instances := {["Resources" := 0]};
              Meta.objects := [("Resources", 7)] |} 0 eq_refl eq_refl).
Defined.

Lemma Singleton_one_instance_witness :
  let st0 := {| Meta._instances := ∅; Meta.objects := [] |} in
  let st1 := {| Meta._instances := {["Resources" := 0]};
                Meta.objects := [("Resources", 7)] |} in
  Meta.Singleton_call (fun _ _ => None) "Resources" 7 st0 = (Ok 0, st1)
  /\ (forall args2 : nat,
        Meta.Singleton_call (fun _ _ => None) "Resources" args2 st1 = (Ok 0, st1)).
Proof.
  split; [reflexivity|].
  apply (Singleton_one_instance (fun _ _ => None) "Resources" 7
           {| Meta._instances := ∅; Meta.objects := [] |}).
  reflexivity.
Defined.

(** ** The file system and its events *)

Lemma replay_app evs1 evs2 f :
  replay (evs1 ++ evs2) f = replay evs2 (replay evs1 f).
Proof. unfold replay. apply foldl_app. Qed.

Lemma evolves_refl w : evolves w w [].
Proof.
  unfold evolves. rewrite app_nil_r. repeat split; try reflexivity.
Qed.

Lemma evolves_trans w1 w2 w3 e1 e2 :
  evolves w1 w2 e1 -> evolves w2 w3 e2 -> evolves w1 w3 (e1 ++ e2).
Proof.
  unfold evolves. intros (A1 & A2 & A3 & A4 & A5 & A6 & A7 & A8)
    (B1 & B2 & B3 & B4 & B5 & B6 & B7 & B8).
  repeat split; try congruence.
  - rewrite B2, A2, app_assoc. reflexivity.
  - rewrite B3, A3, replay_app. reflexivity.
  - etransitivity; eassumption.
Qed.

Lemma emit_evolves ev w : evolves w (snd (emit ev w)) [ev].
Proof. unfold evolves, emit. cbn. repeat split; reflexivity. Qed.

Lemma set_tmp_names_evolves l w :
  l `suffix_of` tmp_names w -> evolves w (set_tmp_names l w) [].
Proof.
  intros Hl. unfold evolves. cbn. rewrite app_nil_r. repeat split; try reflexivity.
  exact Hl.
Qed.

(** Events that do not touch [p] leave what is at [p] as it was. *)
Lemma apply_event_untouched p ev f :
  touches p ev = false -> apply_event ev f !! p = f !! p.
Proof.
  destruct ev as [q|q|q data|src dst|q| |]; cbn; intros Ht;
    try reflexivity.
  - apply bool_decide_eq_false in Ht. apply lookup_insert_ne. congruence.
  - apply bool_decide_eq_false in Ht. apply lookup_insert_ne. congruence.
  - apply bool_decide_eq_false in Ht. apply lookup_alter_ne. congruence.
  - apply orb_false_iff in Ht as [H1 H2].
    apply bool_decide_eq_false in H1, H2.
    destruct (f !! src); [|reflexivity].
    rewrite lookup_insert_ne by congruence. apply lookup_delete_ne. congruence.
  - apply bool_decide_eq_false in Ht. apply lookup_delete_ne. congruence.
Qed.

Lemma replay_untouched p evs : forall f,
  Forall (fun ev => touches p ev = false) evs -> replay evs f !! p = f !! p.
Proof.
  induction evs as [|ev evs IH]; intros f Hq; [reflexivity|].
  apply Forall_cons in Hq as [H1 H2]. cbn.
  change (foldl _ ?g evs) with (replay evs g).
  rewrite IH by exact H2. apply apply_event_untouched, H1.
Qed.

Lemma node_at_ne f (p : path) : p <> [] -> node_at f p = f !! p.
Proof. destruct p; [congruence|reflexivity]. Qed.

Lemma node_at_None f (p : path) : node_at f p = None -> p <> [] /\ f !! p = None.
Proof. destruct p; [discriminate|]. intros E. split; [discriminate|exact E]. Qed.


(** ** Names and places *)

Lemma rev_removelast {A} (l : list A) : rev (removelast l) = tail (rev l).
Proof.
  induction l as [|x l _] using rev_ind; [reflexivity|].
  rewrite removelast_last, rev_unit. reflexivity.
Qed.

Lemma fold_resolve_components (l : list string) : forall st,
  fold_left resolve_step (List.filter (fun c => negb (c =? "")%string) l) st
  = fold_left resolve_step l st.
Proof.
  induction l as [|c l IH]; intros st; [reflexivity|].
  cbn [List.filter fold_left]. destruct (c =? "")%string eqn:Ec; cbn [negb].
  - rewrite IH. f_equal. unfold resolve_step. rewrite Ec. reflexivity.
  - cbn [fold_left]. apply IH.
Qed.

Lemma components_nonempty (name : string) :
  Forall (fun c => c <> "") (components name).
Proof.
  unfold components. apply List.Forall_forall. intros c Hc.
  apply List.filter_In in Hc as [_ Hc]. apply negb_true_iff, String.eqb_neq in Hc.
  exact Hc.
Qed.

(** Where a walk ends is where the name leads lexically. *)
Lemma walk_locate f comps : forall pos p d,
  Forall (fun c => c <> "") comps ->
  walk f pos comps = Ok (p, d) ->
  p = rev (fold_left resolve_step comps (rev pos)).
Proof.
  induction comps as [|c rest IH]; intros pos p d Hne.
  - cbn. intros [= <- <-]. rewrite rev_involutive. reflexivity.
  - apply Forall_cons in Hne as [Hc Hrest]. apply String.eqb_neq in Hc.
    cbn [walk fold_left]. unfold resolve_step at 2. rewrite Hc. cbn [orb].
    destruct (c =? ".")%string.
    + apply IH, Hrest.
    + destruct (c =? "..")%string.
      * destruct (node_at f (removelast pos)) as [[|?]|]; try discriminate.
        intros E. apply IH in E; [|exact Hrest]. rewrite rev_removelast in E. exact E.
      * destruct rest as [|c' rest'].
        -- intros [= <- <-]. cbn. rewrite rev_involutive. reflexivity.
        -- destruct (node_at f (pos ++ [c])%list) as [[|?]|]; try discriminate.
           intros E. apply IH in E; [|exact Hrest]. rewrite rev_unit in E. exact E.
Qed.

(** A walk from a directory ends at a directory when it got there by [.]
    or [..], and else in a directory. *)
Lemma walk_inv f comps : forall pos p d,
  node_at f pos = Some Dir ->
  walk f pos comps = Ok (p, d) ->
  if d then node_at f p = Some Dir
  else p <> [] /\ node_at f (removelast p) = Some Dir.
Proof.
  induction comps as [|c rest IH]; intros pos p d Hpos.
  - cbn. intros [= <- <-]. exact Hpos.
  - cbn [walk]. destruct (c =? ".")%string; [apply IH, Hpos|].
    destruct (c =? "..")%string.
    + destruct (node_at f (removelast pos)) as [[|?]|] eqn:Ep; try discriminate.
      apply IH, Ep.
    + destruct rest as [|c' rest'].
      * intros [= <- <-]. rewrite removelast_last. split; [|exact Hpos].
        intros E. apply app_eq_nil in E as [_ E]. discriminate.
      * destruct (node_at f (pos ++ [c])%list) as [[|?]|] eqn:Ep; try discriminate.
        apply IH, Ep.
Qed.

(** Directories that stay keep a walk as it was. *)
Lemma dirs_kept_trans f g h : dirs_kept f g -> dirs_kept g h -> dirs_kept f h.
Proof. intros H1 H2 p Hp. apply H2, H1, Hp. Qed.

Lemma node_at_subseteq (f g : gmap path node) p n :
  f ⊆ g -> node_at f p = Some n -> node_at g p = Some n.
Proof.
  intros Hs. destruct p; [auto|]. cbn. intros Hf.
  eapply lookup_weaken; eassumption.
Qed.

Lemma dirs_kept_subseteq f g : f ⊆ g -> dirs_kept f g.
Proof. intros Hs p Hp. eapply node_at_subseteq; eassumption. Qed.

Lemma walk_mono f f' comps : forall pos r,
  dirs_kept f f' ->
  walk f pos comps = Ok r -> walk f' pos comps = Ok r.
Proof.
  induction comps as [|c rest IH]; intros pos r Hk; [intros E; exact E|].
  cbn [walk]. destruct (c =? ".")%string; [apply IH, Hk|].
  destruct (c =? "..")%string.
  - destruct (node_at f (removelast pos)) as [[|?]|] eqn:Ep; try discriminate.
    rewrite (Hk _ Ep). apply IH, Hk.
  - destruct rest as [|c' rest']; [intros E; exact E|].
    destruct (node_at f (pos ++ [c])%list) as [[|?]|] eqn:Ep; try discriminate.
    rewrite (Hk _ Ep). apply IH, Hk.
Qed.

Lemma name_lookup_mono w w' name r :
  cwd w' = cwd w -> dirs_kept (fs w) (fs w') ->
  name_lookup w name = Ok r -> name_lookup w' name = Ok r.
Proof.
  intros Hc Hk. unfold name_lookup. rewrite Hc.
  destruct (has_nul name); [discriminate|].
  destruct (name =? "")%string; [discriminate|].
  destruct (String.prefix "/" name) eqn:Ea; cbn [negb andb].
  - destruct (walk (fs w) [] (components name)) as [[p d]|e] eqn:Ew; [|discriminate].
    rewrite (walk_mono _ _ _ _ _ Hk Ew). intros E; exact E.
  - destruct (bool_decide (node_at (fs w) (cwd w) = Some Dir)) eqn:Ed; [|discriminate].
    apply bool_decide_eq_true in Ed. rewrite (bool_decide_eq_true_2 _ (Hk _ Ed)).
    cbn [negb].
    destruct (walk (fs w) (cwd w) (components name)) as [[p d]|e] eqn:Ew; [|discriminate].
    rewrite (walk_mono _ _ _ _ _ Hk Ew). intros E; exact E.
Qed.

(** What a successful name_lookup tells: the name is not empty, the place is
    where the name leads, and it is a directory (after [.] or [..]) or
    lies in one. *)
Lemma name_lookup_Ok w name p last :
  name_lookup w name = Ok (p, last) ->
  name <> "" /\ p = locate (cwd w) name
  /\ (last = Dots -> node_at (fs w) p = Some Dir)
  /\ (last <> Dots -> p <> [] /\ node_at (fs w) (removelast p) = Some Dir).
Proof.
  unfold name_lookup. destruct (has_nul name); [discriminate|].
  destruct (name =? "")%string eqn:En; [discriminate|]. apply String.eqb_neq in En.
  set (start := if String.prefix "/" name then [] else cwd w).
  assert (Hloc : forall p d, walk (fs w) start (components name) = Ok (p, d) ->
            p = locate (cwd w) name).
  { intros q d E. apply walk_locate in E; [|apply components_nonempty].
    unfold components in E. rewrite fold_resolve_components in E.
    unfold locate. rewrite E. unfold start.
    destruct (String.prefix "/" name); reflexivity. }
  intros E.
  assert (Hstart : node_at (fs w) start = Some Dir).
  { unfold start. destruct (String.prefix "/" name); [reflexivity|].
    cbn [negb andb] in E.
    destruct (bool_decide (node_at (fs w) (cwd w) = Some Dir)) eqn:Ed; [|discriminate].
    apply bool_decide_eq_true in Ed. exact Ed. }
  assert (E' : match walk (fs w) start (components name) with
               | Ok (p0, true) => Ok (p0, Dots)
               | Ok (p0, false) => Ok (p0, if endswith_slash name then Slash else Plain)
               | Raise e => Raise e
               end = Ok (p, last)).
  { destruct (negb (String.prefix "/" name)
              && negb (bool_decide (node_at (fs w) (cwd w) = Some Dir)));
      [discriminate|exact E]. }
  clear E. destruct (walk (fs w) start (components name)) as [[q d]|e] eqn:Ew;
    [|discriminate].
  pose proof (Hloc q d eq_refl) as Hq.
  pose proof (walk_inv _ _ _ _ _ Hstart Ew) as Hinv.
  destruct d; injection E' as <- <-.
  - split; [exact En|]. split; [exact Hq|]. split; [auto|congruence].
  - split; [exact En|]. split; [exact Hq|]. split.
    + destruct (endswith_slash name); discriminate.
    + auto.
Qed.

Lemma name_lookup_place w name p last :
  name_lookup w name = Ok (p, last) -> p = locate (cwd w) name.
Proof. intros E. apply name_lookup_Ok in E. apply E. Qed.

(** ** [os.path.split] and the components of a name *)

Lemma string_length_app (s t : string) :
  String.length (s ++ t) = String.length s + String.length t.
Proof.
  induction s as [|c s IH]; [reflexivity|].
  change (String c s ++ t) with (String c (s ++ t)). cbn [String.length Nat.add].
  rewrite IH. reflexivity.
Qed.

Lemma string_app_nil_r (s : string) : s ++ "" = s.
Proof.
  induction s as [|c s IH]; [reflexivity|].
  change (String c s ++ "") with (String c (s ++ "")). rewrite IH. reflexivity.
Qed.

Lemma string_of_list_ascii_app (a b : list ascii) :
  string_of_list_ascii (a ++ b)%list = string_of_list_ascii a ++ string_of_list_ascii b.
Proof.
  induction a as [|c a IH]; [reflexivity|]. cbn [app string_of_list_ascii].
  rewrite IH. reflexivity.
Qed.

Lemma list_ascii_of_string_app (s t : string) :
  list_ascii_of_string (s ++ t) = (list_ascii_of_string s ++ list_ascii_of_string t)%list.
Proof.
  induction s as [|c s IH]; [reflexivity|].
  change (String c s ++ t) with (String c (s ++ t)). cbn [list_ascii_of_string app].
  rewrite IH. reflexivity.
Qed.

Lemma split_on_cons sep (s : string) : exists x xs, split_on sep s = x :: xs.
Proof.
  induction s as [|c s (x & xs & IH)]; [eauto|]. cbn [split_on].
  destruct (Ascii.eqb c sep); [eauto|]. rewrite IH. eauto.
Qed.

Lemma split_on_app sep (s t : string) :
  split_on sep (s ++ String sep t) = (split_on sep s ++ split_on sep t)%list.
Proof.
  induction s as [|c s IH].
  - change ("" ++ String sep t) with (String sep t). cbn [split_on].
    rewrite Ascii.eqb_refl. reflexivity.
  - change (String c s ++ String sep t) with (String c (s ++ String sep t)).
    cbn [split_on]. rewrite IH. destruct (Ascii.eqb c sep); [reflexivity|].
    destruct (split_on_cons sep s) as (x & xs & ->). reflexivity.
Qed.

Lemma split_on_no_sep sep (name : string) :
  forallb (fun c => negb (Ascii.eqb c sep)) (list_ascii_of_string name) = true ->
  split_on sep name = [name].
Proof.
  induction name as [|c name IH]; [reflexivity|].
  cbn [list_ascii_of_string forallb split_on]. intros Hc.
  apply andb_true_iff in Hc as [Hc Hr]. apply negb_true_iff in Hc.
  rewrite Hc, (IH Hr). reflexivity.
Qed.

Lemma prefix_slash_false (name : string) :
  forallb (fun c => negb (is_slash c)) (list_ascii_of_string name) = true ->
  String.prefix "/" name = false.
Proof.
  destruct name as [|c name]; [reflexivity|].
  cbn [list_ascii_of_string forallb String.prefix]. intros Hc.
  apply andb_true_iff in Hc as [Hc _]. apply negb_true_iff in Hc.
  destruct (ascii_dec "/" c) as [<-|]; [discriminate Hc|reflexivity].
Qed.

Lemma components_app (s t : string) :
  components (s ++ String slash t) = (components s ++ components t)%list.
Proof. unfold components. rewrite split_on_app. apply List.filter_app. Qed.

Lemma components_no_slash (b : string) :
  forallb (fun c => negb (is_slash c)) (list_ascii_of_string b) = true ->
  components b = if (b =? "")%string then [] else [b].
Proof.
  intros Hb. unfold components. rewrite (split_on_no_sep slash b Hb).
  cbn [List.filter]. destruct (b =? "")%string; reflexivity.
Qed.

(** [k] slashes. *)
Lemma slashes_S k :
  string_of_list_ascii (replicate (S k) slash)
  = String slash (string_of_list_ascii (replicate k slash)).
Proof. reflexivity. Qed.

Lemma components_slashes_app k (b : string) :
  components (string_of_list_ascii (replicate k slash) ++ b) = components b.
Proof.
  induction k as [|k IH]; [reflexivity|]. rewrite slashes_S.
  change (String slash ?s ++ b) with ("" ++ String slash (s ++ b)).
  rewrite components_app, IH. reflexivity.
Qed.

Lemma components_slashes k : components (string_of_list_ascii (replicate k slash)) = [].
Proof.
  rewrite <- (string_app_nil_r (string_of_list_ascii _)).
  apply components_slashes_app.
Qed.

Lemma take_drop_while {A} (f : A -> bool) (l : list A) :
  l = (take_while f l ++ drop_while f l)%list.
Proof.
  induction l as [|x l IH]; [reflexivity|]. cbn. destruct (f x); [|reflexivity].
  cbn. rewrite <- IH. reflexivity.
Qed.

Lemma take_while_forallb {A} (f : A -> bool) (l : list A) :
  forallb f (take_while f l) = true.
Proof.
  induction l as [|x l IH]; [reflexivity|]. cbn. destruct (f x) eqn:E; [|reflexivity].
  cbn. rewrite E, IH. reflexivity.
Qed.

Lemma drop_while_head {A} (f : A -> bool) (l : list A) x l' :
  drop_while f l = x :: l' -> f x = false.
Proof.
  induction l as [|y l IH]; [discriminate|]. cbn. destruct (f y) eqn:E; [exact IH|].
  intros [= <- _]. exact E.
Qed.

Lemma drop_while_nil {A} (f : A -> bool) (l : list A) :
  drop_while f l = [] <-> forallb f l = true.
Proof.
  induction l as [|y l IH]; [tauto|]. cbn. destruct (f y); cbn; [exact IH|].
  split; discriminate.
Qed.

Lemma forallb_is_slash_replicate (l : list ascii) :
  forallb is_slash l = true -> l = replicate (length l) slash.
Proof.
  induction l as [|c l IH]; [reflexivity|]. cbn. intros Hc.
  apply andb_true_iff in Hc as [Hc Hl]. apply Ascii.eqb_eq in Hc. subst c.
  rewrite <- (IH Hl). reflexivity.
Qed.

Lemma rev_replicate {A} k (x : A) : rev (replicate k x) = replicate k x.
Proof.
  induction k as [|k IH]; [reflexivity|]. cbn. rewrite IH.
  clear IH. induction k as [|k IH]; [reflexivity|]. cbn. rewrite IH. reflexivity.
Qed.

Lemma forallb_rev {A} (f : A -> bool) (l : list A) : forallb f (rev l) = forallb f l.
Proof.
  induction l as [|x l IH]; [reflexivity|]. cbn. rewrite forallb_app, IH. cbn.
  destruct (f x), (forallb f l); reflexivity.
Qed.

(** A name is a head that does not end in a slash (or is empty), some
    slashes, and a last piece without a slash; [os.path.split] gives the
    head (or the slashes when there is no head) and the last piece. *)
Lemma os_path_split_decomp (name : string) :
  exists (x : string) (k : nat) (b : string),
    name = x ++ string_of_list_ascii (replicate k slash) ++ b
    /\ os_path_basename name = b
    /\ forallb (fun c => negb (is_slash c)) (list_ascii_of_string b) = true
    /\ os_path_dirname name
       = (if (x =? "")%string then string_of_list_ascii (replicate k slash) else x)
    /\ (k = 0 -> x = "").
Proof.
  set (rl := rev (list_ascii_of_string name)).
  set (nonslash := fun c => negb (is_slash c)).
  set (t_rev := take_while nonslash rl).
  set (h_rev := drop_while nonslash rl).
  set (s_rev := take_while is_slash h_rev).
  set (x_rev := drop_while is_slash h_rev).
  exists (string_of_list_ascii (rev x_rev)), (length s_rev),
    (string_of_list_ascii (rev t_rev)).
  assert (Hs : rev s_rev = replicate (length s_rev) slash).
  { rewrite (forallb_is_slash_replicate s_rev) at 1
      by apply take_while_forallb.
    apply rev_replicate. }
  split; [|split; [reflexivity|split; [|split]]].
  - rewrite <- Hs, <- !string_of_list_ascii_app.
    assert (Hl : list_ascii_of_string name
                 = (rev x_rev ++ rev s_rev ++ rev t_rev)%list).
    { rewrite <- (rev_involutive (list_ascii_of_string name)). fold rl.
      rewrite (take_drop_while nonslash rl). fold t_rev. fold h_rev.
      rewrite (take_drop_while is_slash h_rev). fold s_rev. fold x_rev.
      rewrite !rev_app_distr, app_assoc. reflexivity. }
    rewrite <- Hl. symmetry. apply string_of_list_ascii_of_string.
  - rewrite list_ascii_of_string_of_list_ascii, forallb_rev.
    apply take_while_forallb.
  - unfold os_path_dirname. fold rl. fold nonslash. fold h_rev.
    destruct (forallb is_slash h_rev) eqn:Eall.
    + assert (Hx : x_rev = []) by (apply drop_while_nil, Eall).
      rewrite Hx. cbn [rev string_of_list_ascii String.eqb].
      rewrite <- Hs. f_equal. f_equal. unfold s_rev.
      rewrite (take_drop_while is_slash h_rev) at 1. fold x_rev. rewrite Hx.
      apply app_nil_r.
    + fold x_rev. destruct x_rev as [|c x'] eqn:Ex.
      * apply drop_while_nil in Ex. congruence.
      * replace ((string_of_list_ascii (rev (c :: x')) =? "")%string) with false;
          [reflexivity|].
        symmetry. apply String.eqb_neq. intros E.
        apply (f_equal list_ascii_of_string) in E.
        rewrite list_ascii_of_string_of_list_ascii in E. cbn in E.
        apply app_eq_nil in E as [_ E]. discriminate.
  - intros Hk. apply length_zero_iff_nil in Hk.
    assert (Hh : h_rev = []).
    { destruct h_rev as [|c h'] eqn:Eh; [reflexivity|].
      pose proof (drop_while_head nonslash rl c h' Eh) as Hc.
      unfold nonslash in Hc. apply negb_false_iff in Hc.
      unfold s_rev in Hk. cbn in Hk. rewrite Hc in Hk. discriminate. }
    unfold x_rev. rewrite Hh. reflexivity.
Qed.

Lemma has_nul_app (s t : string) : has_nul (s ++ t) = has_nul s || has_nul t.
Proof. unfold has_nul. rewrite list_ascii_of_string_app. apply existsb_app. Qed.

Lemma has_nul_slashes k : has_nul (string_of_list_ascii (replicate k slash)) = false.
Proof.
  unfold has_nul. rewrite list_ascii_of_string_of_list_ascii.
  induction k as [|k IH]; [reflexivity|]. cbn. exact IH.
Qed.

Lemma prefix_slash_app (x y : string) :
  x <> "" -> String.prefix "/" (x ++ y) = String.prefix "/" x.
Proof.
  destruct x as [|c x]; [congruence|]. intros _.
  change (String c x ++ y) with (String c (x ++ y)). cbn [String.prefix].
  destruct (ascii_dec "/" c); [|reflexivity]. destruct (x ++ y), x; reflexivity.
Qed.

(** What [os.path.split] does to the components of a name, to where its
    walk starts, and to its length. *)
Lemma os_path_split_spec (name : string) :
  components name
  = (components (os_path_dirname name)
     ++ (if (os_path_basename name =? "")%string then [] else [os_path_basename name]))%list
  /\ (os_path_dirname name <> "" ->
      String.prefix "/" name = String.prefix "/" (os_path_dirname name))
  /\ (os_path_dirname name = "" -> String.prefix "/" name = false)
  /\ (has_nul name = false -> has_nul (os_path_dirname name) = false)
  /\ String.length (os_path_dirname name) + String.length (os_path_basename name)
     <= String.length name.
Proof.
  destruct (os_path_split_decomp name) as (x & k & b & Hname & -> & Hb & -> & Hk).
  assert (Hcb : components (string_of_list_ascii (replicate k slash) ++ b)
                = if (b =? "")%string then [] else [b]).
  { rewrite components_slashes_app. apply components_no_slash, Hb. }
  destruct (x =? "")%string eqn:Ex.
  - apply String.eqb_eq in Ex. subst x.
    change ("" ++ ?s) with s in Hname. subst name.
    split; [|split; [|split; [|split]]].
    + rewrite Hcb, components_slashes. reflexivity.
    + intros Hd. apply prefix_slash_app, Hd.
    + intros Hd. destruct k as [|k]; [|discriminate Hd].
      apply prefix_slash_false, Hb.
    + intros _. apply has_nul_slashes.
    + rewrite string_length_app. lia.
  - apply String.eqb_neq in Ex.
    destruct k as [|k]; [destruct (Ex (Hk eq_refl))|].
    subst name. split; [|split; [|split; [|split]]].
    + rewrite slashes_S.
      change (String slash ?s ++ b) with (String slash (s ++ b)).
      rewrite components_app. f_equal.
      rewrite components_slashes_app. apply components_no_slash, Hb.
    + intros _. apply prefix_slash_app, Ex.
    + intros Hd. contradiction.
    + rewrite has_nul_app. intros Hn. apply orb_false_iff in Hn. apply Hn.
    + rewrite !string_length_app. lia.
Qed.

(** The same for the head and tail that [os.makedirs] takes. *)
Lemma makedirs_split_spec (name head tail : string) :
  makedirs_split name = (head, tail) -> tail <> "" ->
  components name = (components head ++ [tail])%list
  /\ (head <> "" -> String.prefix "/" name = String.prefix "/" head)
  /\ (head = "" -> String.prefix "/" name = false)
  /\ (has_nul name = false -> has_nul head = false)
  /\ String.length head < String.length name.
Proof.
  unfold makedirs_split, os_path_split.
  pose proof (os_path_split_spec name) as (Hc1 & Hp1 & Hq1 & Hn1 & Hl1).
  destruct (os_path_basename name =? "")%string eqn:Eb.
  - intros [= <- <-] Ht.
    set (head1 := os_path_dirname name) in *.
    pose proof (os_path_split_spec head1) as (Hc2 & Hp2 & Hq2 & Hn2 & Hl2).
    assert (Hh1 : head1 <> "").
    { intros E. rewrite E in Ht. apply Ht. reflexivity. }
    apply String.eqb_neq in Ht. rewrite Ht in Hc2.
    apply String.eqb_neq in Ht.
    assert (Hlt : 0 < String.length (os_path_basename head1)).
    { destruct (os_path_basename head1); [congruence|cbn; lia]. }
    split; [|split; [|split; [|split]]].
    + rewrite Hc1, app_nil_r. exact Hc2.
    + intros Hh. rewrite (Hp1 Hh1). apply Hp2, Hh.
    + intros Hh. rewrite (Hp1 Hh1). apply Hq2, Hh.
    + intros Hn. apply Hn2, Hn1, Hn.
    + lia.
  - intros [= <- <-] Ht.
    assert (Hlt : 0 < String.length (os_path_basename name)).
    { destruct (os_path_basename name); [congruence|cbn; lia]. }
    split; [exact Hc1|]. split; [exact Hp1|]. split; [exact Hq1|].
    split; [exact Hn1|lia].
Qed.

(** ** System calls *)

Lemma walk_Raise f comps : forall pos e,
  walk f pos comps = Raise e -> e = FileNotFoundError \/ e = NotADirectoryError.
Proof.
  induction comps as [|c rest IH]; intros pos e; [discriminate|].
  cbn [walk]. destruct (c =? ".")%string; [apply IH|].
  destruct (c =? "..")%string.
  - destruct (node_at f (removelast pos)) as [[|?]|]; [apply IH| |];
      intros [= <-]; auto.
  - destruct rest as [|c' rest']; [discriminate|].
    destruct (node_at f (pos ++ [c])%list) as [[|?]|]; [apply IH| |];
      intros [= <-]; auto.
Qed.

Lemma name_lookup_Raise w name e :
  name_lookup w name = Raise e ->
  e = ValueError \/ e = FileNotFoundError \/ e = NotADirectoryError.
Proof.
  unfold name_lookup. destruct (has_nul name); [intros [= <-]; auto|].
  destruct (name =? "")%string; [intros [= <-]; auto|].
  destruct (negb (String.prefix "/" name) && _); [intros [= <-]; auto|].
  destruct (walk _ _ _) as [[p [|]]|e'] eqn:Ew; try discriminate.
  intros [= <-]. apply walk_Raise in Ew. tauto.
Qed.

Lemma name_lookup_Raise_caught w name e :
  name_lookup w name = Raise e -> is_OSError e || bool_decide (e = ValueError) = true.
Proof.
  intros E. apply name_lookup_Raise in E as [->|[->| ->]]; reflexivity.
Qed.

Lemma with_name_run {A} name (k : path -> last_kind -> M A) w res w' :
  with_name name k w = (res, w') ->
  (exists e, name_lookup w name = Raise e /\ res = Raise e /\ w' = w)
  \/ (exists last, name_lookup w name = Ok (locate (cwd w) name, last)
        /\ k (locate (cwd w) name) last w = (res, w')).
Proof.
  unfold with_name. destruct (name_lookup w name) as [[p last]|e] eqn:El.
  - intros E. right. exists last. rewrite <- (name_lookup_place _ _ _ _ El). auto.
  - intros [= <- <-]. left. eauto.
Qed.

Lemma os_stat_run name w res w' :
  os_stat name w = (res, w') ->
  w' = w
  /\ match res with
     | Ok n => exists last, name_lookup w name = Ok (locate (cwd w) name, last)
                 /\ node_at (fs w) (locate (cwd w) name) = Some n
                 /\ (last = Slash -> n = Dir)
     | Raise e => is_OSError e || bool_decide (e = ValueError) = true
     end.
Proof.
  intros E. apply with_name_run in E as [(e & El & -> & ->)|(last & El & E)].
  - split; [reflexivity|]. eapply name_lookup_Raise_caught, El.
  - destruct (node_at (fs w) (locate (cwd w) name)) as [[|d]|] eqn:En.
    + injection E as <- <-. split; [reflexivity|]. exists last. auto.
    + destruct (bool_decide (last = Slash)) eqn:Es; injection E as <- <-;
        (split; [reflexivity|]); [reflexivity|].
      exists last. apply bool_decide_eq_false in Es. split; [exact El|].
      split; [reflexivity|]. intros; contradiction.
    + injection E as <- <-. split; [reflexivity|reflexivity].
Qed.

Lemma os_stat_eq name w : os_stat name w = (fst (os_stat name w), w).
Proof.
  destruct (os_stat name w) as [r w'] eqn:E.
  apply os_stat_run in E as [-> _]. reflexivity.
Qed.

Lemma os_stat_caught name w e :
  fst (os_stat name w) = Raise e -> is_OSError e || bool_decide (e = ValueError) = true.
Proof.
  destruct (os_stat name w) as [r w'] eqn:E. cbn. intros ->.
  apply os_stat_run in E as [_ E]. exact E.
Qed.

Lemma os_path_exists_eq name w :
  os_path_exists name w
  = (Ok (match fst (os_stat name w) with Ok _ => true | Raise _ => false end), w).
Proof.
  unfold os_path_exists, try_except, bind. rewrite os_stat_eq.
  destruct (fst (os_stat name w)) as [n|e] eqn:E; [reflexivity|].
  rewrite (os_stat_caught _ _ _ E). reflexivity.
Qed.

Lemma os_path_isdir_eq name w :
  os_path_isdir name w
  = (Ok (match fst (os_stat name w) with Ok Dir => true | _ => false end), w).
Proof.
  unfold os_path_isdir, try_except, bind. rewrite os_stat_eq.
  destruct (fst (os_stat name w)) as [[|d]|e] eqn:E; try reflexivity.
  rewrite (os_stat_caught _ _ _ E). reflexivity.
Qed.

(** A name that leads to a directory is found to be one. *)
Lemma os_stat_Dir w name p last :
  name_lookup w name = Ok (p, last) -> node_at (fs w) p = Some Dir ->
  fst (os_stat name w) = Ok Dir.
Proof.
  intros El Hp. unfold os_stat, with_name. rewrite El, Hp. reflexivity.
Qed.

(** What [os.stat] finds stays found when the file system grows. *)
Lemma os_stat_mono name w w' n :
  cwd w' = cwd w -> fs w ⊆ fs w' ->
  fst (os_stat name w) = Ok n -> fst (os_stat name w') = Ok n.
Proof.
  intros Hc Hs E. destruct (os_stat name w) as [r w1] eqn:E1. cbn in E. subst r.
  apply os_stat_run in E1 as [_ (last & El & Hn & Hsl)].
  pose proof (name_lookup_mono w w' name _ Hc (dirs_kept_subseteq _ _ Hs) El) as El'.
  pose proof (node_at_subseteq _ _ _ _ Hs Hn) as Hn'.
  unfold os_stat, with_name. rewrite El', Hn'.
  destruct n as [|d]; [reflexivity|].
  rewrite bool_decide_eq_false_2; [reflexivity|]. intros Hl. discriminate (Hsl Hl).
Qed.

Lemma os_mkdir_run name w res w' :
  os_mkdir name w = (res, w') ->
  (res = Ok tt
   /\ (exists last, name_lookup w name = Ok (locate (cwd w) name, last))
   /\ locate (cwd w) name <> []
   /\ fs w !! locate (cwd w) name = None
   /\ w' = snd (emit (EvMkdir (locate (cwd w) name)) w))
  \/ (exists e, res = Raise e /\ w' = w).
Proof.
  intros E. apply with_name_run in E as [(e & El & -> & ->)|(last & El & E)].
  - right. eauto.
  - destruct (node_at (fs w) (locate (cwd w) name)) as [n|] eqn:En.
    + injection E as <- <-. right. eauto.
    + injection E as <- <-. left. apply node_at_None in En as [Hp En].
      split; [reflexivity|]. split; [eauto|]. auto.
Qed.

Lemma node_at_insert_Dir p f : node_at (<[p := Dir]> f) p = Some Dir.
Proof. destruct p; [reflexivity|]. cbn. apply lookup_insert_eq. Qed.

(** The last statement of [os.makedirs]: when it returns, the name is a
    directory, made now or there before; when it raises, nothing
    changed. *)
Lemma mkdir_exist_ok_run name w res w' :
  mkdir_exist_ok name true w = (res, w') ->
  (res = Ok tt
   /\ fst (os_stat name w') = Ok Dir
   /\ (w' = w
       \/ (fs w !! locate (cwd w) name = None
           /\ w' = snd (emit (EvMkdir (locate (cwd w) name)) w))))
  \/ (exists e, res = Raise e /\ w' = w).
Proof.
  unfold mkdir_exist_ok, try_except.
  destruct (os_mkdir name w) as [r1 w1] eqn:E1.
  apply os_mkdir_run in E1 as [(-> & (last & El) & Hp & Hn & ->)|(e & -> & ->)].
  - intros [= <- <-]. left. split; [reflexivity|]. split; [|right; auto].
    set (p := locate (cwd w) name) in *.
    assert (Hs : fs w ⊆ <[p := Dir]> (fs w)) by (apply insert_subseteq, Hn).
    eapply (os_stat_Dir _ name p last).
    + apply (name_lookup_mono w); [reflexivity| |exact El].
      apply dirs_kept_subseteq. exact Hs.
    + cbn. apply node_at_insert_Dir.
  - destruct (is_OSError e); [|intros [= <- <-]; right; eauto].
    cbn [negb]. unfold bind. rewrite os_path_isdir_eq.
    destruct (fst (os_stat name w)) as [[|d]|e'] eqn:Es; cbn [negb];
      intros [= <- <-]; [|right; eauto|right; eauto].
    left. split; [reflexivity|]. split; [exact Es|left; reflexivity].
Qed.

(** ** [os.makedirs] and [create_dir] *)

Lemma only_mkdirs_refl w names : only_mkdirs w w names.
Proof.
  exists []. split; [apply evolves_refl|]. split; [constructor|].
  split; [reflexivity|]. auto.
Qed.

Lemma only_mkdirs_mono w w' names names' :
  (forall h, h ∈ names -> h ∈ names') ->
  only_mkdirs w w' names -> only_mkdirs w w' names'.
Proof.
  intros Hsub (evs & Hev & Hm & Hs & Hn). exists evs.
  split; [exact Hev|]. split; [|split; [exact Hs|]].
  - eapply Forall_impl; [exact Hm|]. intros ev (h & Hh & ->). exists h. auto.
  - intros q n Hq. destruct (Hn q n Hq) as [?|(-> & h & Hh & ->)]; [auto|].
    right. split; [reflexivity|]. exists h. auto.
Qed.

Lemma only_mkdirs_trans w1 w2 w3 names :
  only_mkdirs w1 w2 names -> only_mkdirs w2 w3 names -> only_mkdirs w1 w3 names.
Proof.
  intros (e1 & Hev1 & Hm1 & Hs1 & Hn1) (e2 & Hev2 & Hm2 & Hs2 & Hn2).
  assert (Hc : cwd w2 = cwd w1) by apply Hev1.
  exists (e1 ++ e2)%list. split; [eapply evolves_trans; eassumption|].
  split; [|split; [etransitivity; eassumption|]].
  - apply Forall_app. split; [exact Hm1|]. rewrite <- Hc. exact Hm2.
  - intros q n Hq. destruct (Hn2 q n Hq) as [Hq1|(-> & h & Hh & ->)].
    + apply Hn1, Hq1.
    + right. split; [reflexivity|]. exists h. rewrite <- Hc. auto.
Qed.

Lemma mkdir_exist_ok_only name w res w' :
  mkdir_exist_ok name true w = (res, w') ->
  only_mkdirs w w' [name] /\ (res = Ok tt -> fst (os_stat name w') = Ok Dir).
Proof.
  intros E. apply mkdir_exist_ok_run in E
    as [(-> & Hd & [->|(Hn & ->)])|(e & -> & ->)].
  - split; [apply only_mkdirs_refl|auto].
  - split; [|auto]. exists [EvMkdir (locate (cwd w) name)].
    split; [apply emit_evolves|]. split; [|split].
    + apply Forall_singleton. exists name. split; [apply list_elem_of_singleton|]; reflexivity.
    + cbn. apply insert_subseteq, Hn.
    + cbn. intros q n Hq. destruct (decide (locate (cwd w) name = q)) as [<-|Hne].
      * rewrite lookup_insert_eq in Hq. injection Hq as <-. right.
        split; [reflexivity|]. exists name.
        split; [apply list_elem_of_singleton|]; reflexivity.
      * rewrite lookup_insert_ne in Hq by exact Hne. auto.
  - split; [apply only_mkdirs_refl|discriminate].
Qed.

Lemma makedirs_loop_run fuel : forall name w res w',
  makedirs_loop fuel name true w = (res, w') ->
  only_mkdirs w w' (makedirs_names fuel name)
  /\ (res = Ok tt -> snd (makedirs_split name) <> "." ->
      fst (os_stat name w') = Ok Dir).
Proof.
  induction fuel as [|fuel IH]; intros name w res w'.
  - cbn. intros [= <- <-]. split; [apply only_mkdirs_refl|discriminate].
  - cbn [makedirs_loop makedirs_names].
    destruct (makedirs_split name) as [head tail] eqn:Esp. cbn [snd].
    set (rest := if negb (head =? "")%string && negb (tail =? "")%string
                 then makedirs_names fuel head else []).
    assert (Hfinal : forall w1 res w',
              only_mkdirs w w1 rest ->
              mkdir_exist_ok name true w1 = (res, w') ->
              only_mkdirs w w' (name :: rest)
              /\ (res = Ok tt -> tail <> "." -> fst (os_stat name w') = Ok Dir)).
    { intros w1 r2 w2 H1 E2. apply mkdir_exist_ok_only in E2 as [H2 Hd].
      split; [|auto].
      apply (only_mkdirs_trans w w1 w2).
      - eapply only_mkdirs_mono; [|exact H1]. intros h Hh. apply elem_of_cons. auto.
      - eapply only_mkdirs_mono; [|exact H2]. intros h Hh.
        apply list_elem_of_singleton in Hh as ->. apply elem_of_cons. auto. }
    unfold bind at 1.
    destruct (negb (head =? "")%string && negb (tail =? "")%string) eqn:Econd.
    + unfold bind at 1. rewrite os_path_exists_eq.
      destruct (match fst (os_stat head w) with Ok _ => true | Raise _ => false end).
      * cbn [ret]. apply Hfinal, only_mkdirs_refl.
      * unfold bind at 1, try_except.
        destruct (makedirs_loop fuel head true w) as [r1 w1] eqn:E1.
        apply IH in E1 as [H1 _].
        assert (Hdone : forall res w',
                  (if (tail =? ".")%string then ret tt else mkdir_exist_ok name true) w1
                  = (res, w') ->
                  only_mkdirs w w' (name :: rest)
                  /\ (res = Ok tt -> tail <> "." -> fst (os_stat name w') = Ok Dir)).
        { intros r2 w2. destruct (tail =? ".")%string eqn:Et.
          - apply String.eqb_eq in Et. intros [= <- <-]. split; [|congruence].
            eapply only_mkdirs_mono; [|exact H1]. intros h Hh. apply elem_of_cons. auto.
          - apply Hfinal, H1. }
        destruct r1 as [[]|e].
        -- cbn [ret]. apply Hdone.
        -- destruct (bool_decide (e = FileExistsError)).
           ++ cbn [ret]. apply Hdone.
           ++ cbn [raise]. intros [= <- <-]. split; [|discriminate].
              eapply only_mkdirs_mono; [|exact H1]. intros h Hh. apply elem_of_cons. auto.
    + cbn [ret]. apply Hfinal, only_mkdirs_refl.
Qed.

Lemma create_dir_run path w res w' :
  create_dir path w = (res, w') ->
  only_mkdirs w w' (makedirs_chain path)
  /\ (forall b, res = Ok b ->
        b = match fst (os_stat path w') with Ok _ => true | Raise _ => false end
        /\ (snd (makedirs_split path) <> "." -> fst (os_stat path w') = Ok Dir)).
Proof.
  unfold create_dir, bind, os_makedirs.
  destruct (makedirs_loop (S (String.length path)) path true w) as [r1 w1] eqn:E1.
  apply makedirs_loop_run in E1 as [H1 Hd]. fold (makedirs_chain path) in H1.
  destruct r1 as [[]|e].
  - rewrite os_path_exists_eq.
    destruct (fst (os_stat path w1)) as [n|e] eqn:Es; cbn; intros [= <- <-];
      (split; [exact H1|]); intros b [= <-]; rewrite Es; (split; [reflexivity|]);
      intros Ht; apply Hd; auto.
  - intros [= <- <-]. split; [exact H1|]. discriminate.
Qed.

(** *** The head of a name that is there *)

Lemma walk_snoc f cs : forall pos c r,
  node_at f pos = Some Dir ->
  walk f pos (cs ++ [c]) = Ok r ->
  exists ph d,
    walk f pos cs = Ok (ph, d) /\ node_at f ph = Some Dir /\ walk f ph [c] = Ok r.
Proof.
  induction cs as [|c1 cs IH]; intros pos c r Hpos.
  - cbn [app]. intros E. exists pos, true. auto.
  - cbn [app walk]. destruct (c1 =? ".")%string; [apply IH, Hpos|].
    destruct (c1 =? "..")%string.
    + destruct (node_at f (removelast pos)) as [[|?]|] eqn:Ep; try discriminate.
      apply IH, Ep.
    + destruct cs as [|c2 cs]; cbn [app].
      * destruct (node_at f (pos ++ [c1])%list) as [[|?]|] eqn:Ep; try discriminate.
        intros E. exists (pos ++ [c1])%list, false. auto.
      * destruct (node_at f (pos ++ [c1])%list) as [[|?]|] eqn:Ep; try discriminate.
        intros E. apply (IH _ _ _ Ep) in E. exact E.
Qed.

(** What [name_lookup] comes to for a name without NUL that is not empty. *)
Lemma name_lookup_unfold w name :
  has_nul name = false -> name <> "" ->
  name_lookup w name
  = if negb (String.prefix "/" name)
       && negb (bool_decide (node_at (fs w) (cwd w) = Some Dir))
    then Raise FileNotFoundError
    else
      match walk (fs w) (if String.prefix "/" name then [] else cwd w)
              (components name) with
      | Raise e => Raise e
      | Ok (p, true) => Ok (p, Dots)
      | Ok (p, false) => Ok (p, if endswith_slash name then Slash else Plain)
      end.
Proof.
  intros Hn Hne. unfold name_lookup. rewrite Hn.
  apply String.eqb_neq in Hne. rewrite Hne. reflexivity.
Qed.

Lemma name_lookup_Ok_inv w name r :
  name_lookup w name = Ok r ->
  has_nul name = false /\ name <> ""
  /\ node_at (fs w) (if String.prefix "/" name then [] else cwd w) = Some Dir.
Proof.
  unfold name_lookup. destruct (has_nul name); [discriminate|].
  destruct (name =? "")%string eqn:En; [discriminate|]. apply String.eqb_neq in En.
  destruct (String.prefix "/" name); cbn [negb andb]; [auto|].
  destruct (bool_decide (node_at (fs w) (cwd w) = Some Dir)) eqn:Ed; [|discriminate].
  apply bool_decide_eq_true in Ed. auto.
Qed.

(** When a name is found, the head [os.makedirs] takes of it is a
    directory, and a name whose tail is [.] ends at a directory. *)
Lemma name_lookup_head w name head tail p last :
  makedirs_split name = (head, tail) -> tail <> "" ->
  name_lookup w name = Ok (p, last) ->
  (head <> "" -> fst (os_stat head w) = Ok Dir)
  /\ (tail = "." -> last = Dots).
Proof.
  intros Hsp Ht El.
  pose proof (name_lookup_Ok_inv _ _ _ El) as (Hn & Hne & Hstart).
  destruct (makedirs_split_spec _ _ _ Hsp Ht) as (Hc & Hp & Hq & Hnh & _).
  rewrite (name_lookup_unfold _ _ Hn Hne) in El.
  set (start := if String.prefix "/" name then [] else cwd w) in *.
  assert (Estart : (negb (String.prefix "/" name)
                    && negb (bool_decide (node_at (fs w) (cwd w) = Some Dir))) = false).
  { destruct (_ && _); [discriminate|reflexivity]. }
  rewrite Estart in El.
  destruct (walk (fs w) start (components name)) as [r|e] eqn:Ew; [|discriminate].
  rewrite Hc in Ew. apply (walk_snoc _ _ _ _ _ Hstart) in Ew as (ph & d & Ewh & Hph & Ewt).
  split.
  - intros Hh. specialize (Hp Hh). specialize (Hnh Hn).
    apply (os_stat_Dir w head ph (if d then Dots
                                  else if endswith_slash head then Slash else Plain));
      [|exact Hph].
    rewrite (name_lookup_unfold _ _ Hnh Hh), <- Hp, Estart. fold start. rewrite Ewh.
    destruct d; reflexivity.
  - intros ->. cbn in Ewt. injection Ewt as <-. injection El as _ <-. reflexivity.
Qed.

(** After [os.makedirs] has returned, what is found under the name is a
    directory. *)
Lemma os_makedirs_Ok_Dir path w w1 n :
  os_makedirs path true w = (Ok tt, w1) ->
  fst (os_stat path w1) = Ok n -> n = Dir.
Proof.
  intros E Hs. unfold os_makedirs in E. apply makedirs_loop_run in E as [_ Hd].
  destruct (makedirs_split path) as [head tail] eqn:Esp. cbn [snd] in Hd.
  destruct (decide (tail = ".")) as [->|Ht].
  - destruct (os_stat path w1) as [r w2] eqn:E1. cbn in Hs. subst r.
    apply os_stat_run in E1 as [_ (last & El & Hn & _)].
    pose proof (name_lookup_head _ _ _ _ _ _ Esp ltac:(discriminate) El) as [_ Hl].
    apply name_lookup_Ok in El as (_ & _ & Hdots & _).
    rewrite (Hdots (Hl eq_refl)) in Hn. congruence.
  - rewrite (Hd eq_refl Ht) in Hs. congruence.
Qed.

Lemma mkdir_exist_ok_there name w :
  fst (os_stat name w) = Ok Dir -> mkdir_exist_ok name true w = (Ok tt, w).
Proof.
  intros Hd. unfold mkdir_exist_ok, try_except.
  destruct (os_stat name w) as [r w1] eqn:E1. cbn in Hd. subst r.
  pose proof E1 as E1'. apply os_stat_run in E1 as [-> (last & El & Hn & _)].
  unfold os_mkdir, with_name. rewrite El, Hn. cbn [raise is_OSError negb].
  unfold bind. rewrite os_path_isdir_eq, E1'. reflexivity.
Qed.

(** X9: [create_dir] is idempotent: after a call that returned [True], a
    second call on the same path returns [True] again and changes
    nothing. *)
Theorem create_dir_twice path w w1 :
  create_dir path w = (Ok true, w1) ->
  create_dir path w1 = (Ok true, w1).
Proof.
  unfold create_dir at 1. unfold bind at 1.
  destruct (os_makedirs path true w) as [[[]|e] w2] eqn:E1; [|discriminate].
  unfold bind. rewrite os_path_exists_eq.
  destruct (fst (os_stat path w2)) as [n|e] eqn:Es; cbn; [|discriminate].
  intros [= <-].
  pose proof (os_makedirs_Ok_Dir _ _ _ _ E1 Es) as ->.
  assert (Hmk : os_makedirs path true w2 = (Ok tt, w2)).
  { unfold os_makedirs. cbn [makedirs_loop].
    destruct (makedirs_split path) as [head tail] eqn:Esp.
    unfold bind at 1.
    destruct (negb (head =? "")%string && negb (tail =? "")%string) eqn:Econd.
    - apply andb_true_iff in Econd as [Hh Ht].
      apply negb_true_iff, String.eqb_neq in Hh, Ht.
      destruct (os_stat path w2) as [r w3] eqn:E2. cbn in Es. subst r.
      pose proof E2 as E2'. apply os_stat_run in E2 as [-> (last & El & _)].
      pose proof (name_lookup_head _ _ _ _ _ _ Esp Ht El) as [Hhd _].
      unfold bind at 1. rewrite os_path_exists_eq, (Hhd Hh). cbn [ret].
      apply mkdir_exist_ok_there. rewrite E2'. reflexivity.
    - cbn [ret]. apply mkdir_exist_ok_there, Es. }
  unfold create_dir, bind. rewrite Hmk, os_path_exists_eq, Es. reflexivity.
Qed.

(** X10: when [path] leads to a regular file, [create_dir] raises
    [FileExistsError] and changes nothing. *)
Theorem create_dir_file_in_the_way path w p last data :
  name_lookup w path = Ok (p, last) ->
  node_at (fs w) p = Some (File data) ->
  create_dir path w = (Raise FileExistsError, w).
Proof.
  intros El Hfile.
  assert (Hlast : mkdir_exist_ok path true w = (Raise FileExistsError, w)).
  { unfold mkdir_exist_ok, try_except, os_mkdir, with_name.
    rewrite El, Hfile. cbn [raise is_OSError negb].
    unfold bind. rewrite os_path_isdir_eq. unfold os_stat, with_name.
    rewrite El, Hfile. destruct (bool_decide (last = Slash)); reflexivity. }
  assert (Hmk : os_makedirs path true w = (Raise FileExistsError, w)).
  { unfold os_makedirs. cbn [makedirs_loop].
    destruct (makedirs_split path) as [head tail] eqn:Esp.
    unfold bind at 1.
    destruct (negb (head =? "")%string && negb (tail =? "")%string) eqn:Econd.
    - apply andb_true_iff in Econd as [Hh Ht].
      apply negb_true_iff, String.eqb_neq in Hh, Ht.
      pose proof (name_lookup_head _ _ _ _ _ _ Esp Ht El) as [Hhd _].
      unfold bind at 1. rewrite os_path_exists_eq, (Hhd Hh). cbn [ret]. exact Hlast.
    - cbn [ret]. exact Hlast. }
  unfold create_dir, bind. rewrite Hmk. reflexivity.
Qed.

(** The bound on the recursion of [os.makedirs] is never reached: every
    bound above the length of the name gives the same run. *)
Lemma makedirs_loop_fuel fuel : forall fuel' name exist_ok w,
  String.length name < fuel -> String.length name < fuel' ->
  makedirs_loop fuel name exist_ok w = makedirs_loop fuel' name exist_ok w.
Proof.
  induction fuel as [|fuel IH]; intros fuel' name eo w Hf Hf'; [lia|].
  destruct fuel' as [|fuel']; [lia|]. cbn [makedirs_loop].
  destruct (makedirs_split name) as [head tail] eqn:Esp.
  destruct (negb (head =? "")%string && negb (tail =? "")%string) eqn:Econd;
    [|reflexivity].
  apply andb_true_iff in Econd as [_ Ht]. apply negb_true_iff, String.eqb_neq in Ht.
  destruct (makedirs_split_spec _ _ _ Esp Ht) as (_ & _ & _ & _ & Hlen).
  unfold bind, try_except.
  destruct (os_path_exists head w) as [[[|]|e] w1]; try reflexivity.
  rewrite (IH fuel' head eo w1) by lia. reflexivity.
Qed.

Lemma os_mkdir_raises name w e w' :
  os_mkdir name w = (Raise e, w') ->
  e = FileExistsError \/ e = ValueError \/ e = FileNotFoundError
  \/ e = NotADirectoryError.
Proof.
  intros E. apply with_name_run in E as [(e' & El & [= ->] & _)|(last & El & E)].
  - apply name_lookup_Raise in El. tauto.
  - destruct (node_at (fs w) (locate (cwd w) name)); [|discriminate].
    injection E as <- _. auto.
Qed.

Lemma mkdir_exist_ok_in_bound name exist_ok w :
  fst (mkdir_exist_ok name exist_ok w) <> Raise RecursionError.
Proof.
  unfold mkdir_exist_ok, try_except.
  destruct (os_mkdir name w) as [[[]|e] w1] eqn:E1; [discriminate|].
  assert (He : e <> RecursionError).
  { apply os_mkdir_raises in E1 as [->|[->|[->| ->]]]; discriminate. }
  destruct (is_OSError e); [|cbn; congruence].
  destruct exist_ok; cbn [negb]; [|cbn; congruence].
  unfold bind. rewrite os_path_isdir_eq.
  destruct (match fst (os_stat name w1) with Ok Dir => true | _ => false end);
    cbn; congruence.
Qed.

Lemma makedirs_loop_in_bound fuel : forall name exist_ok w,
  String.length name < fuel ->
  fst (makedirs_loop fuel name exist_ok w) <> Raise RecursionError.
Proof.
  induction fuel as [|fuel IH]; intros name eo w Hf; [lia|].
  cbn [makedirs_loop]. destruct (makedirs_split name) as [head tail] eqn:Esp.
  unfold bind at 1.
  destruct (negb (head =? "")%string && negb (tail =? "")%string) eqn:Econd;
    [|cbn [ret]; apply mkdir_exist_ok_in_bound].
  apply andb_true_iff in Econd as [_ Ht]. apply negb_true_iff, String.eqb_neq in Ht.
  destruct (makedirs_split_spec _ _ _ Esp Ht) as (_ & _ & _ & _ & Hlen).
  unfold bind at 1. rewrite os_path_exists_eq.
  destruct (match fst (os_stat head w) with Ok _ => true | Raise _ => false end);
    [cbn [ret]; apply mkdir_exist_ok_in_bound|].
  unfold bind at 1, try_except.
  pose proof (IH head eo w ltac:(lia)) as Hh.
  destruct (makedirs_loop fuel head eo w) as [[[]|e] w1]; cbn [fst] in Hh.
  - cbn [ret]. destruct (tail =? ".")%string;
      [cbn; discriminate|apply mkdir_exist_ok_in_bound].
  - destruct (bool_decide (e = FileExistsError)).
    + cbn [ret]. destruct (tail =? ".")%string;
        [cbn; discriminate|apply mkdir_exist_ok_in_bound].
    + cbn. exact Hh.
Qed.

(** [os.makedirs] never runs out of its bound. *)
Lemma os_makedirs_in_bound name exist_ok w :
  fst (os_makedirs name exist_ok w) <> Raise RecursionError.
Proof. apply makedirs_loop_in_bound. lia. Qed.

(** C10 (as the code has it): when the last component of [path] is not
    [.], [create_dir] returns [True] whenever it returns: [os.makedirs]
    has then ended in its last statement, so [mkdir] went through or a
    directory was found, and [path] exists. *)
Theorem create_dir_returns_True path w b w' :
  snd (makedirs_split path) <> "." ->
  create_dir path w = (Ok b, w') -> b = true.
Proof.
  intros Ht E. apply create_dir_run in E as [_ Hb].
  destruct (Hb b eq_refl) as [-> Hd]. rewrite (Hd Ht). reflexivity.
Qed.

(** *** What [create_dir] keeps and what it adds *)

(** X8: [create_dir] only adds: every file and directory that was there
    is there afterwards, unchanged, and whatever is new is a directory at
    a place where [path] leads or one of the heads [os.makedirs] takes of
    it in turn; this also holds when it raises. *)
Theorem create_dir_only_adds_directories path w res w' :
  create_dir path w = (res, w') ->
  fs w ⊆ fs w'
  /\ forall q n, fs w' !! q = Some n ->
       fs w !! q = Some n
       \/ (n = Dir /\ exists h, h ∈ makedirs_chain path /\ q = locate (cwd w) h).
Proof.
  intros E. apply create_dir_run in E as [(evs & _ & _ & Hs & Hn) _]. auto.
Qed.

(** ** Runs that leave a place alone *)

Lemma quiet_run_refl p w : quiet_run p w w.
Proof. exists []. split; [apply evolves_refl|constructor]. Qed.

Lemma quiet_run_trans p w1 w2 w3 :
  quiet_run p w1 w2 -> quiet_run p w2 w3 -> quiet_run p w1 w3.
Proof.
  intros (e1 & H1 & Q1) (e2 & H2 & Q2). exists (e1 ++ e2)%list.
  split; [eapply evolves_trans; eassumption|]. apply Forall_app. split; assumption.
Qed.

Lemma quiet_run_emit p ev w :
  touches p ev = false -> quiet_run p w (snd (emit ev w)).
Proof.
  intros Ht. exists [ev]. split; [apply emit_evolves|]. repeat constructor. exact Ht.
Qed.

Lemma quiet_run_lookup p w w' : quiet_run p w w' -> fs w' !! p = fs w !! p.
Proof.
  intros (evs & (_ & _ & -> & _) & Hq). apply replay_untouched, Hq.
Qed.

Lemma quiet_run_cwd p w w' : quiet_run p w w' -> cwd w' = cwd w.
Proof. intros (evs & (H & _) & _). exact H. Qed.

Lemma quiet_run_tmp_names p w w' :
  quiet_run p w w' -> tmp_names w' `suffix_of` tmp_names w.
Proof. intros (evs & (_ & _ & _ & H & _) & _). exact H. Qed.

Lemma create_dir_quiet pd path w res w' :
  Forall (fun h => locate (cwd w) h <> pd) (makedirs_chain path) ->
  create_dir path w = (res, w') -> quiet_run pd w w'.
Proof.
  intros Hpd E. apply create_dir_run in E as [(evs & Hev & Hm & _) _].
  exists evs. split; [exact Hev|]. eapply Forall_impl; [exact Hm|].
  intros ev (h & Hh & ->). cbn. apply bool_decide_eq_false. intros ->.
  rewrite Forall_forall in Hpd. apply (Hpd h Hh). reflexivity.
Qed.

Lemma os_path_relpath_run name w res w' :
  os_path_relpath name w = (res, w') -> w' = w.
Proof.
  unfold os_path_relpath. destruct (name =? "")%string; [intros [= <- <-]; reflexivity|].
  destruct (strip_common _ _) as [a b]. destruct (_ ++ _)%list; intros [= <- <-]; reflexivity.
Qed.

Lemma get_utc_now_eq w :
  get_utc_now w =
  match now_UTC_outcome w with
  | Ok t => (Ok t, snd (emit (EvClock true) w))
  | Raise e =>
      if bool_decide (e = AttributeError)
      then (utcnow_outcome w, snd (emit (EvClock false) (snd (emit (EvClock true) w))))
      else (Raise e, snd (emit (EvClock true) w))
  end.
Proof.
  unfold get_utc_now, bind, try_except, datetime_now_UTC, bind. cbn [emit snd].
  change (now_UTC_outcome (set_fs_trace _ _ w)) with (now_UTC_outcome w).
  destruct (now_UTC_outcome w) as [t|e]; [reflexivity|].
  destruct (bool_decide (e = AttributeError)); [|reflexivity].
  unfold datetime_utcnow, bind. cbn [emit snd].
  change (utcnow_outcome (set_fs_trace _ _ _)) with (utcnow_outcome w).
  destruct (utcnow_outcome w); reflexivity.
Qed.

Lemma get_utc_now_quiet p w res w' :
  get_utc_now w = (res, w') -> quiet_run p w w'.
Proof.
  rewrite get_utc_now_eq. destruct (now_UTC_outcome w) as [t|e].
  - intros [= <- <-]. apply quiet_run_emit. reflexivity.
  - destruct (bool_decide _); intros [= <- <-].
    + eapply quiet_run_trans;
        [apply (quiet_run_emit p (EvClock true) w)
        |apply (quiet_run_emit p (EvClock false) (snd (emit (EvClock true) w)))];
        reflexivity.
    + apply quiet_run_emit. reflexivity.
Qed.

(** ** Files: what the calls do when they return, and that they change
    nothing when they raise *)

Lemma os_open_excl_run name w res w' :
  os_open_excl name w = (res, w') ->
  (res = Ok tt
   /\ name_lookup w name = Ok (locate (cwd w) name, Plain)
   /\ node_at (fs w) (locate (cwd w) name) = None
   /\ w' = snd (emit (EvCreate (locate (cwd w) name)) w))
  \/ (exists e, res = Raise e /\ w' = w).
Proof.
  intros E. apply with_name_run in E as [(e & El & -> & ->)|(last & El & E)];
    [right; eauto|].
  destruct (bool_decide (last = Slash)) eqn:Es; [injection E as <- <-; right; eauto|].
  apply bool_decide_eq_false in Es.
  destruct (node_at (fs w) (locate (cwd w) name)) as [n|] eqn:En;
    injection E as <- <-; [right; eauto|].
  left. split; [reflexivity|]. split; [|auto].
  destruct last; [exact El|contradiction|].
  apply name_lookup_Ok in El as (_ & _ & Hd & _). rewrite (Hd eq_refl) in En. discriminate.
Qed.

(** [mkstemp] either makes a file that was not there, under one of the
    names it could draw, or raises and makes nothing. *)
Lemma mkstemp_inner_run dir names : forall w res w',
  names `suffix_of` tmp_names w ->
  mkstemp_inner dir names w = (res, w') ->
  (exists name,
      res = Ok (os_path_join dir ("tmp" ++ name))
      /\ name ∈ names
      /\ name_lookup w (os_path_join dir ("tmp" ++ name))
         = Ok (locate (cwd w) (os_path_join dir ("tmp" ++ name)), Plain)
      /\ node_at (fs w) (locate (cwd w) (os_path_join dir ("tmp" ++ name))) = None
      /\ evolves w w' [EvCreate (locate (cwd w) (os_path_join dir ("tmp" ++ name)))])
  \/ (exists e, res = Raise e /\ evolves w w' []).
Proof.
  induction names as [|name rest IH]; intros w res w' Hs.
  - cbn. intros [= <- <-]. right. eexists. split; [reflexivity|apply evolves_refl].
  - cbn [mkstemp_inner].
    assert (Hrest : rest `suffix_of` tmp_names w).
    { etransitivity; [|exact Hs]. apply suffix_cons_r. reflexivity. }
    pose proof (set_tmp_names_evolves rest w Hrest) as Hev0.
    set (file := os_path_join dir ("tmp" ++ name)).
    destruct (os_open_excl file (set_tmp_names rest w)) as [r1 w1] eqn:E1.
    apply os_open_excl_run in E1 as [(-> & El & Hnone & ->)|(e & -> & ->)].
    + intros [= <- <-]. left. exists name. split; [reflexivity|].
      split; [apply elem_of_cons; auto|]. split; [exact El|]. split; [exact Hnone|].
      exact (evolves_trans _ _ _ [] _ Hev0 (emit_evolves _ _)).
    + destruct (bool_decide (e = FileExistsError)).
      * intros E. apply IH in E; [|reflexivity].
        destruct E as [(nm & -> & Hin & El & Hnone & Hev)|(e' & -> & Hev)].
        -- left. exists nm. split; [reflexivity|]. split; [apply elem_of_cons; auto|].
           split; [exact El|]. split; [exact Hnone|].
           exact (evolves_trans _ _ _ [] _ Hev0 Hev).
        -- right. exists e'. split; [reflexivity|].
           exact (evolves_trans _ _ _ [] _ Hev0 Hev).
      * intros [= <- <-]. right. eexists. split; [reflexivity|exact Hev0].
Qed.

Lemma tempfile_mkstemp_run dir w res w' :
  tempfile_mkstemp dir w = (res, w') ->
  (exists name,
      let file := os_path_join (abspath_of (cwd w) dir) ("tmp" ++ name) in
      res = Ok file
      /\ name ∈ tmp_names w
      /\ name_lookup w file = Ok (locate (cwd w) file, Plain)
      /\ node_at (fs w) (locate (cwd w) file) = None
      /\ evolves w w' [EvCreate (locate (cwd w) file)])
  \/ (exists e, res = Raise e /\ evolves w w' []).
Proof. unfold tempfile_mkstemp. apply mkstemp_inner_run. reflexivity. Qed.

Lemma fd_write_run name data w res w' :
  fd_write name data w = (res, w') ->
  (res = Ok tt /\ name <> ""
   /\ (exists d, node_at (fs w) (locate (cwd w) name) = Some (File d))
   /\ w' = snd (emit (EvAppend (locate (cwd w) name) data) w))
  \/ (exists e, res = Raise e /\ w' = w).
Proof.
  intros E. apply with_name_run in E as [(e & El & -> & ->)|(last & El & E)];
    [right; eauto|].
  destruct (node_at (fs w) (locate (cwd w) name)) as [[|d]|] eqn:En;
    injection E as <- <-; [right; eauto| |right; eauto].
  left. apply name_lookup_Ok in El as (Hne & _). eauto 6.
Qed.

Lemma open_for_write_append_run name w res w' :
  open_for_write name false w = (res, w') ->
  (res = Ok tt
   /\ ((w' = w /\ exists d, node_at (fs w) (locate (cwd w) name) = Some (File d))
       \/ (w' = snd (emit (EvCreate (locate (cwd w) name)) w)
           /\ node_at (fs w) (locate (cwd w) name) = None)))
  \/ (exists e, res = Raise e /\ w' = w).
Proof.
  intros E. apply with_name_run in E as [(e & El & -> & ->)|(last & El & E)];
    [right; eauto|].
  destruct (bool_decide (last = Slash)); [injection E as <- <-; right; eauto|].
  destruct (node_at (fs w) (locate (cwd w) name)) as [[|d]|] eqn:En;
    injection E as <- <-; [right; eauto| |].
  - left. split; [reflexivity|]. left. eauto.
  - left. split; [reflexivity|]. right. eauto.
Qed.

Lemma open_for_write_truncate_run name w w' :
  open_for_write name true w = (Ok tt, w') ->
  name <> "" /\ locate (cwd w) name <> []
  /\ w' = snd (emit (EvCreate (locate (cwd w) name)) w).
Proof.
  intros E. apply with_name_run in E as [(e & El & [=] & _)|(last & El & E)].
  destruct (bool_decide (last = Slash)) eqn:Es; [discriminate|].
  apply bool_decide_eq_false in Es.
  pose proof (name_lookup_Ok _ _ _ _ El) as (Hne & _ & Hd & Hp).
  split; [exact Hne|].
  destruct (node_at (fs w) (locate (cwd w) name)) as [[|d]|] eqn:En; [discriminate| |].
  - injection E as <-. split; [|reflexivity]. intros Ep. rewrite Ep in En. discriminate.
  - injection E as <-. split; [|reflexivity]. intros Ep. rewrite Ep in En. discriminate.
Qed.

Lemma os_rename_run src dst w res w' :
  os_rename src dst w = (res, w') ->
  (res = Ok tt
   /\ (exists d, node_at (fs w) (locate (cwd w) src) = Some (File d))
   /\ w' = snd (emit (EvRename (locate (cwd w) src) (locate (cwd w) dst)) w)
   /\ node_at (fs w) (locate (cwd w) dst) <> Some Dir)
  \/ (exists e, res = Raise e /\ w' = w).
Proof.
  intros E. apply with_name_run in E as [(e & El & -> & ->)|(lasts & Els & E)];
    [right; eauto|].
  apply with_name_run in E as [(e & El & -> & ->)|(lastd & Eld & E)];
    [right; eauto|].
  destruct (bool_decide (lasts = Dots) || bool_decide (lastd = Dots));
    [injection E as <- <-; right; eauto|].
  destruct (node_at (fs w) (locate (cwd w) src)) as [[|d]|] eqn:Es;
    try (injection E as <- <-; right; eauto; fail).
  destruct (bool_decide (lasts = Slash) || bool_decide (lastd = Slash));
    [injection E as <- <-; right; eauto|].
  destruct (node_at (fs w) (locate (cwd w) dst)) as [[|d']|] eqn:Ed;
    injection E as <- <-; [right; eauto| |];
    left; repeat split; eauto; discriminate.
Qed.

Lemma read_file_run name w res w' :
  read_file name w = (res, w') ->
  w' = w
  /\ forall d, res = Ok d -> node_at (fs w) (locate (cwd w) name) = Some (File d).
Proof.
  intros E. apply with_name_run in E as [(e & El & -> & ->)|(last & El & E)];
    [split; [reflexivity|discriminate]|].
  destruct (node_at (fs w) (locate (cwd w) name)) as [[|d]|] eqn:En;
    injection E as <- <-; (split; [reflexivity|]); try discriminate.
  intros d' [= <-]. reflexivity.
Qed.

Lemma open_rb_run name w res w' :
  open_rb name w = (res, w') ->
  w' = w
  /\ (res = Ok tt -> exists d, node_at (fs w) (locate (cwd w) name) = Some (File d)).
Proof.
  intros E. apply with_name_run in E as [(e & El & -> & ->)|(last & El & E)];
    [split; [reflexivity|discriminate]|].
  destruct (node_at (fs w) (locate (cwd w) name)) as [[|d]|] eqn:En;
    [injection E as <- <-; split; [reflexivity|discriminate]| |
     injection E as <- <-; split; [reflexivity|discriminate]].
  destruct (bool_decide (last = Slash)); injection E as <- <-;
    (split; [reflexivity|]); [discriminate|eauto].
Qed.

(** Calls on a file that is known to be there. *)
Lemma fd_write_Ok name data w p last d :
  name_lookup w name = Ok (p, last) -> node_at (fs w) p = Some (File d) ->
  fd_write name data w = (Ok tt, snd (emit (EvAppend p data) w)).
Proof. intros El Hn. unfold fd_write, with_name. rewrite El, Hn. reflexivity. Qed.

Lemma read_file_Ok name w p last d :
  name_lookup w name = Ok (p, last) -> node_at (fs w) p = Some (File d) ->
  read_file name w = (Ok d, w).
Proof. intros El Hn. unfold read_file, with_name. rewrite El, Hn. reflexivity. Qed.

Lemma os_unlink_Ok name w p d :
  name_lookup w name = Ok (p, Plain) -> node_at (fs w) p = Some (File d) ->
  os_unlink name w = (Ok tt, snd (emit (EvUnlink p) w)).
Proof. intros El Hn. unfold os_unlink, with_name. rewrite El, Hn. reflexivity. Qed.

(** Appending to a file, and making a file where nothing was, keep the
    directories. *)
Lemma dirs_kept_alter f p z : dirs_kept f (alter (append_data z) p f).
Proof.
  intros q Hq. destruct q as [|c q]; [reflexivity|]. cbn in *.
  destruct (decide (p = c :: q)) as [->|Hne].
  - rewrite lookup_alter_eq, Hq. reflexivity.
  - rewrite lookup_alter_ne by exact Hne. exact Hq.
Qed.

Lemma dirs_kept_create f p : node_at f p = None -> dirs_kept f (<[p := File ""]> f).
Proof.
  intros Hp. apply dirs_kept_subseteq, insert_subseteq.
  apply node_at_None in Hp. apply Hp.
Qed.
(** ** [get_utc_now] *)

(** C5: [get_utc_now] first asks for the timezone-aware time; it calls
    the naive [utcnow] exactly when that attempt raised [AttributeError]
    (the runtime has no [datetime.UTC]), and then returns what [utcnow]
    gives; a value of the first attempt is returned, and any other
    exception of the first attempt goes to the caller. *)
Theorem get_utc_now_fallback w :
  exists evs,
    trace (snd (get_utc_now w)) = (trace w ++ EvClock true :: evs)%list
    /\ (EvClock false ∈ evs <-> now_UTC_outcome w = Raise AttributeError)
    /\ (forall t, now_UTC_outcome w = Ok t -> fst (get_utc_now w) = Ok t)
    /\ (now_UTC_outcome w = Raise AttributeError ->
        fst (get_utc_now w) = utcnow_outcome w)
    /\ (forall e, now_UTC_outcome w = Raise e -> e <> AttributeError ->
        fst (get_utc_now w) = Raise e).
Proof.
  rewrite get_utc_now_eq. destruct (now_UTC_outcome w) as [t|e] eqn:E.
  - exists []. cbn. split; [reflexivity|]. split.
    + split; [intros Hin; inversion Hin|discriminate].
    + split; [congruence|]. split; [discriminate|congruence].
  - destruct (bool_decide (e = AttributeError)) eqn:Eb.
    + apply bool_decide_eq_true in Eb. subst e. exists [EvClock false]. cbn.
      split; [rewrite <- app_assoc; reflexivity|]. split.
      * split; [reflexivity|]. intros _. apply list_elem_of_singleton. reflexivity.
      * split; [discriminate|]. split; [reflexivity|congruence].
    + apply bool_decide_eq_false in Eb. exists []. cbn.
      split; [reflexivity|]. split.
      * split; [intros Hin; inversion Hin|congruence].
      * split; [discriminate|]. split; [congruence|]. intros e' [= <-] _. reflexivity.
Qed.

(** X18: what [get_utc_now] returns: on a runtime with [datetime.UTC]
    and a clock that works, the timezone-aware time of the instant; on a
    runtime without it, whatever [utcnow] gives, the naive time of the same
    instant or its exception.  The file system is not touched. *)
Theorem get_utc_now_value w :
  fs (snd (get_utc_now w)) = fs w
  /\ (has_datetime_UTC w = true -> now_raises w = None ->
      fst (get_utc_now w) = Ok {| dt_instant := instant w; dt_aware := true |})
  /\ (has_datetime_UTC w = false ->
      fst (get_utc_now w)
      = match utcnow_raises w with
        | Some e => Raise e
        | None => Ok {| dt_instant := instant w; dt_aware := false |}
        end).
Proof.
  rewrite get_utc_now_eq. unfold now_UTC_outcome, utcnow_outcome. split.
  - destruct (has_datetime_UTC w); [destruct (now_raises w) as [e|]|];
      try destruct (bool_decide _); reflexivity.
  - split.
    + intros -> ->. reflexivity.
    + intros ->. rewrite bool_decide_eq_true_2 by reflexivity. reflexivity.
Qed.


(** ** [save_df_as_csv] *)

Section SaveDf.
Context `{External}.

Lemma df_with_rows_None df :
  df = PyOther \/ (exists d, df = PyDataFrame d /\ df_rows d = []) ->
  df_with_rows df = None.
Proof.
  intros [->|(d & -> & Hd)]; [reflexivity|]. cbn. rewrite Hd. reflexivity.
Qed.

(** C3: for an input that is no table or a table with no row,
    [save_df_as_csv] returns the empty string and does not raise; it logs
    one warning, and that record is all it leaves: no system call changes
    the file system (no directory, no file, no temporary file), and no
    stream and no temporary name is used. *)
Theorem save_df_as_csv_no_data df path filename comment prepend_info atomic kwargs w :
  df = PyOther \/ (exists d, df = PyDataFrame d /\ df_rows d = []) ->
  exists w',
    save_df_as_csv df path filename comment prepend_info atomic kwargs w
      = (Ok (DPath ""), w')
    /\ trace w' = (trace w ++ [EvLog WARNING "no data to save..."])%list
    /\ fs w' = fs w
    /\ buffers w' = buffers w
    /\ tmp_names w' = tmp_names w.
Proof.
  intros Hdf. unfold save_df_as_csv. rewrite (df_with_rows_None df Hdf).
  eexists. split; [reflexivity|]. cbn. repeat split; reflexivity.
Qed.

(** A crash before the last event of a run whose other events leave [p]
    alone finds [p] as it was. *)
Lemma replay_take_untouched p pre ev f n :
  Forall (fun ev => touches p ev = false) pre ->
  n < length (pre ++ [ev]) ->
  replay (take n (pre ++ [ev])) f !! p = f !! p.
Proof.
  intros Hq Hn. rewrite length_app in Hn. cbn in Hn.
  rewrite take_app_le by lia. apply replay_untouched, Forall_take, Hq.
Qed.

(** The atomic branch: the temporary file, the header, the table, the
    rename.  Either all of it ran, and only the rename touched the
    destination, which now holds header and table; or an exception came
    first and nothing touched the destination. *)
Lemma atomic_branch_run (d : dataframe) path destination text kwargs w res w' :
  let pd := locate (cwd w) destination in
  Forall (fun n => locate (cwd w) (os_path_join (abspath_of (cwd w) path) ("tmp" ++ n))
                   <> pd) (tmp_names w) ->
  (let* tmp_path := tempfile_mkstemp path in
   let* _ := fd_write tmp_path text in
   let* _ := to_csv_append d tmp_path kwargs in
   os_rename tmp_path destination) w = (res, w') ->
  (res = Ok tt
   /\ exists pre pt body,
        evolves w w' (pre ++ [EvRename pt pd])
        /\ Forall (fun ev => touches pd ev = false) pre
        /\ to_csv d kwargs = Ok body
        /\ fs w' !! pd = Some (File (text ++ body)))
  \/ (exists e, res = Raise e /\ quiet_run pd w w').
Proof.
  intros pd Htmp. unfold bind at 1.
  destruct (tempfile_mkstemp path w) as [r1 w1] eqn:E1.
  apply tempfile_mkstemp_run in E1. cbv zeta in E1.
  destruct E1 as [(name & -> & Hin & _ & Hnone & Hev1)|(e & -> & Hev1)].
  2:{ intros [= <- <-]. right. exists e. split; [reflexivity|].
      exists []. split; [exact Hev1|constructor]. }
  set (tmp := os_path_join (abspath_of (cwd w) path) ("tmp" ++ name)) in *.
  set (pt := locate (cwd w) tmp) in *.
  assert (Hne : pt <> pd).
  { rewrite Forall_forall in Htmp. apply (Htmp name Hin). }
  apply node_at_None in Hnone as [Hpt Hnone].
  assert (Hq1 : quiet_run pd w w1).
  { exists [EvCreate pt]. split; [exact Hev1|]. repeat constructor.
    cbn. apply bool_decide_eq_false. congruence. }
  assert (Hc1 : cwd w1 = cwd w) by apply Hev1.
  assert (Hf1 : fs w1 !! pt = Some (File "")).
  { destruct Hev1 as (_ & _ & -> & _). cbn. apply lookup_insert_eq. }
  unfold bind at 1. destruct (fd_write tmp text w1) as [r2 w2] eqn:E2.
  apply fd_write_run in E2 as [(-> & _ & _ & ->)|(e & -> & ->)].
  2:{ intros [= <- <-]. right. exists e. split; [reflexivity|exact Hq1]. }
  rewrite Hc1. fold pt.
  set (w2 := snd (emit (EvAppend pt text) w1)).
  assert (Hq2 : quiet_run pd w w2).
  { eapply quiet_run_trans; [exact Hq1|]. apply quiet_run_emit.
    cbn. apply bool_decide_eq_false. congruence. }
  assert (Hc2 : cwd w2 = cwd w) by exact Hc1.
  assert (Hf2 : fs w2 !! pt = Some (File text)).
  { cbn. rewrite lookup_alter_eq, Hf1. reflexivity. }
  unfold bind at 1. unfold to_csv_append.
  destruct (kwargs !! "mode") as [m|].
  { intros [= <- <-]. right. exists TypeError. split; [reflexivity|exact Hq2]. }
  destruct (to_csv d kwargs) as [body|e] eqn:Ecsv.
  2:{ intros [= <- <-]. right. exists e. split; [reflexivity|exact Hq2]. }
  unfold bind at 1.
  destruct (open_for_write tmp false w2) as [r3 w3] eqn:E3.
  apply open_for_write_append_run in E3
    as [(-> & [(-> & _)|(_ & Hn)])|(e & -> & ->)].
  2:{ exfalso. rewrite Hc2 in Hn. fold pt in Hn.
      rewrite (node_at_ne _ pt Hpt), Hf2 in Hn. discriminate. }
  2:{ intros [= <- <-]. right. exists e. split; [reflexivity|exact Hq2]. }
  destruct (fd_write tmp body w2) as [r4 w4] eqn:E4.
  apply fd_write_run in E4 as [(-> & _ & _ & ->)|(e & -> & ->)].
  2:{ intros [= <- <-]. right. exists e. split; [reflexivity|exact Hq2]. }
  rewrite Hc2. fold pt.
  set (w3 := snd (emit (EvAppend pt body) w2)).
  assert (Hq3 : quiet_run pd w w3).
  { eapply quiet_run_trans; [exact Hq2|]. apply quiet_run_emit.
    cbn. apply bool_decide_eq_false. congruence. }
  assert (Hc3 : cwd w3 = cwd w) by exact Hc1.
  assert (Hf3 : fs w3 !! pt = Some (File (text ++ body))).
  { cbn. rewrite lookup_alter_eq. change (alter _ pt (fs w1)) with (fs w2).
    rewrite Hf2. reflexivity. }
  intros E5. apply os_rename_run in E5 as [(-> & _ & -> & _)|(e & -> & ->)].
  2:{ right. exists e. split; [reflexivity|exact Hq3]. }
  rewrite Hc3. fold pt pd. left. split; [reflexivity|].
  destruct Hq3 as (pre & Hev3 & Hpre).
  exists pre, pt, body. split; [|split; [exact Hpre|split; [reflexivity|]]].
  - eapply evolves_trans; [exact Hev3|]. apply emit_evolves.
  - cbn [emit snd fs set_fs_trace apply_event]. rewrite Hf3.
    apply lookup_insert_eq.
Qed.

(** C2 (as the code has it): a run of [save_df_as_csv] with [atomic] set,
    to a destination
    that is none of the places where [os.makedirs] may make a directory on
    the way to [path] and none of the names [mkstemp] may draw: stopped
    after any number of its events short of all of them (so also with the
    temporary file written and the rename not reached) the destination is
    as it was before the call, with its old content or absent; when the
    call returns the destination, it holds the whole text, header, comment
    and table; when it returns the empty string or raises, the destination
    is as it was. *)
Theorem save_df_as_csv_atomic_all_or_nothing df d path f comment prepend_info
    kwargs w res w' :
  let destination := os_path_join path f in
  let pd := locate (cwd w) destination in
  df_with_rows df = Some d ->
  Forall (fun h => locate (cwd w) h <> pd) (makedirs_chain path) ->
  Forall (fun n => locate (cwd w) (os_path_join (abspath_of (cwd w) path) ("tmp" ++ n))
                   <> pd) (tmp_names w) ->
  save_df_as_csv df path (FName f) comment prepend_info true kwargs w = (res, w') ->
  exists evs,
    trace w' = (trace w ++ evs)%list
    /\ fs w' = replay evs (fs w)
    /\ (forall n, n < length evs -> replay (take n evs) (fs w) !! pd = fs w !! pd)
    /\ match res with
       | Ok r =>
           (r = DPath "" /\ fs w' !! pd = fs w !! pd)
           \/ (r = DPath destination
               /\ exists now body,
                    to_csv d (default_na_rep kwargs) = Ok body
                    /\ dt_instant now = instant w
                    /\ fs w' !! pd =
                       Some (File (((if prepend_info then info_header now else "")
                                    ++ comment) ++ body)))
       | Raise _ => fs w' !! pd = fs w !! pd
       end.
Proof.
  intros destination pd Hdf Hpd Htmp.
  assert (Hquiet : forall w1, quiet_run pd w w1 ->
    exists evs, trace w1 = (trace w ++ evs)%list /\ fs w1 = replay evs (fs w)
      /\ (forall n, n < length evs -> replay (take n evs) (fs w) !! pd = fs w !! pd)
      /\ fs w1 !! pd = fs w !! pd).
  { intros w1 Hq. pose proof (quiet_run_lookup _ _ _ Hq) as Hl.
    destruct Hq as (evs & Hev & Hq). exists evs.
    split; [apply Hev|]. split; [apply Hev|]. split; [|exact Hl].
    intros n _. apply replay_untouched, Forall_take, Hq. }
  unfold save_df_as_csv. rewrite Hdf. cbn [negb].
  unfold bind at 1. unfold bind at 1.
  destruct (create_dir path w) as [r0 w0] eqn:E0.
  pose proof (create_dir_quiet pd path w r0 w0 Hpd E0) as Hq0.
  destruct r0 as [b|e].
  2:{ intros [= <- <-]. destruct (Hquiet w0 Hq0) as (evs & ? & ? & ? & ?).
      exists evs. auto. }
  destruct b; cbn [ret negb].
  2:{ intros [= <- <-]. destruct (Hquiet w0 Hq0) as (evs & ? & ? & ? & ?).
      exists evs. auto 6. }
  unfold bind at 1. unfold bind at 1.
  destruct (os_path_relpath (os_path_join path f) w0) as [r1 w1] eqn:E1.
  apply os_path_relpath_run in E1 as ->.
  destruct r1 as [rel|e].
  2:{ intros [= <- <-]. destruct (Hquiet w0 Hq0) as (evs & ? & ? & ? & ?).
      exists evs. auto. }
  unfold bind at 1. unfold logger_info at 1.
  set (w2 := snd (emit (EvLog INFO ("Saving " ++ rel)) w0)).
  change (emit (EvLog INFO ("Saving " ++ rel)) w0) with (Ok tt, w2).
  cbn [ret].
  assert (Hq2 : quiet_run pd w w2).
  { eapply quiet_run_trans; [exact Hq0|]. apply quiet_run_emit. reflexivity. }
  unfold bind at 1.
  assert (Hhdr : forall rh wh,
    (if prepend_info
     then (let* now := get_utc_now in ret (info_header now))
     else ret "") w2 = (rh, wh) ->
    quiet_run pd w wh
    /\ forall text, rh = Ok text ->
         exists now, dt_instant now = instant w
           /\ text = (if prepend_info then info_header now else "")).
  { intros rh wh. destruct prepend_info.
    - unfold bind. destruct (get_utc_now w2) as [rn wn] eqn:En.
      pose proof (get_utc_now_quiet pd _ _ _ En) as Hqn.
      assert (Hi : instant w2 = instant w).
      { destruct Hq2 as (? & Hev & _). apply Hev. }
      rewrite get_utc_now_eq in En.
      destruct rn as [now|e]; intros [= <- <-].
      + split; [eapply quiet_run_trans; eassumption|].
        intros text [= <-]. exists now. split; [|reflexivity].
        unfold now_UTC_outcome, utcnow_outcome in En.
        destruct (has_datetime_UTC w2); destruct (now_raises w2);
          destruct (utcnow_raises w2); cbn in En;
          repeat (match type of En with
                  | context [bool_decide ?P] => destruct (bool_decide P)
                  end);
          try discriminate; injection En as <- _; exact Hi.
      + split; [eapply quiet_run_trans; eassumption|]. discriminate.
    - intros [= <- <-]. split; [exact Hq2|].
      intros text [= <-]. exists {| dt_instant := instant w; dt_aware := true |}.
      split; reflexivity. }
  destruct ((if prepend_info
             then (let* now := get_utc_now in ret (info_header now))
             else ret "") w2) as [rh wh] eqn:Eh.
  destruct (Hhdr rh wh eq_refl) as [Hqh Htext].
  destruct rh as [text|e].
  2:{ intros [= <- <-]. destruct (Hquiet wh Hqh) as (evs & ? & ? & ? & ?).
      exists evs. auto. }
  destruct (Htext text eq_refl) as (now & Hnow & ->).
  unfold bind at 1.
  match goal with
  | |- context [bind (tempfile_mkstemp path) ?k wh] =>
      destruct (bind (tempfile_mkstemp path) k wh) as [r5 w5] eqn:E5
  end.
  assert (Hch : cwd wh = cwd w) by (eapply quiet_run_cwd; exact Hqh).
  apply atomic_branch_run in E5.
  2:{ rewrite Hch. eapply Forall_forall. intros n Hn. rewrite Forall_forall in Htmp.
      apply (Htmp n).
      destruct (quiet_run_tmp_names _ _ _ Hqh) as [k ->].
      apply elem_of_app. right. exact Hn. }
  rewrite Hch in E5. fold destination in E5. fold pd in E5.
  destruct E5 as [(-> & pre & pt & body & Hev5 & Hpre & Hbody & Hfinal)
                 |(e & -> & Hq5)].
  - cbn [ret]. intros [= <- <-].
    destruct Hqh as (evh & Hevh & Hqevh).
    pose proof (evolves_trans _ _ _ _ _ Hevh Hev5) as Hev.
    rewrite app_assoc in Hev.
    exists ((evh ++ pre) ++ [EvRename pt pd])%list.
    split; [apply Hev|]. split; [apply Hev|]. split.
    + intros n Hn. apply replay_take_untouched; [|exact Hn].
      apply Forall_app. split; assumption.
    + right. split; [reflexivity|]. exists now, body. repeat split; assumption.
  - intros [= <- <-].
    destruct (Hquiet w5 (quiet_run_trans _ _ _ _ Hqh Hq5)) as (evs & ? & ? & ? & ?).
    exists evs. auto.
Qed.

(** *** The way to the writing *)

Lemma replay_clock evs : forall f,
  Forall (fun ev => exists aware, ev = EvClock aware) evs -> replay evs f = f.
Proof.
  induction evs as [|ev evs IH]; intros f Hc; [reflexivity|].
  apply Forall_cons in Hc as [(b & ->) Hc]. cbn. apply IH, Hc.
Qed.

Lemma get_utc_now_clock w res w' :
  get_utc_now w = (res, w') ->
  exists evs, evolves w w' evs
    /\ Forall (fun ev => exists aware, ev = EvClock aware) evs
    /\ forall now, res = Ok now -> dt_instant now = instant w.
Proof.
  rewrite get_utc_now_eq.
  assert (H2 : evolves w (snd (emit (EvClock false) (snd (emit (EvClock true) w))))
                 [EvClock true; EvClock false]).
  { apply (evolves_trans w (snd (emit (EvClock true) w)) _ [EvClock true] [EvClock false]);
      apply emit_evolves. }
  unfold now_UTC_outcome, utcnow_outcome.
  destruct (has_datetime_UTC w).
  - destruct (now_raises w) as [e|].
    + destruct (bool_decide (e = AttributeError)).
      * intros [= <- <-]. exists [EvClock true; EvClock false]. split; [exact H2|].
        split; [repeat constructor; eauto|].
        intros now. destruct (utcnow_raises w); [discriminate|].
        intros [= <-]. reflexivity.
      * intros [= <- <-]. exists [EvClock true]. split; [apply emit_evolves|].
        split; [repeat constructor; eauto|]. discriminate.
    + intros [= <- <-]. exists [EvClock true]. split; [apply emit_evolves|].
      split; [repeat constructor; eauto|]. intros now [= <-]. reflexivity.
  - rewrite bool_decide_eq_true_2 by reflexivity.
    intros [= <- <-]. exists [EvClock true; EvClock false]. split; [exact H2|].
    split; [repeat constructor; eauto|].
    intros now. destruct (utcnow_raises w); [discriminate|].
    intros [= <-]. reflexivity.
Qed.

(** A call with a table and a file name gets to the writing, with the
    header composed, or ends before: with an exception, or with the empty
    string when [create_dir] has returned [False]. *)
Lemma save_df_as_csv_path_run df d path f comment prepend_info atomic kwargs w res w' :
  df_with_rows df = Some d ->
  save_df_as_csv df path (FName f) comment prepend_info atomic kwargs w = (res, w') ->
  exists wh evs,
    evolves w wh evs
    /\ Forall is_setup_event evs
    /\ ((exists e, res = Raise e /\ w' = wh)
        \/ (res = Ok (DPath "") /\ w' = wh)
        \/ exists now r5,
             dt_instant now = instant w
             /\ (if atomic
                 then write_atomic d path (os_path_join path f)
                        ((if prepend_info then info_header now else "") ++ comment)
                        (default_na_rep kwargs)
                 else write_in_place d (os_path_join path f)
                        ((if prepend_info then info_header now else "") ++ comment)
                        (default_na_rep kwargs)) wh = (r5, w')
             /\ res = match r5 with
                      | Ok _ => Ok (DPath (os_path_join path f))
                      | Raise e => Raise e
                      end).
Proof.
  intros Hdf. unfold save_df_as_csv. rewrite Hdf. cbn [negb].
  unfold bind at 1. unfold bind at 1.
  destruct (create_dir path w) as [r0 w0] eqn:E0.
  pose proof (create_dir_run _ _ _ _ E0) as [(e0 & Hev0 & Hm0 & _) _].
  assert (Hs0 : Forall is_setup_event e0).
  { eapply Forall_impl; [exact Hm0|]. intros ev (h & _ & ->). left. eauto. }
  destruct r0 as [b|e].
  2:{ intros [= <- <-]. exists w0, e0. split; [exact Hev0|]. split; [exact Hs0|].
      left. eauto. }
  destruct b; cbn [ret negb].
  2:{ intros [= <- <-]. exists w0, e0. split; [exact Hev0|]. split; [exact Hs0|].
      right. left. auto. }
  unfold bind at 1. unfold bind at 1.
  destruct (os_path_relpath (os_path_join path f) w0) as [r1 w1] eqn:E1.
  apply os_path_relpath_run in E1 as ->.
  destruct r1 as [rel|e].
  2:{ intros [= <- <-]. exists w0, e0. split; [exact Hev0|]. split; [exact Hs0|].
      left. eauto. }
  unfold bind at 1. unfold logger_info at 1.
  set (w2 := snd (emit (EvLog INFO ("Saving " ++ rel)) w0)).
  change (emit (EvLog INFO ("Saving " ++ rel)) w0) with (Ok tt, w2).
  cbn [ret].
  pose proof (evolves_trans _ _ _ _ _ Hev0 (emit_evolves (EvLog INFO ("Saving " ++ rel)) w0))
    as Hev2. fold w2 in Hev2.
  assert (Hs2 : Forall is_setup_event (e0 ++ [EvLog INFO ("Saving " ++ rel)])).
  { apply Forall_app. split; [exact Hs0|]. apply Forall_singleton. right. left. eauto. }
  unfold bind at 1.
  destruct ((if prepend_info
             then (let* now := get_utc_now in ret (info_header now))
             else ret "") w2) as [rh wh] eqn:Eh.
  assert (Hh : exists eh, evolves w2 wh eh
             /\ Forall (fun ev => exists aware, ev = EvClock aware) eh
             /\ forall text, rh = Ok text ->
                  exists now, dt_instant now = instant w
                    /\ text = (if prepend_info then info_header now else "")).
  { assert (Hi2 : instant w2 = instant w) by apply Hev2.
    destruct prepend_info.
    - unfold bind in Eh. destruct (get_utc_now w2) as [rn wn] eqn:En.
      pose proof (get_utc_now_clock _ _ _ En) as (eh & Hevh & Hch & Hi).
      destruct rn as [now|e]; injection Eh as <- <-.
      + exists eh. split; [exact Hevh|]. split; [exact Hch|].
        intros text [= <-]. exists now. split; [|reflexivity].
        rewrite (Hi now eq_refl). exact Hi2.
      + exists eh. split; [exact Hevh|]. split; [exact Hch|]. discriminate.
    - injection Eh as <- <-. exists []. split; [apply evolves_refl|].
      split; [constructor|].
      intros text [= <-]. exists {| dt_instant := instant w; dt_aware := true |}.
      split; reflexivity. }
  destruct Hh as (eh & Hevh & Hch & Htext).
  pose proof (evolves_trans _ _ _ _ _ Hev2 Hevh) as Hev3.
  assert (Hs3 : Forall is_setup_event ((e0 ++ [EvLog INFO ("Saving " ++ rel)]) ++ eh)).
  { apply Forall_app. split; [exact Hs2|]. eapply Forall_impl; [exact Hch|].
    intros ev Hev. right. right. exact Hev. }
  destruct rh as [text|e].
  2:{ intros [= <- <-]. exists wh, ((e0 ++ [EvLog INFO ("Saving " ++ rel)]) ++ eh)%list.
      split; [exact Hev3|]. split; [exact Hs3|]. left. eauto. }
  destruct (Htext text eq_refl) as (now & Hnow & ->).
  unfold bind at 1. intros E.
  exists wh, ((e0 ++ [EvLog INFO ("Saving " ++ rel)]) ++ eh)%list.
  split; [exact Hev3|]. split; [exact Hs3|]. right. right.
  destruct atomic.
  - fold (write_atomic d path (os_path_join path f)
            ((if prepend_info then info_header now else "") ++ comment)
            (default_na_rep kwargs)) in E.
    destruct (write_atomic _ _ _ _ _ wh) as [r5 w5] eqn:E5.
    exists now, r5. split; [exact Hnow|].
    destruct r5 as [[]|e]; cbn [ret] in E; injection E as <- <-;
      (split; [exact E5|reflexivity]).
  - fold (write_in_place d (os_path_join path f)
            ((if prepend_info then info_header now else "") ++ comment)
            (default_na_rep kwargs)) in E.
    destruct (write_in_place _ _ _ _ wh) as [r5 w5] eqn:E5.
    exists now, r5. split; [exact Hnow|].
    destruct r5 as [[]|e]; cbn [ret] in E; injection E as <- <-;
      (split; [exact E5|reflexivity]).
Qed.

(** *** Writing in place *)

Lemma write_in_place_run (d : dataframe) destination text kwargs w w' :
  write_in_place d destination text kwargs w = (Ok tt, w') ->
  exists body,
    to_csv d kwargs = Ok body
    /\ evolves w w'
         [EvCreate (locate (cwd w) destination);
          EvAppend (locate (cwd w) destination) text;
          EvAppend (locate (cwd w) destination) body]
    /\ fs w' !! locate (cwd w) destination = Some (File (text ++ body)).
Proof.
  unfold write_in_place. unfold bind at 1.
  destruct (open_for_write destination true w) as [[[]|e] w1] eqn:E1; [|discriminate].
  apply open_for_write_truncate_run in E1 as (Hne & Hpd & ->).
  set (pd := locate (cwd w) destination) in *.
  set (w1 := snd (emit (EvCreate pd) w)).
  assert (Hf1 : fs w1 !! pd = Some (File "")) by apply lookup_insert_eq.
  unfold bind at 1. destruct (fd_write destination text w1) as [r2 w2] eqn:E2.
  apply fd_write_run in E2 as [(-> & _ & _ & ->)|(e & -> & ->)]; [|discriminate].
  change (cwd w1) with (cwd w). fold pd.
  set (w2 := snd (emit (EvAppend pd text) w1)).
  assert (Hf2 : fs w2 !! pd = Some (File text)).
  { cbn. rewrite lookup_alter_eq. change (<[pd := File ""]> (fs w)) with (fs w1).
    rewrite Hf1. reflexivity. }
  unfold to_csv_append. destruct (kwargs !! "mode"); [discriminate|].
  destruct (to_csv d kwargs) as [body|e] eqn:Ecsv; [|discriminate].
  unfold bind at 1.
  destruct (open_for_write destination false w2) as [r3 w3] eqn:E3.
  apply open_for_write_append_run in E3
    as [(-> & [(-> & _)|(_ & Hn)])|(e & -> & ->)]; [| |discriminate].
  2:{ exfalso. change (cwd w2) with (cwd w) in Hn. fold pd in Hn.
      rewrite (node_at_ne _ pd Hpd), Hf2 in Hn. discriminate. }
  intros E4. apply fd_write_run in E4 as [(_ & _ & _ & ->)|(e & [=] & _)].
  change (cwd w2) with (cwd w). fold pd.
  exists body. split; [reflexivity|]. split.
  - apply (evolves_trans w w1 _ [EvCreate pd] [EvAppend pd text; EvAppend pd body]);
      [apply emit_evolves|].
    apply (evolves_trans w1 w2 _ [EvAppend pd text] [EvAppend pd body]);
      apply emit_evolves.
  - cbn [emit snd fs set_fs_trace apply_event]. rewrite lookup_alter_eq.
    change (alter (append_data text) pd (<[pd := File ""]> (fs w))) with (fs w2).
    rewrite Hf2. reflexivity.
Qed.

(** X11: without [atomic] the file is written in place: when the call
    returns its destination (not the empty string), the destination holds
    header, comment and table, and there is a point of the run, before its
    end, at which the destination holds the header and the comment only:
    a run stopped there leaves a file without the table. *)
Theorem save_df_as_csv_in_place_partial df d path f comment prepend_info kwargs
    w r w' :
  let pd := locate (cwd w) (os_path_join path f) in
  df_with_rows df = Some d ->
  save_df_as_csv df path (FName f) comment prepend_info false kwargs w = (Ok r, w') ->
  r <> DPath "" ->
  r = DPath (os_path_join path f)
  /\ exists now body evs n,
       to_csv d (default_na_rep kwargs) = Ok body
       /\ trace w' = (trace w ++ evs)%list
       /\ fs w' = replay evs (fs w)
       /\ fs w' !! pd
          = Some (File (((if prepend_info then info_header now else "") ++ comment)
                        ++ body))
       /\ n < length evs
       /\ replay (take n evs) (fs w) !! pd
          = Some (File ((if prepend_info then info_header now else "") ++ comment)).
Proof.
  intros pd Hdf E Hr.
  apply (save_df_as_csv_path_run _ _ _ _ _ _ _ _ _ _ _ Hdf) in E
    as (wh & e0 & Hev0 & _
        & [(e & [=] & _)|[([= ->] & _)|(now & r5 & _ & E5 & Hres)]]);
    [congruence|].
  destruct r5 as [[]|e]; [|discriminate]. injection Hres as ->.
  split; [reflexivity|].
  apply write_in_place_run in E5 as (body & Hb & Hev5 & Hf).
  assert (Hc : cwd wh = cwd w) by apply Hev0.
  rewrite Hc in Hev5, Hf. fold pd in Hev5, Hf.
  set (text := (if prepend_info then info_header now else "") ++ comment) in *.
  pose proof (evolves_trans _ _ _ _ _ Hev0 Hev5) as Hev.
  exists now, body, (e0 ++ [EvCreate pd; EvAppend pd text; EvAppend pd body])%list,
    (length e0 + 2).
  split; [exact Hb|]. split; [apply Hev|]. split; [apply Hev|].
  split; [exact Hf|]. split.
  - rewrite length_app. cbn. lia.
  - rewrite take_app_add'; [|reflexivity]. cbn [take]. rewrite replay_app. cbn.
    rewrite lookup_alter_eq, lookup_insert_eq. reflexivity.
Qed.

(** *** What a failed atomic write leaves behind *)

Lemma write_atomic_raise (d : dataframe) path destination text kwargs w e w' :
  write_atomic d path destination text kwargs w = (Raise e, w') ->
  exists evs, evolves w w' evs
    /\ forall pt, EvCreate pt ∈ evs -> exists data, fs w' !! pt = Some (File data).
Proof.
  unfold write_atomic. unfold bind at 1.
  destruct (tempfile_mkstemp path w) as [r1 w1] eqn:E1.
  apply tempfile_mkstemp_run in E1. cbv zeta in E1.
  destruct E1 as [(name & -> & Hin & _ & Hnone & Hev1)|(e1 & -> & Hev1)].
  2:{ intros [= <- <-]. exists []. split; [exact Hev1|]. intros pt Hpt. inversion Hpt. }
  set (tmp := os_path_join (abspath_of (cwd w) path) ("tmp" ++ name)) in *.
  set (pt := locate (cwd w) tmp) in *.
  apply node_at_None in Hnone as [Hpt Hnone].
  assert (Hc1 : cwd w1 = cwd w) by apply Hev1.
  assert (Hf1 : fs w1 !! pt = Some (File "")).
  { destruct Hev1 as (_ & _ & -> & _). cbn. apply lookup_insert_eq. }
  assert (Hone : forall q, EvCreate q ∈ [EvCreate pt] -> q = pt).
  { intros q Hq. apply list_elem_of_singleton in Hq. congruence. }
  unfold bind at 1. destruct (fd_write tmp text w1) as [r2 w2] eqn:E2.
  apply fd_write_run in E2 as [(-> & _ & _ & ->)|(e2 & -> & ->)].
  2:{ intros [= <- <-]. exists [EvCreate pt]. split; [exact Hev1|].
      intros q Hq. rewrite (Hone q Hq). eauto. }
  rewrite Hc1. fold pt.
  set (w2 := snd (emit (EvAppend pt text) w1)).
  assert (Hev2 : evolves w w2 [EvCreate pt; EvAppend pt text]).
  { apply (evolves_trans w w1 _ [EvCreate pt] [EvAppend pt text] Hev1), emit_evolves. }
  assert (Hf2 : fs w2 !! pt = Some (File text)).
  { cbn. rewrite lookup_alter_eq, Hf1. reflexivity. }
  assert (Htwo : forall q, EvCreate q ∈ [EvCreate pt; EvAppend pt text] -> q = pt).
  { intros q Hq. apply elem_of_cons in Hq as [Hq|Hq]; [congruence|].
    apply list_elem_of_singleton in Hq. discriminate. }
  unfold bind at 1. unfold to_csv_append.
  destruct (kwargs !! "mode") as [m|].
  { intros [= <- <-]. exists [EvCreate pt; EvAppend pt text]. split; [exact Hev2|].
    intros q Hq. rewrite (Htwo q Hq). eauto. }
  destruct (to_csv d kwargs) as [body|e3] eqn:Ecsv.
  2:{ intros [= <- <-]. exists [EvCreate pt; EvAppend pt text]. split; [exact Hev2|].
      intros q Hq. rewrite (Htwo q Hq). eauto. }
  unfold bind at 1.
  destruct (open_for_write tmp false w2) as [r3 w3] eqn:E3.
  apply open_for_write_append_run in E3
    as [(-> & [(-> & _)|(_ & Hn)])|(e3 & -> & ->)].
  2:{ exfalso. change (cwd w2) with (cwd w1) in Hn. rewrite Hc1 in Hn. fold pt in Hn.
      rewrite (node_at_ne _ pt Hpt), Hf2 in Hn. discriminate. }
  2:{ intros [= <- <-]. exists [EvCreate pt; EvAppend pt text]. split; [exact Hev2|].
      intros q Hq. rewrite (Htwo q Hq). eauto. }
  destruct (fd_write tmp body w2) as [r4 w4] eqn:E4.
  apply fd_write_run in E4 as [(-> & _ & _ & ->)|(e4 & -> & ->)].
  2:{ intros [= <- <-]. exists [EvCreate pt; EvAppend pt text]. split; [exact Hev2|].
      intros q Hq. rewrite (Htwo q Hq). eauto. }
  change (cwd w2) with (cwd w1). rewrite Hc1. fold pt.
  set (w3 := snd (emit (EvAppend pt body) w2)).
  assert (Hf3 : fs w3 !! pt = Some (File (text ++ body))).
  { cbn. rewrite lookup_alter_eq. change (alter _ pt (fs w1)) with (fs w2).
    rewrite Hf2. reflexivity. }
  intros E5. apply os_rename_run in E5 as [([=] & _)|(e5 & _ & ->)].
  exists ([EvCreate pt; EvAppend pt text] ++ [EvAppend pt body])%list. split.
  - apply (evolves_trans w w2 _ _ _ Hev2), emit_evolves.
  - intros q Hq. apply elem_of_app in Hq as [Hq|Hq].
    + rewrite (Htwo q Hq). eauto.
    + apply list_elem_of_singleton in Hq. discriminate.
Qed.

(** X12: the atomic branch does not clean up: when the call raises after
    [mkstemp] has made the temporary file (the header could not be written,
    [to_csv] raised, the rename failed), the temporary file is still there
    afterwards. *)
Theorem save_df_as_csv_atomic_leaves_tmp df d path f comment prepend_info kwargs
    w e w' :
  df_with_rows df = Some d ->
  save_df_as_csv df path (FName f) comment prepend_info true kwargs w = (Raise e, w') ->
  exists evs,
    trace w' = (trace w ++ evs)%list
    /\ forall pt, EvCreate pt ∈ evs -> exists data, fs w' !! pt = Some (File data).
Proof.
  intros Hdf E.
  apply (save_df_as_csv_path_run _ _ _ _ _ _ _ _ _ _ _ Hdf) in E
    as (wh & e0 & Hev0 & Hs0 & Hcase).
  assert (Hno : forall pt, ~ EvCreate pt ∈ e0).
  { intros pt Hpt. rewrite Forall_forall in Hs0.
    destruct (Hs0 _ Hpt) as [(q & [=])|[(l & m & [=])|(b & [=])]]. }
  destruct Hcase as [(e1 & _ & ->)|[([=] & _)|(now & r5 & _ & E5 & Hres)]].
  - exists e0. split; [apply Hev0|]. intros pt Hpt. destruct (Hno pt Hpt).
  - destruct r5 as [[]|e5]; [discriminate|].
    apply write_atomic_raise in E5 as (e5' & Hev5 & Hkeep).
    exists (e0 ++ e5')%list. split; [apply (evolves_trans _ _ _ _ _ Hev0 Hev5)|].
    intros pt Hpt. apply elem_of_app in Hpt as [Hpt|Hpt]; [destruct (Hno pt Hpt)|].
    apply Hkeep, Hpt.
Qed.

(** *** Writing to a stream *)

Lemma substring_prefix (s t : string) :
  String.substring 0 (String.length s) (s ++ t) = s.
Proof.
  induction s as [|c s IH]; [destruct t; reflexivity|].
  change (String c s ++ t) with (String c (s ++ t)). cbn [String.length String.substring].
  rewrite IH. reflexivity.
Qed.

Lemma substring_beyond (s : string) : forall n m,
  String.length s <= n -> String.substring n m s = "".
Proof.
  induction s as [|c s IH]; intros n m Hn.
  - destruct n, m; reflexivity.
  - destruct n as [|n]; [cbn in Hn; lia|]. cbn. apply IH. cbn in Hn. lia.
Qed.

(** Writing at the end of a stream appends. *)
Lemma buffer_write_at_end data b :
  b_pos b = String.length (b_data b) ->
  buffer_write data b
  = {| b_text := b_text b;
       b_data := b_data b ++ data;
       b_pos := String.length (b_data b ++ data) |}.
Proof.
  intros Hp. unfold buffer_write, str_take, str_drop. rewrite Hp, Nat.sub_diag.
  cbn [replicate string_of_list_ascii].
  rewrite substring_prefix, substring_beyond by lia.
  rewrite string_app_nil_r, string_length_app. reflexivity.
Qed.

Lemma get_utc_now_buffers w res w' :
  get_utc_now w = (res, w') -> buffers w' = buffers w.
Proof.
  rewrite get_utc_now_eq. destruct (now_UTC_outcome w) as [t|e].
  - intros [= <- <-]. reflexivity.
  - destruct (bool_decide _); intros [= <- <-]; reflexivity.
Qed.

(** X13: with an open stream as destination nothing is done to the file
    system, whatever [path] and [atomic] are: no directory is made and no
    system call is issued; header, comment and table are written to the
    stream (here one positioned at its end), the stream is rewound to its
    start, stays open, and is what the call returns. *)
Theorem save_df_as_csv_stream df d path id comment prepend_info atomic kwargs
    w b r w' :
  df_with_rows df = Some d ->
  buffers w !! id = Some b ->
  b_pos b = String.length (b_data b) ->
  save_df_as_csv df path (FStream id) comment prepend_info atomic kwargs w = (Ok r, w') ->
  r = DStream id
  /\ fs w' = fs w
  /\ (exists evs, trace w' = (trace w ++ evs)%list
        /\ Forall (fun ev => exists aware, ev = EvClock aware) evs)
  /\ exists now body,
       to_csv d (default_na_rep kwargs) = Ok body
       /\ buffers w' !! id
          = Some {| b_text := b_text b;
                    b_data := (b_data b
                               ++ ((if prepend_info then info_header now else "")
                                   ++ comment)) ++ body;
                    b_pos := 0 |}.
Proof.
  intros Hdf Hb Hpos. unfold save_df_as_csv. rewrite Hdf. cbn [negb].
  unfold bind at 1. cbn [ret]. unfold bind at 1. cbn [ret]. unfold bind at 1.
  destruct ((if prepend_info
             then (let* now := get_utc_now in ret (info_header now))
             else ret "") w) as [rh wh] eqn:Eh.
  assert (Hh : exists eh, evolves w wh eh
             /\ Forall (fun ev => exists aware, ev = EvClock aware) eh
             /\ buffers wh = buffers w
             /\ forall text, rh = Ok text ->
                  exists now, text = (if prepend_info then info_header now else "")).
  { destruct prepend_info.
    - unfold bind in Eh. destruct (get_utc_now w) as [rn wn] eqn:En.
      pose proof (get_utc_now_clock _ _ _ En) as (eh & Hevh & Hch & _).
      pose proof (get_utc_now_buffers _ _ _ En) as Hbuf.
      destruct rn as [now|e]; injection Eh as <- <-;
        exists eh; (split; [exact Hevh|]); (split; [exact Hch|]);
        (split; [exact Hbuf|]).
      + intros text [= <-]. eauto.
      + discriminate.
    - injection Eh as <- <-. exists []. split; [apply evolves_refl|].
      split; [constructor|]. split; [reflexivity|].
      intros text [= <-]. exists {| dt_instant := 0; dt_aware := true |}. reflexivity. }
  destruct Hh as (eh & Hevh & Hch & Hbuf & Htext).
  destruct rh as [text|e]; [|discriminate].
  destruct (Htext text eq_refl) as (now & ->).
  set (text := (if prepend_info then info_header now else "") ++ comment).
  unfold bind at 1. unfold bind at 1.
  unfold stream_get at 1. rewrite Hbuf, Hb. cbn [ret].
  replace (if negb (b_text b) then str_encode text else text) with text
    by (destruct (b_text b); reflexivity).
  unfold bind at 1. unfold stream_write at 1. unfold bind at 1.
  unfold stream_get at 1. rewrite Hbuf, Hb. cbn [ret].
  rewrite (buffer_write_at_end text b Hpos).
  set (b1 := {| b_text := b_text b; b_data := b_data b ++ text;
                b_pos := String.length (b_data b ++ text) |}).
  set (w1 := set_buffers (<[id := b1]> (buffers wh)) wh).
  unfold bind at 1. unfold to_csv_stream.
  destruct (to_csv d (default_na_rep kwargs)) as [body|e] eqn:Ecsv; [|discriminate].
  unfold stream_write at 1. unfold bind at 1. unfold stream_get at 1.
  assert (Hb1 : buffers w1 !! id = Some b1) by apply lookup_insert_eq.
  rewrite Hb1. cbn [ret].
  rewrite (buffer_write_at_end body b1 eq_refl).
  set (b2 := {| b_text := b_text b1; b_data := b_data b1 ++ body;
                b_pos := String.length (b_data b1 ++ body) |}).
  set (w2 := set_buffers (<[id := b2]> (buffers w1)) w1).
  unfold stream_seek. unfold bind at 1. unfold stream_get at 1.
  assert (Hb2 : buffers w2 !! id = Some b2) by apply lookup_insert_eq.
  rewrite Hb2. cbn [ret].
  intros [= <- <-]. split; [reflexivity|]. split.
  { cbn. destruct Hevh as (_ & _ & -> & _). apply replay_clock, Hch. }
  split.
  { exists eh. split; [apply Hevh|exact Hch]. }
  exists now, body. split; [reflexivity|]. cbn. apply lookup_insert_eq.
Qed.

End SaveDf.

(** ** [zip_file] and [gzip_file] *)

Lemma rollback_raises {A} f e w (res : result A) w' :
  (let* _ := try_except (os_unlink f) (fun _ => ret tt) in raise e) w = (res, w') ->
  res = Raise e.
Proof.
  unfold bind, try_except. destruct (os_unlink f w) as [[[]|e'] w1]; cbn;
    intros [= <- <-]; reflexivity.
Qed.

(** [atomic_write] returns only when it has drawn a fresh temporary name
    beside [dest], the body has returned, and the rename has been done. *)
Lemma atomic_write_ok {A} dest (body : string -> M A) w a w' :
  atomic_write dest body w = (Ok a, w') ->
  exists name w1 w2,
    name ∈ tmp_names w
    /\ node_at (fs w) (locate (cwd w) (atomic_tmp (cwd w) dest name)) = None
    /\ evolves w w1 [EvCreate (locate (cwd w) (atomic_tmp (cwd w) dest name))]
    /\ body (atomic_tmp (cwd w) dest name) w1 = (Ok a, w2)
    /\ os_rename (atomic_tmp (cwd w) dest name) dest w2 = (Ok tt, w').
Proof.
  unfold atomic_write. unfold bind at 1.
  destruct (tempfile_mkstemp _ w) as [r1 w1] eqn:E1.
  apply tempfile_mkstemp_run in E1. cbv zeta in E1.
  destruct E1 as [(name & -> & Hin & _ & Hnone & Hev1)|(e & -> & Hev1)]; [|discriminate].
  fold (atomic_tmp (cwd w) dest name) in *.
  unfold try_except, bind at 1.
  destruct (body _ w1) as [[a'|e] w2] eqn:E2.
  - unfold bind at 1.
    destruct (os_rename _ dest w2) as [[[]|e] w3] eqn:E3.
    + cbn. intros [= <- <-]. exists name, w1, w2.
      split; [exact Hin|]. split; [exact Hnone|]. split; [exact Hev1|].
      split; [exact E2|exact E3].
    + intros E. apply rollback_raises in E. discriminate.
  - intros E. apply rollback_raises in E. discriminate.
Qed.

(** The temporary file takes the bytes [z] and is renamed onto [dest]:
    [dest] then holds [z], and these three events are all that happened. *)
Lemma tmp_write_rename tmp dest z w w1 w' :
  node_at (fs w) (locate (cwd w) tmp) = None ->
  evolves w w1 [EvCreate (locate (cwd w) tmp)] ->
  os_rename tmp dest (snd (emit (EvAppend (locate (cwd w) tmp) z) w1)) = (Ok tt, w') ->
  node_at (fs w') (locate (cwd w) dest) = Some (File z)
  /\ evolves w w'
       [EvCreate (locate (cwd w) tmp); EvAppend (locate (cwd w) tmp) z;
        EvRename (locate (cwd w) tmp) (locate (cwd w) dest)].
Proof.
  intros Hnone Hev1 E.
  set (pt := locate (cwd w) tmp) in *.
  apply node_at_None in Hnone as [Hpt Hnone].
  assert (Hc1 : cwd w1 = cwd w) by apply Hev1.
  assert (Hf1 : fs w1 !! pt = Some (File "")).
  { destruct Hev1 as (_ & _ & -> & _). cbn. apply lookup_insert_eq. }
  set (w2 := snd (emit (EvAppend pt z) w1)) in *.
  assert (Hf2 : fs w2 !! pt = Some (File z)).
  { cbn. rewrite lookup_alter_eq, Hf1. reflexivity. }
  apply os_rename_run in E as [(_ & _ & -> & Hd)|(e & [=] & _)].
  change (cwd w2) with (cwd w1) in *. rewrite Hc1 in *. fold pt in Hd |- *.
  set (pd := locate (cwd w) dest) in *.
  assert (Hpd : pd <> []) by (intros Epd; apply Hd; rewrite Epd; reflexivity).
  split.
  - rewrite (node_at_ne _ pd Hpd). cbn [emit snd fs set_fs_trace apply_event].
    rewrite Hf2. apply lookup_insert_eq.
  - apply (evolves_trans w w1 _ [EvCreate pt] [EvAppend pt z; EvRename pt pd] Hev1).
    apply (evolves_trans w1 w2 _ [EvAppend pt z] [EvRename pt pd]); apply emit_evolves.
Qed.

Lemma node_at_after_create f (pt ps : path) n :
  node_at f pt = None -> node_at f ps = Some n ->
  node_at (apply_event (EvCreate pt) f) ps = Some n.
Proof.
  intros Hpt Hps. destruct ps as [|c ps]; [exact Hps|]. cbn in *.
  rewrite lookup_insert_ne; [exact Hps|]. intros ->.
  apply node_at_None in Hpt as [_ Hpt]. congruence.
Qed.

(** A plain name comes through [ZipInfo] unchanged. *)
Lemma until_nul_no_nul (name : string) :
  forallb (fun c => negb (Ascii.eqb c Ascii.zero)) (list_ascii_of_string name) = true ->
  until_nul name = name.
Proof.
  induction name as [|c name IH]; [reflexivity|].
  cbn [list_ascii_of_string forallb until_nul]. intros Hc.
  apply andb_true_iff in Hc as [Hc Hr]. apply negb_true_iff in Hc.
  rewrite Hc, (IH Hr). reflexivity.
Qed.

Lemma forallb_and {A} (f g : A -> bool) (l : list A) :
  forallb (fun x => f x && g x) l = forallb f l && forallb g l.
Proof.
  induction l as [|x l IH]; [reflexivity|]. cbn. rewrite IH.
  destruct (f x), (g x), (forallb f l); reflexivity.
Qed.

Lemma lstrip_slash_no_slash (name : string) :
  forallb (fun c => negb (is_slash c)) (list_ascii_of_string name) = true ->
  lstrip_slash name = name.
Proof.
  destruct name as [|c name]; [reflexivity|].
  cbn [list_ascii_of_string forallb lstrip_slash]. intros Hc.
  apply andb_true_iff in Hc as [Hc _]. apply negb_true_iff in Hc.
  rewrite Hc. reflexivity.
Qed.

Lemma os_path_normpath_plain (name : string) :
  is_plain_name name = true -> os_path_normpath name = name.
Proof.
  unfold is_plain_name. rewrite forallb_and. intros Hp.
  apply andb_true_iff in Hp as [Hp Hc]. apply andb_true_iff in Hc as [Hs _].
  apply andb_true_iff in Hp as [Hp H2]. apply andb_true_iff in Hp as [H0 H1].
  apply negb_true_iff in H0, H1, H2.
  unfold os_path_normpath. rewrite H0, (prefix_slash_false name Hs).
  rewrite (split_on_no_sep slash name Hs). cbn [fold_left].
  unfold normpath_step. rewrite H0, H1, H2. cbn.
  change (String.append "" name) with name. rewrite H0. reflexivity.
Qed.

Lemma ZipInfo_filename_plain (name : string) :
  is_plain_name name = true -> ZipInfo_filename name false = Ok name.
Proof.
  intros Hp. unfold ZipInfo_filename. rewrite (os_path_normpath_plain name Hp).
  unfold is_plain_name in Hp. rewrite forallb_and in Hp.
  apply andb_true_iff in Hp as [Hp Hc]. apply andb_true_iff in Hc as [Hs Hn].
  apply andb_true_iff in Hp as [Hp _]. apply andb_true_iff in Hp as [H0 _].
  apply negb_true_iff in H0.
  rewrite (lstrip_slash_no_slash name Hs), H0, (until_nul_no_nul name Hn).
  reflexivity.
Qed.

Lemma alter_append_empty (f : gmap path node) (p : path) :
  alter (append_data "") p f = f.
Proof.
  apply map_eq. intros q. destruct (decide (p = q)) as [<-|Hne].
  - rewrite lookup_alter_eq. destruct (f !! p) as [[|d]|]; cbn; try reflexivity.
    rewrite string_app_nil_r. reflexivity.
  - apply lookup_alter_ne, Hne.
Qed.

(** When the body only appends to the temporary file, a failed
    [atomic_write] leaves the file system as it was: the temporary file
    is removed again. *)
Lemma atomic_write_raise {A} dest (body : string -> M A) w e w' :
  (forall f w1 r w2, body f w1 = (r, w2) ->
     cwd w2 = cwd w1
     /\ exists z, fs w2 = alter (append_data z) (locate (cwd w1) f) (fs w1)) ->
  atomic_write dest body w = (Raise e, w') ->
  fs w' = fs w.
Proof.
  intros Hbody. unfold atomic_write. unfold bind at 1.
  destruct (tempfile_mkstemp _ w) as [r1 w1] eqn:E1.
  apply tempfile_mkstemp_run in E1. cbv zeta in E1.
  destruct E1 as [(name & -> & Hin & El & Hnone & Hev1)|(e1 & -> & Hev1)].
  2:{ intros [= <- <-]. destruct Hev1 as (_ & _ & -> & _). reflexivity. }
  fold (atomic_tmp (cwd w) dest name) in *.
  set (tmp := atomic_tmp (cwd w) dest name) in *.
  set (pt := locate (cwd w) tmp) in *.
  pose proof (dirs_kept_create _ _ Hnone) as Hk1.
  apply node_at_None in Hnone as [Hpt Hnone].
  assert (Hc1 : cwd w1 = cwd w) by apply Hev1.
  assert (Hf1 : fs w1 = <[pt := File ""]> (fs w)).
  { destruct Hev1 as (_ & _ & -> & _). reflexivity. }
  assert (Hroll : forall w2 z e2 (res : result A) w3,
             cwd w2 = cwd w ->
             fs w2 = alter (append_data z) pt (fs w1) ->
             (let* _ := try_except (os_unlink tmp) (fun _ => ret tt) in raise e2) w2
               = (res, w3) ->
             fs w3 = fs w).
  { intros w2 z e2 res w3 Hc2 Hf2. unfold bind, try_except.
    assert (El2 : name_lookup w2 tmp = Ok (pt, Plain)).
    { apply (name_lookup_mono w); [exact Hc2| |exact El].
      rewrite Hf2, Hf1. eapply dirs_kept_trans; [exact Hk1|apply dirs_kept_alter]. }
    assert (Hn2 : node_at (fs w2) pt = Some (File ("" ++ z))).
    { rewrite (node_at_ne _ pt Hpt), Hf2, Hf1, lookup_alter_eq, lookup_insert_eq.
      reflexivity. }
    rewrite (os_unlink_Ok _ _ _ _ El2 Hn2). cbn.
    intros [= <- <-]. cbn. rewrite Hf2, Hf1.
    rewrite delete_alter_eq, delete_insert_id by exact Hnone. reflexivity. }
  unfold try_except, bind at 1.
  destruct (body tmp w1) as [[a|e2] w2] eqn:E2;
    apply Hbody in E2 as (Hc2 & z & Hf2); rewrite Hc1 in Hc2, Hf2; fold pt in Hf2.
  - unfold bind at 1. destruct (os_rename tmp dest w2) as [[[]|e3] w3] eqn:E3.
    + discriminate.
    + apply os_rename_run in E3 as [([=] & _)|(e4 & _ & ->)].
      intros E. eapply Hroll; eassumption.
  - intros E. eapply Hroll; eassumption.
Qed.

Lemma fd_write_appends name data w res w' :
  fd_write name data w = (res, w') ->
  cwd w' = cwd w
  /\ exists z, fs w' = alter (append_data z) (locate (cwd w) name) (fs w).
Proof.
  intros E. apply fd_write_run in E as [(_ & _ & _ & ->)|(e & _ & ->)].
  - split; [reflexivity|]. exists data. reflexivity.
  - split; [reflexivity|]. exists "". symmetry. apply alter_append_empty.
Qed.

(** A name without a slash does not end with one. *)
Lemma endswith_slash_no_slash (name : string) :
  forallb (fun c => negb (is_slash c)) (list_ascii_of_string name) = true ->
  endswith_slash name = false.
Proof.
  intros Hs. unfold endswith_slash.
  destruct (rev (list_ascii_of_string name)) as [|c l] eqn:Er; [reflexivity|].
  rewrite forallb_forall in Hs. apply negb_true_iff, Hs.
  apply in_rev. rewrite Er. left. reflexivity.
Qed.

(** [ZipFile.write] changes nothing; for a regular file the entry it
    gives has the name [ZipInfo] makes of [arcname], which is not empty,
    and the bytes of the file, or no bytes when the name ends with a
    slash. *)
Lemma ZipFile_write_run src arcname w res w' :
  ZipFile_write src arcname w = (res, w') ->
  w' = w
  /\ forall entry data, res = Ok entry ->
       node_at (fs w) (locate (cwd w) src) = Some (File data) ->
       exists name,
         ZipInfo_filename arcname false = Ok name
         /\ name <> ""
         /\ entry = (name, if endswith_slash name then "" else data).
Proof.
  unfold ZipFile_write. unfold bind at 1.
  destruct (os_stat src w) as [r1 w1] eqn:E1.
  apply os_stat_run in E1 as [-> Hst].
  destruct r1 as [st|e]; cbn [ret raise];
    [|intros [= <- <-]; split; [reflexivity|discriminate]].
  destruct Hst as (last & _ & Hn & _).
  destruct (ZipInfo_filename arcname (bool_decide (st = Dir))) as [name|e] eqn:En;
    [|intros [= <- <-]; split; [reflexivity|discriminate]].
  unfold ZipInfo_is_dir. destruct (name =? "")%string eqn:E0;
    [intros [= <- <-]; split; [reflexivity|discriminate]|].
  apply String.eqb_neq in E0.
  destruct (endswith_slash name) eqn:Es.
  - intros [= <- <-]. split; [reflexivity|].
    intros entry data [= <-] Hd. rewrite Hn in Hd. injection Hd as ->.
    rewrite bool_decide_eq_false_2 in En by discriminate.
    exists name. rewrite Es. auto.
  - unfold bind. destruct (read_file src w) as [r2 w2] eqn:E2.
    apply read_file_run in E2 as [-> Hr].
    destruct r2 as [d'|e]; intros [= <- <-]; (split; [reflexivity|]); [|discriminate].
    intros entry data [= <-] Hd. rewrite (Hr d' eq_refl) in Hd. injection Hd as <-.
    rewrite Hn in Hr. specialize (Hr d' eq_refl). injection Hr as ->.
    rewrite bool_decide_eq_false_2 in En by discriminate.
    exists name. rewrite Es. auto.
Qed.

Lemma node_at_insert_ne (f : gmap path node) (p q : path) n :
  p <> q -> node_at (<[p := n]> f) q = node_at f q.
Proof. intros Hne. destruct q; [reflexivity|]. cbn. apply lookup_insert_ne, Hne. Qed.

Lemma node_at_alter_ne (f : gmap path node) (p q : path) g :
  p <> q -> node_at (alter g p f) q = node_at f q.
Proof. intros Hne. destruct q; [reflexivity|]. cbn. apply lookup_alter_ne, Hne. Qed.

(** [atomic_write] returns when the first temporary name leads to a free
    place, the body writes its bytes to the temporary file, and the
    destination can be renamed onto: its name leads to a place that is no
    directory. *)
Lemma atomic_write_returns {A} dest (body : string -> M A) a z name rest w pt pd :
  let tmp := atomic_tmp (cwd w) dest name in
  let w1 := snd (emit (EvCreate pt) (set_tmp_names rest w)) in
  tmp_names w = name :: rest ->
  name_lookup w tmp = Ok (pt, Plain) ->
  node_at (fs w) pt = None ->
  name_lookup w dest = Ok (pd, Plain) ->
  node_at (fs w) pd <> Some Dir ->
  body tmp w1 = (Ok a, snd (emit (EvAppend pt z) w1)) ->
  exists w', atomic_write dest body w = (Ok a, w').
Proof.
  intros tmp w1 Hnames Elt Hnone Eld Hnd Hbody.
  unfold atomic_write. unfold bind at 1. unfold tempfile_mkstemp. rewrite Hnames.
  cbn [mkstemp_inner]. fold (atomic_tmp (cwd w) dest name). fold tmp.
  unfold os_open_excl, with_name.
  change (name_lookup (set_tmp_names rest w) tmp) with (name_lookup w tmp). rewrite Elt.
  rewrite bool_decide_eq_false_2 by discriminate.
  cbn [fs set_tmp_names]. rewrite Hnone.
  change (emit (EvCreate pt) (set_tmp_names rest w)) with (Ok tt, w1).
  unfold try_except, bind at 1. rewrite Hbody.
  set (w2 := snd (emit (EvAppend pt z) w1)).
  pose proof (dirs_kept_create _ _ Hnone) as Hk1.
  pose proof (node_at_None _ _ Hnone) as [Hpt Hfresh].
  assert (Hk2 : dirs_kept (fs w) (fs w2)).
  { eapply dirs_kept_trans; [exact Hk1|apply dirs_kept_alter]. }
  assert (Hf2 : fs w2 !! pt = Some (File z)).
  { cbn. rewrite lookup_alter_eq, lookup_insert_eq. reflexivity. }
  unfold bind at 1. unfold os_rename, with_name.
  rewrite (name_lookup_mono w w2 tmp _ eq_refl Hk2 Elt).
  rewrite (name_lookup_mono w w2 dest _ eq_refl Hk2 Eld).
  rewrite !bool_decide_eq_false_2 by discriminate. cbn [orb].
  rewrite (node_at_ne _ pt Hpt), Hf2.
  assert (Hnd2 : node_at (fs w2) pd <> Some Dir).
  { destruct (decide (pt = pd)) as [<-|Hne].
    - rewrite (node_at_ne _ pt Hpt), Hf2. discriminate.
    - cbn. rewrite node_at_alter_ne, node_at_insert_ne by assumption. exact Hnd. }
  destruct (node_at (fs w2) pd) as [[|d]|]; [congruence| |];
    cbn; eexists; reflexivity.
Qed.

Section Archivers.
Context `{External}.
Variable gzip_decompress : string -> option string.
Variable zip_decode : string -> option (list (string * string)).
(** What the libraries promise: a gzip container gives its data back, and
    so does a zip archive of one entry, with the entry's name. *)
Hypothesis gzip_roundtrip : forall data, gzip_decompress (gzip_compress data) = Some data.
Hypothesis zip_roundtrip : forall name data,
  zip_decode (zip_encode [(name, data)]) = Some [(name, data)].

(** When [zip_file] returns, the destination is an archive of one entry
    under the name [zipfile] makes of [arcname], with the bytes of the
    source, or with none when that name ends with a slash; three events
    happened, the last of them the rename. *)
Lemma zip_file_run src dest arcname data w r w' :
  node_at (fs w) (locate (cwd w) src) = Some (File data) ->
  zip_file src dest arcname w = (Ok r, w') ->
  r = dest
  /\ exists name pt,
       let entry := (name, if endswith_slash name then "" else data) in
       ZipInfo_filename arcname false = Ok name
       /\ name <> ""
       /\ node_at (fs w') (locate (cwd w) dest) = Some (File (zip_encode [entry]))
       /\ evolves w w'
            [EvCreate pt; EvAppend pt (zip_encode [entry]);
             EvRename pt (locate (cwd w) dest)]
       /\ fs w !! pt = None.
Proof.
  intros Hsrc. unfold zip_file. unfold bind at 1.
  destruct (atomic_write dest _ w) as [[u|e] w3] eqn:Ea; [|discriminate].
  intros [= <- <-]. split; [reflexivity|].
  apply atomic_write_ok in Ea as (tn & w1 & w2 & Hin & Hnone & Hev1 & Hbody & Hren).
  set (tmp := atomic_tmp (cwd w) dest tn) in *.
  assert (Hc1 : cwd w1 = cwd w) by apply Hev1.
  assert (Hs1 : node_at (fs w1) (locate (cwd w) src) = Some (File data)).
  { destruct Hev1 as (_ & _ & -> & _). apply node_at_after_create; assumption. }
  unfold with_ZipFile in Hbody. unfold bind at 1 in Hbody.
  destruct (ZipFile_write src arcname w1) as [rz wz] eqn:Ez.
  apply ZipFile_write_run in Ez as [-> Hentry]. rewrite Hc1 in Hentry.
  destruct rz as [entry|e]; cbn [ret] in Hbody.
  2:{ exfalso. unfold bind in Hbody.
      destruct (fd_write tmp (zip_encode []) w1) as [[[]|?] ?]; discriminate. }
  destruct (Hentry entry data eq_refl Hs1) as (name & Hname & Hne & ->).
  apply fd_write_run in Hbody as [(_ & _ & _ & ->)|(e & [=] & _)].
  rewrite Hc1 in Hren.
  destruct (tmp_write_rename tmp dest _ w w1 w3 Hnone Hev1 Hren) as [Hfin Hev].
  exists name, (locate (cwd w) tmp). cbv zeta.
  split; [exact Hname|]. split; [exact Hne|]. split; [exact Hfin|].
  split; [exact Hev|].
  apply node_at_None in Hnone. apply Hnone.
Qed.

(** When [gzip_file] returns, the destination is the gzip container of
    the bytes of the source. *)
Lemma gzip_file_run src dest data w r w' :
  node_at (fs w) (locate (cwd w) src) = Some (File data) ->
  gzip_file src dest w = (Ok r, w') ->
  r = dest
  /\ exists pt,
       node_at (fs w') (locate (cwd w) dest) = Some (File (gzip_compress data))
       /\ evolves w w'
            [EvCreate pt; EvAppend pt (gzip_compress data);
             EvRename pt (locate (cwd w) dest)]
       /\ fs w !! pt = None.
Proof.
  intros Hsrc. unfold gzip_file. unfold bind at 1.
  destruct (open_rb src w) as [r0 w0] eqn:Eo.
  apply open_rb_run in Eo as [-> _].
  destruct r0 as [[]|e]; [|discriminate].
  unfold bind at 1.
  destruct (atomic_write dest _ w) as [[u|e] w3] eqn:Ea; [|discriminate].
  intros [= <- <-]. split; [reflexivity|].
  apply atomic_write_ok in Ea as (tn & w1 & w2 & Hin & Hnone & Hev1 & Hbody & Hren).
  set (tmp := atomic_tmp (cwd w) dest tn) in *.
  assert (Hc1 : cwd w1 = cwd w) by apply Hev1.
  assert (Hs1 : node_at (fs w1) (locate (cwd w) src) = Some (File data)).
  { destruct Hev1 as (_ & _ & -> & _). apply node_at_after_create; assumption. }
  unfold bind at 1 in Hbody.
  destruct (read_file src w1) as [rr wr] eqn:Er.
  apply read_file_run in Er as [-> Hr]. rewrite Hc1 in Hr.
  destruct rr as [d'|e]; [|discriminate].
  rewrite (Hr d' eq_refl) in Hs1. injection Hs1 as ->.
  apply fd_write_run in Hbody as [(_ & _ & _ & ->)|(e & [=] & _)].
  rewrite Hc1 in Hren.
  destruct (tmp_write_rename tmp dest _ w w1 w3 Hnone Hev1 Hren) as [Hfin Hev].
  exists (locate (cwd w) tmp). split; [exact Hfin|]. split; [exact Hev|].
  apply node_at_None in Hnone. apply Hnone.
Qed.

(** The three events of an atomic replacement come to one change: the
    destination holds the new bytes. *)
Lemma replay_replace (f : gmap path node) (pt pd : path) z :
  f !! pt = None ->
  replay [EvCreate pt; EvAppend pt z; EvRename pt pd] f = <[pd := File z]> f.
Proof.
  intros Hpt. cbn. rewrite lookup_alter_eq, lookup_insert_eq. cbn.
  rewrite delete_alter_eq, delete_insert_id by exact Hpt. reflexivity.
Qed.

(** X14: when [zip_file] or [gzip_file] returns, the file system is the
    old one with the destination holding the archive: the source (when it
    is not the destination) and every other file are as they were, and no
    temporary file is left.  The archive of [zip_file] has one entry,
    under the name [zipfile] makes of [arcname]; it holds the bytes of
    the source unless that name ends with a slash, when the entry is
    stored as a directory, without bytes. *)
Theorem archivers_change_only_destination src dest arcname data w :
  node_at (fs w) (locate (cwd w) src) = Some (File data) ->
  (forall r w', zip_file src dest arcname w = (Ok r, w') ->
     r = dest
     /\ exists name,
          ZipInfo_filename arcname false = Ok name
          /\ fs w' = <[locate (cwd w) dest :=
                         File (zip_encode
                                 [(name, if endswith_slash name then "" else data)])]>
                       (fs w))
  /\ (forall r w', gzip_file src dest w = (Ok r, w') ->
        r = dest
        /\ fs w' = <[locate (cwd w) dest := File (gzip_compress data)]> (fs w)).
Proof.
  intros Hsrc. split.
  - intros r w' E.
    destruct (zip_file_run _ _ _ _ _ _ _ Hsrc E)
      as (-> & name & pt & Hn & _ & _ & Hev & Hfresh).
    split; [reflexivity|]. exists name. split; [exact Hn|].
    destruct Hev as (_ & _ & -> & _). apply replay_replace, Hfresh.
  - intros r w' E.
    destruct (gzip_file_run _ _ _ _ _ _ Hsrc E) as (-> & pt & _ & Hev & Hfresh).
    split; [reflexivity|].
    destruct Hev as (_ & _ & -> & _). apply replay_replace, Hfresh.
Qed.

(** X15: for a plain archive name (one component, no slash, no NUL, not
    [.] or [..]) the entry is stored under exactly that name: decoding
    the archive gives the one entry [(arcname, data)]. *)
Theorem zip_file_plain_arcname src dest arcname data w r w' :
  is_plain_name arcname = true ->
  node_at (fs w) (locate (cwd w) src) = Some (File data) ->
  zip_file src dest arcname w = (Ok r, w') ->
  exists z,
    node_at (fs w') (locate (cwd w) dest) = Some (File z)
    /\ zip_decode z = Some [(arcname, data)].
Proof.
  intros Hplain Hsrc E.
  destruct (zip_file_run _ _ _ _ _ _ _ Hsrc E) as (_ & name & pt & Hn & _ & Hf & _).
  rewrite (ZipInfo_filename_plain arcname Hplain) in Hn. injection Hn as <-.
  assert (Hs : endswith_slash arcname = false).
  { apply endswith_slash_no_slash. unfold is_plain_name in Hplain.
    rewrite forallb_and in Hplain. apply andb_true_iff in Hplain as [_ Hc].
    apply andb_true_iff in Hc as [Hs _]. exact Hs. }
  rewrite Hs in Hf.
  exists (zip_encode [(arcname, data)]). split; [exact Hf|apply zip_roundtrip].
Qed.

(** C8 (as the code has it): for a source file with bytes [data], when
    [zip_file] returns, decoding the archive at the destination gives one
    entry, under the name [zipfile] derives from [arcname] (normalised,
    without leading slashes, cut at a NUL), which is not empty; the entry
    has exactly [data], unless its name ends with a slash (a NUL came
    right after a slash in [arcname]), when it is stored as a directory,
    with no bytes; and when [gzip_file] returns, decompressing the
    destination gives exactly [data]. *)
Theorem archive_roundtrip src dest arcname data w :
  node_at (fs w) (locate (cwd w) src) = Some (File data) ->
  (forall r w', zip_file src dest arcname w = (Ok r, w') ->
     exists z name,
       node_at (fs w') (locate (cwd w) dest) = Some (File z)
       /\ ZipInfo_filename arcname false = Ok name
       /\ name <> ""
       /\ zip_decode z = Some [(name, if endswith_slash name then "" else data)])
  /\ (forall r w', gzip_file src dest w = (Ok r, w') ->
        exists z,
          node_at (fs w') (locate (cwd w) dest) = Some (File z)
          /\ gzip_decompress z = Some data).
Proof.
  intros Hsrc. split.
  - intros r w' E.
    destruct (zip_file_run _ _ _ _ _ _ _ Hsrc E) as (_ & name & pt & Hn & Hne & Hf & _).
    exists (zip_encode [(name, if endswith_slash name then "" else data)]), name.
    repeat split; auto.
  - intros r w' E.
    destruct (gzip_file_run _ _ _ _ _ _ Hsrc E) as (_ & pt & Hf & _).
    exists (gzip_compress data). split; auto.
Qed.

(** X16: when [zip_file] raises (the source is missing, the archive name
    comes to nothing, no temporary file can be made, the rename fails),
    the file system is as it was before the call: the destination is
    untouched and the temporary file is removed. *)
Theorem zip_file_failure_restores src dest arcname w e w' :
  zip_file src dest arcname w = (Raise e, w') -> fs w' = fs w.
Proof.
  unfold zip_file. unfold bind at 1.
  destruct (atomic_write dest _ w) as [[u|e1] w1] eqn:Ea; [discriminate|].
  intros [= <- <-]. revert Ea. apply atomic_write_raise.
  intros f w1' r w2. unfold with_ZipFile. unfold bind at 1.
  destruct (ZipFile_write src arcname w1') as [[entry|e2] w3] eqn:Ez;
    apply ZipFile_write_run in Ez as [-> _]; cbn [ret].
  - apply fd_write_appends.
  - unfold bind. destruct (fd_write f (zip_encode []) w1') as [r3 w3] eqn:Ew.
    apply fd_write_appends in Ew. destruct r3; cbn; intros [= <- <-]; exact Ew.
Qed.

(** X17: when [gzip_file] raises, the file system is as it was before the
    call. *)
Theorem gzip_file_failure_restores src dest w e w' :
  gzip_file src dest w = (Raise e, w') -> fs w' = fs w.
Proof.
  unfold gzip_file. unfold bind at 1.
  destruct (open_rb src w) as [r0 w0] eqn:Eo.
  apply open_rb_run in Eo as [-> _].
  destruct r0 as [[]|e0]; [|intros [= <- <-]; reflexivity].
  unfold bind at 1.
  destruct (atomic_write dest _ w) as [[u|e1] w1] eqn:Ea; [discriminate|].
  intros [= <- <-]. revert Ea. apply atomic_write_raise.
  intros f w1' r w2. unfold bind at 1.
  destruct (read_file src w1') as [[data|e2] w3] eqn:Er;
    apply read_file_run in Er as [-> _].
  - apply fd_write_appends.
  - intros [= <- <-]. split; [reflexivity|]. exists "". symmetry.
    apply alter_append_empty.
Qed.

(** X19: [gzip_file] returns its [dest] when the name of the source leads
    to a regular file, the first temporary name leads to a free place, and
    the name of the destination leads to a place that is no directory;
    each name has to lead there through directories that exist. *)
Theorem gzip_file_returns src dest data name rest w ps pt pd :
  name_lookup w src = Ok (ps, Plain) ->
  node_at (fs w) ps = Some (File data) ->
  tmp_names w = name :: rest ->
  name_lookup w (atomic_tmp (cwd w) dest name) = Ok (pt, Plain) ->
  node_at (fs w) pt = None ->
  name_lookup w dest = Ok (pd, Plain) ->
  node_at (fs w) pd <> Some Dir ->
  exists w', gzip_file src dest w = (Ok dest, w').
Proof.
  intros Els Hfile Hnames Elt Hnone Eld Hnd.
  unfold gzip_file. unfold bind at 1. unfold open_rb, with_name.
  rewrite Els, Hfile. rewrite bool_decide_eq_false_2 by discriminate. cbn [ret].
  unfold bind at 1.
  edestruct (atomic_write_returns dest
               (fun f_out => let* data := read_file src in
                             fd_write f_out (gzip_compress data))
               tt (gzip_compress data) name rest w pt pd) as [w' Hw'];
    try eassumption.
  - set (w1 := snd (emit (EvCreate pt) (set_tmp_names rest w))).
    assert (Hk1 : dirs_kept (fs w) (fs w1)) by (apply dirs_kept_create, Hnone).
    pose proof (node_at_None _ _ Hnone) as [Hpt _].
    assert (Hs1 : node_at (fs w1) ps = Some (File data)).
    { apply node_at_after_create; assumption. }
    unfold bind at 1.
    rewrite (read_file_Ok src w1 ps Plain data
               (name_lookup_mono w w1 src _ eq_refl Hk1 Els) Hs1).
    apply (fd_write_Ok _ _ w1 pt Plain "").
    + apply (name_lookup_mono w w1 _ _ eq_refl Hk1 Elt).
    + rewrite (node_at_ne _ pt Hpt). apply lookup_insert_eq.
  - rewrite Hw'. cbn [ret]. eexists. reflexivity.
Qed.

End Archivers.

Lemma demo_unescape_escape (name data : string) :
  demo_unescape (demo_escape name ++ data) = Some (name, data).
Proof.
  induction name as [|c name IH]; [reflexivity|].
  cbn [demo_escape].
  change (String "1" (String c (demo_escape name)) ++ data)
    with (String "1" (String c (demo_escape name ++ data))).
  cbn [demo_unescape]. rewrite IH. reflexivity.
Qed.

Lemma demo_zip_roundtrip (name data : string) :
  demo_zip_decode (demo_zip_encode [(name, data)]) = Some [(name, data)].
Proof. unfold demo_zip_decode, demo_zip_encode. rewrite demo_unescape_escape. reflexivity. Qed.

Lemma demo_gzip_roundtrip (data : string) :
  demo_gzip_decompress (demo_gzip_compress data) = Some data.
Proof. reflexivity. Qed.

(** ** Runs on the demo world *)

Section Runs.
#[local] Existing Instance demo_external.

Lemma save_df_as_csv_no_data_witness :
  (PyDataFrame empty_df = PyOther
   \/ (exists d, PyDataFrame empty_df = PyDataFrame d /\ df_rows d = []))
  /\ exists w',
      save_df_as_csv (PyDataFrame empty_df) "out" (FName "snps.csv")
        "# comment" true true (∅ : gmap string string) demo_world = (Ok (DPath ""), w')
      /\ trace w' = (trace demo_world ++ [EvLog WARNING "no data to save..."])%list
      /\ fs w' = fs demo_world
      /\ buffers w' = buffers demo_world
      /\ tmp_names w' = tmp_names demo_world.
Proof.
  assert (Hd : PyDataFrame empty_df = PyOther
               \/ (exists d, PyDataFrame empty_df = PyDataFrame d /\ df_rows d = [])).
  { right. exists empty_df. split; reflexivity. }
  split; [exact Hd|].
  exact (save_df_as_csv_no_data (PyDataFrame empty_df) "out"
           (FName "snps.csv") "# comment" true true (∅ : gmap string string) demo_world Hd).
Defined.

Lemma save_df_as_csv_atomic_all_or_nothing_witness :
  let w := demo_world in
  let w' := snd (save_df_as_csv (PyDataFrame demo_df) "out"
                   (FName "snps.csv") "# c" true true (∅ : gmap string string) w) in
  let pd := locate (cwd w) (os_path_join "out" "snps.csv") in
  (df_with_rows (PyDataFrame demo_df) = Some demo_df
   /\ Forall (fun h => locate (cwd w) h <> pd) (makedirs_chain "out")
   /\ Forall (fun n => locate (cwd w)
                         (os_path_join (abspath_of (cwd w) "out") ("tmp" ++ n)) <> pd)
        (tmp_names w)
   /\ save_df_as_csv (PyDataFrame demo_df) "out"
        (FName "snps.csv") "# c" true true (∅ : gmap string string) w
      = (Ok (DPath (os_path_join "out" "snps.csv")), w'))
  /\ exists evs,
       trace w' = (trace w ++ evs)%list
       /\ fs w' = replay evs (fs w)
       /\ (forall n, n < length evs -> replay (take n evs) (fs w) !! pd = fs w !! pd)
       /\ ((DPath (os_path_join "out" "snps.csv") = DPath ""
            /\ fs w' !! pd = fs w !! pd)
           \/ (DPath (os_path_join "out" "snps.csv") = DPath (os_path_join "out" "snps.csv")
               /\ exists now body,
                    to_csv demo_df (default_na_rep (∅ : gmap string string)) = Ok body
                    /\ dt_instant now = instant w
                    /\ fs w' !! pd = Some (File ((info_header now ++ "# c") ++ body)))).
Proof.
  cbv zeta.
  assert (H1 : df_with_rows (PyDataFrame demo_df) = Some demo_df) by reflexivity.
  assert (H2 : Forall (fun h => locate (cwd demo_world) h
                                <> locate (cwd demo_world) (os_path_join "out" "snps.csv"))
                 (makedirs_chain "out")).
  { apply (bool_decide_unpack _). vm_compute. exact I. }
  assert (H3 : Forall (fun n => locate (cwd demo_world)
                                  (os_path_join (abspath_of (cwd demo_world) "out")
                                     ("tmp" ++ n))
                               <> locate (cwd demo_world) (os_path_join "out" "snps.csv"))
                 (tmp_names demo_world)).
  { apply (bool_decide_unpack _). vm_compute. exact I. }
  assert (H4 : save_df_as_csv (PyDataFrame demo_df) "out"
                 (FName "snps.csv") "# c" true true (∅ : gmap string string) demo_world
               = (Ok (DPath (os_path_join "out" "snps.csv")),
                  snd (save_df_as_csv (PyDataFrame demo_df) "out"
                         (FName "snps.csv") "# c" true true (∅ : gmap string string) demo_world))).
  { vm_compute. reflexivity. }
  split; [exact (conj H1 (conj H2 (conj H3 H4)))|].
  exact (save_df_as_csv_atomic_all_or_nothing (PyDataFrame demo_df)
           demo_df "out" "snps.csv" "# c" true (∅ : gmap string string) demo_world
           (Ok (DPath (os_path_join "out" "snps.csv")))
           (snd (save_df_as_csv (PyDataFrame demo_df) "out"
                   (FName "snps.csv") "# c" true true (∅ : gmap string string) demo_world))
           H1 H2 H3 H4).
Defined.

(** C2 (as the spec has it) fails when the file name leads back to a
    directory that [create_dir] makes on the way: for the path
    [new/../data] and the file name [../new] the destination [home/new] is
    absent before the call and a directory after it, [os.rename] raises
    [IsADirectoryError], and the temporary file stays in [home/data]. *)
Lemma save_df_as_csv_atomic_destination_modified :
  exists w' text,
    save_df_as_csv (PyDataFrame demo_df) "new/../data" (FName "../new") "# c" true true
      (∅ : gmap string string) demo_world = (Raise IsADirectoryError, w')
    /\ locate (cwd demo_world) (os_path_join "new/../data" "../new") = ["home"; "new"]
    /\ fs demo_world !! ["home"; "new"] = None
    /\ fs w' !! ["home"; "new"] = Some Dir
    /\ fs w' !! ["home"; "data"; "tmpa1b2c3d4"] = Some (File text).
Proof.
  eexists. eexists. split; [vm_compute; reflexivity|].
  split; [reflexivity|]. split; [reflexivity|]. split; vm_compute; reflexivity.
Qed.

Lemma archive_roundtrip_witness :
  let w := demo_world_src in
  ((forall data, demo_gzip_decompress (gzip_compress data) = Some data)
   /\ (forall name data,
         demo_zip_decode (zip_encode [(name, data)]) = Some [(name, data)])
   /\ node_at (fs w) (locate (cwd w) "out/snps.csv") = Some (File "rsid,chrom,pos"))
  /\ (forall r w', zip_file "out/snps.csv" "out/snps.zip" "snps.csv" w = (Ok r, w') ->
        exists z name,
          node_at (fs w') (locate (cwd w) "out/snps.zip") = Some (File z)
          /\ ZipInfo_filename "snps.csv" false = Ok name
          /\ name <> ""
          /\ demo_zip_decode z
             = Some [(name, if endswith_slash name then "" else "rsid,chrom,pos")])
  /\ (forall r w', gzip_file "out/snps.csv" "out/snps.zip" w = (Ok r, w') ->
        exists z,
          node_at (fs w') (locate (cwd w) "out/snps.zip") = Some (File z)
          /\ demo_gzip_decompress z = Some "rsid,chrom,pos").
Proof.
  cbv zeta.
  assert (Hs : node_at (fs demo_world_src) (locate (cwd demo_world_src) "out/snps.csv")
               = Some (File "rsid,chrom,pos")) by reflexivity.
  split; [exact (conj demo_gzip_roundtrip (conj demo_zip_roundtrip Hs))|].
  exact (archive_roundtrip demo_gzip_decompress demo_zip_decode
           demo_gzip_roundtrip demo_zip_roundtrip
           "out/snps.csv" "out/snps.zip" "snps.csv" "rsid,chrom,pos" demo_world_src Hs).
Defined.

(** C8 (as the spec has it) fails for the entry name: zipped under the
    archive name ["/data/snps.csv"], the file is found in the archive
    under ["data/snps.csv"]. *)
Lemma zip_file_entry_name_not_arcname :
  exists w' z,
    zip_file "out/snps.csv" "out/snps.zip" "/data/snps.csv" demo_world_src
      = (Ok "out/snps.zip", w')
    /\ node_at (fs w') (locate (cwd demo_world_src) "out/snps.zip") = Some (File z)
    /\ demo_zip_decode z = Some [("data/snps.csv", "rsid,chrom,pos")]
    /\ "data/snps.csv" <> "/data/snps.csv".
Proof.
  eexists. eexists. split; [vm_compute; reflexivity|].
  split; [vm_compute; reflexivity|]. split; [vm_compute; reflexivity|]. discriminate.
Qed.


Lemma create_dir_returns_True_witness :
  (snd (makedirs_split "out/data") <> "."
   /\ create_dir "out/data" demo_world
      = (Ok true, snd (create_dir "out/data" demo_world)))
  /\ true = true.
Proof.
  assert (H1 : snd (makedirs_split "out/data") <> ".").
  { intros E. vm_compute in E. discriminate E. }
  assert (H2 : create_dir "out/data" demo_world
               = (Ok true, snd (create_dir "out/data" demo_world)))
    by (vm_compute; reflexivity).
  split; [exact (conj H1 H2)|].
  exact (create_dir_returns_True "out/data" demo_world true
           (snd (create_dir "out/data" demo_world)) H1 H2).
Defined.

(** C10 (as the spec has it) fails: with [new] missing and [out/snps.csv]
    a regular file, [os.makedirs] makes [new], passes over the
    [FileExistsError] of the head [new/../out/snps.csv] and returns at the
    tail [.]; the path does not exist then, and [create_dir] returns
    [False]. *)
Lemma create_dir_returns_False :
  exists w',
    create_dir "new/../out/snps.csv/." demo_world_src = (Ok false, w')
    /\ fs w' = <[ ["home"; "new"] := Dir ]> (fs demo_world_src).
Proof.
  eexists. split; [vm_compute; reflexivity|]. vm_compute. reflexivity.
Qed.


Lemma create_dir_only_adds_directories_witness :
  let w' := snd (create_dir "new/../data" demo_world) in
  create_dir "new/../data" demo_world = (Ok true, w')
  /\ fs demo_world ⊆ fs w'
  /\ forall q n, fs w' !! q = Some n ->
       fs demo_world !! q = Some n
       \/ (n = Dir /\ exists h, h ∈ makedirs_chain "new/../data"
                                /\ q = locate (cwd demo_world) h).
Proof.
  cbv zeta.
  assert (E : create_dir "new/../data" demo_world
              = (Ok true, snd (create_dir "new/../data" demo_world)))
    by (vm_compute; reflexivity).
  split; [exact E|].
  exact (create_dir_only_adds_directories "new/../data" demo_world (Ok true)
           (snd (create_dir "new/../data" demo_world)) E).
Defined.

Lemma create_dir_twice_witness :
  let w1 := snd (create_dir "out/data" demo_world) in
  create_dir "out/data" demo_world = (Ok true, w1)
  /\ create_dir "out/data" w1 = (Ok true, w1).
Proof.
  cbv zeta.
  assert (E : create_dir "out/data" demo_world
              = (Ok true, snd (create_dir "out/data" demo_world)))
    by (vm_compute; reflexivity).
  split; [exact E|].
  exact (create_dir_twice "out/data" demo_world
           (snd (create_dir "out/data" demo_world)) E).
Defined.

Lemma create_dir_file_in_the_way_witness :
  (name_lookup demo_world_src "out/snps.csv" = Ok (["home"; "out"; "snps.csv"], Plain)
   /\ node_at (fs demo_world_src) ["home"; "out"; "snps.csv"]
      = Some (File "rsid,chrom,pos"))
  /\ create_dir "out/snps.csv" demo_world_src = (Raise FileExistsError, demo_world_src).
Proof.
  assert (H1 : name_lookup demo_world_src "out/snps.csv"
               = Ok (["home"; "out"; "snps.csv"], Plain)) by (vm_compute; reflexivity).
  assert (H2 : node_at (fs demo_world_src) ["home"; "out"; "snps.csv"]
               = Some (File "rsid,chrom,pos")) by reflexivity.
  split; [exact (conj H1 H2)|].
  exact (create_dir_file_in_the_way "out/snps.csv" demo_world_src
           ["home"; "out"; "snps.csv"] Plain "rsid,chrom,pos" H1 H2).
Defined.

Lemma save_df_as_csv_in_place_partial_witness :
  let w := demo_world in
  let w' := snd (save_df_as_csv (PyDataFrame demo_df) "out" (FName "snps.csv")
                   "# c" true false (∅ : gmap string string) w) in
  let pd := locate (cwd w) (os_path_join "out" "snps.csv") in
  (df_with_rows (PyDataFrame demo_df) = Some demo_df
   /\ save_df_as_csv (PyDataFrame demo_df) "out" (FName "snps.csv")
        "# c" true false (∅ : gmap string string) w
      = (Ok (DPath (os_path_join "out" "snps.csv")), w')
   /\ DPath (os_path_join "out" "snps.csv") <> DPath "")
  /\ DPath (os_path_join "out" "snps.csv") = DPath (os_path_join "out" "snps.csv")
  /\ exists now body evs n,
       to_csv demo_df (default_na_rep (∅ : gmap string string)) = Ok body
       /\ trace w' = (trace w ++ evs)%list
       /\ fs w' = replay evs (fs w)
       /\ fs w' !! pd = Some (File ((info_header now ++ "# c") ++ body))
       /\ n < length evs
       /\ replay (take n evs) (fs w) !! pd = Some (File (info_header now ++ "# c")).
Proof.
  cbv zeta.
  assert (H1 : df_with_rows (PyDataFrame demo_df) = Some demo_df) by reflexivity.
  assert (H2 : save_df_as_csv (PyDataFrame demo_df) "out" (FName "snps.csv")
                 "# c" true false (∅ : gmap string string) demo_world
               = (Ok (DPath (os_path_join "out" "snps.csv")),
                  snd (save_df_as_csv (PyDataFrame demo_df) "out" (FName "snps.csv")
                         "# c" true false (∅ : gmap string string) demo_world)))
    by (vm_compute; reflexivity).
  assert (H3 : DPath (os_path_join "out" "snps.csv") <> DPath "").
  { intros E. vm_compute in E. discriminate E. }
  split; [exact (conj H1 (conj H2 H3))|].
  exact (save_df_as_csv_in_place_partial (PyDataFrame demo_df) demo_df "out"
           "snps.csv" "# c" true (∅ : gmap string string) demo_world _ _ H1 H2 H3).
Defined.

Lemma save_df_as_csv_atomic_leaves_tmp_witness :
  let w := demo_world in
  let kwargs : gmap string string := {[ "mode" := "w" ]} in
  let w' := snd (save_df_as_csv (PyDataFrame demo_df) "out" (FName "snps.csv")
                   "# c" true true kwargs w) in
  (df_with_rows (PyDataFrame demo_df) = Some demo_df
   /\ save_df_as_csv (PyDataFrame demo_df) "out" (FName "snps.csv")
        "# c" true true kwargs w = (Raise TypeError, w'))
  /\ exists evs,
       trace w' = (trace w ++ evs)%list
       /\ forall pt, EvCreate pt ∈ evs -> exists data, fs w' !! pt = Some (File data).
Proof.
  cbv zeta.
  assert (H1 : df_with_rows (PyDataFrame demo_df) = Some demo_df) by reflexivity.
  assert (H2 : save_df_as_csv (PyDataFrame demo_df) "out" (FName "snps.csv")
                 "# c" true true ({[ "mode" := "w" ]} : gmap string string) demo_world
               = (Raise TypeError,
                  snd (save_df_as_csv (PyDataFrame demo_df) "out" (FName "snps.csv")
                         "# c" true true ({[ "mode" := "w" ]} : gmap string string)
                         demo_world)))
    by (vm_compute; reflexivity).
  split; [exact (conj H1 H2)|].
  exact (save_df_as_csv_atomic_leaves_tmp (PyDataFrame demo_df) demo_df "out"
           "snps.csv" "# c" true ({[ "mode" := "w" ]} : gmap string string)
           demo_world _ _ H1 H2).
Defined.

Lemma save_df_as_csv_stream_witness :
  let w := demo_world_stream in
  let b := {| b_text := true; b_data := ""; b_pos := 0 |} in
  let w' := snd (save_df_as_csv (PyDataFrame demo_df) "nowhere" (FStream 3)
                   "# c" true true (∅ : gmap string string) w) in
  (df_with_rows (PyDataFrame demo_df) = Some demo_df
   /\ buffers w !! 3 = Some b
   /\ b_pos b = String.length (b_data b)
   /\ save_df_as_csv (PyDataFrame demo_df) "nowhere" (FStream 3)
        "# c" true true (∅ : gmap string string) w = (Ok (DStream 3), w'))
  /\ DStream 3 = DStream 3
  /\ fs w' = fs w
  /\ (exists evs, trace w' = (trace w ++ evs)%list
        /\ Forall (fun ev => exists aware, ev = EvClock aware) evs)
  /\ exists now body,
       to_csv demo_df (default_na_rep (∅ : gmap string string)) = Ok body
       /\ buffers w' !! 3
          = Some {| b_text := b_text b;
                    b_data := (b_data b ++ (info_header now ++ "# c")) ++ body;
                    b_pos := 0 |}.
Proof.
  cbv zeta.
  assert (H1 : df_with_rows (PyDataFrame demo_df) = Some demo_df) by reflexivity.
  assert (H2 : buffers demo_world_stream !! 3
               = Some {| b_text := true; b_data := ""; b_pos := 0 |}) by reflexivity.
  assert (H3 : b_pos {| b_text := true; b_data := ""; b_pos := 0 |}
               = String.length (b_data {| b_text := true; b_data := ""; b_pos := 0 |}))
    by reflexivity.
  assert (H4 : save_df_as_csv (PyDataFrame demo_df) "nowhere" (FStream 3)
                 "# c" true true (∅ : gmap string string) demo_world_stream
               = (Ok (DStream 3),
                  snd (save_df_as_csv (PyDataFrame demo_df) "nowhere" (FStream 3)
                         "# c" true true (∅ : gmap string string) demo_world_stream)))
    by (vm_compute; reflexivity).
  split; [exact (conj H1 (conj H2 (conj H3 H4)))|].
  exact (save_df_as_csv_stream (PyDataFrame demo_df) demo_df "nowhere" 3 "# c" true true
           (∅ : gmap string string) demo_world_stream
           {| b_text := true; b_data := ""; b_pos := 0 |} _ _ H1 H2 H3 H4).
Defined.

Lemma archivers_change_only_destination_witness :
  let w := demo_world_src in
  node_at (fs w) (locate (cwd w) "out/snps.csv") = Some (File "rsid,chrom,pos")
  /\ (forall r w', zip_file "out/snps.csv" "out/snps.zip" "snps.csv" w = (Ok r, w') ->
        r = "out/snps.zip"
        /\ exists name,
             ZipInfo_filename "snps.csv" false = Ok name
             /\ fs w' = <[locate (cwd w) "out/snps.zip"
                          := File (zip_encode
                                     [(name, if endswith_slash name then ""
                                             else "rsid,chrom,pos")])]> (fs w))
  /\ (forall r w', gzip_file "out/snps.csv" "out/snps.zip" w = (Ok r, w') ->
        r = "out/snps.zip"
        /\ fs w' = <[locate (cwd w) "out/snps.zip"
                     := File (gzip_compress "rsid,chrom,pos")]> (fs w)).
Proof.
  cbv zeta.
  assert (Hs : node_at (fs demo_world_src) (locate (cwd demo_world_src) "out/snps.csv")
               = Some (File "rsid,chrom,pos")) by reflexivity.
  split; [exact Hs|].
  exact (archivers_change_only_destination "out/snps.csv" "out/snps.zip" "snps.csv"
           "rsid,chrom,pos" demo_world_src Hs).
Defined.

Lemma zip_file_plain_arcname_witness :
  let w := demo_world_src in
  let w' := snd (zip_file "out/snps.csv" "out/snps.zip" "snps.csv" w) in
  ((forall name data,
      demo_zip_decode (zip_encode [(name, data)]) = Some [(name, data)])
   /\ is_plain_name "snps.csv" = true
   /\ node_at (fs w) (locate (cwd w) "out/snps.csv") = Some (File "rsid,chrom,pos")
   /\ zip_file "out/snps.csv" "out/snps.zip" "snps.csv" w = (Ok "out/snps.zip", w'))
  /\ exists z,
       node_at (fs w') (locate (cwd w) "out/snps.zip") = Some (File z)
       /\ demo_zip_decode z = Some [("snps.csv", "rsid,chrom,pos")].
Proof.
  cbv zeta.
  assert (H1 : is_plain_name "snps.csv" = true) by reflexivity.
  assert (H2 : node_at (fs demo_world_src) (locate (cwd demo_world_src) "out/snps.csv")
               = Some (File "rsid,chrom,pos")) by reflexivity.
  assert (H3 : zip_file "out/snps.csv" "out/snps.zip" "snps.csv" demo_world_src
               = (Ok "out/snps.zip",
                  snd (zip_file "out/snps.csv" "out/snps.zip" "snps.csv" demo_world_src)))
    by (vm_compute; reflexivity).
  split; [exact (conj demo_zip_roundtrip (conj H1 (conj H2 H3)))|].
  exact (zip_file_plain_arcname demo_zip_decode demo_zip_roundtrip
           "out/snps.csv" "out/snps.zip" "snps.csv" "rsid,chrom,pos"
           demo_world_src _ _ H1 H2 H3).
Defined.

Lemma zip_file_failure_restores_witness :
  let w := demo_world_src in
  let w' := snd (zip_file "out/missing.csv" "out/snps.zip" "snps.csv" w) in
  zip_file "out/missing.csv" "out/snps.zip" "snps.csv" w = (Raise FileNotFoundError, w')
  /\ fs w' = fs w.
Proof.
  cbv zeta.
  assert (E : zip_file "out/missing.csv" "out/snps.zip" "snps.csv" demo_world_src
              = (Raise FileNotFoundError,
                 snd (zip_file "out/missing.csv" "out/snps.zip" "snps.csv" demo_world_src)))
    by (vm_compute; reflexivity).
  split; [exact E|].
  exact (zip_file_failure_restores "out/missing.csv" "out/snps.zip" "snps.csv"
           demo_world_src _ _ E).
Defined.

Lemma gzip_file_failure_restores_witness :
  let w := demo_world_src in
  let w' := snd (gzip_file "out/snps.csv" "nodir/../snps.gz" w) in
  gzip_file "out/snps.csv" "nodir/../snps.gz" w = (Raise FileNotFoundError, w')
  /\ fs w' = fs w.
Proof.
  cbv zeta.
  assert (E : gzip_file "out/snps.csv" "nodir/../snps.gz" demo_world_src
              = (Raise FileNotFoundError,
                 snd (gzip_file "out/snps.csv" "nodir/../snps.gz" demo_world_src)))
    by (vm_compute; reflexivity).
  split; [exact E|].
  exact (gzip_file_failure_restores "out/snps.csv" "nodir/../snps.gz"
           demo_world_src _ _ E).
Defined.

Lemma gzip_file_returns_witness :
  let w := demo_world_src in
  (name_lookup w "out/snps.csv" = Ok (["home"; "out"; "snps.csv"], Plain)
   /\ node_at (fs w) ["home"; "out"; "snps.csv"] = Some (File "rsid,chrom,pos")
   /\ tmp_names w = ["a1b2c3d4"; "e5f6g7h8"]
   /\ name_lookup w (atomic_tmp (cwd w) "out/snps.csv.gz" "a1b2c3d4")
      = Ok (["home"; "out"; "tmpa1b2c3d4"], Plain)
   /\ node_at (fs w) ["home"; "out"; "tmpa1b2c3d4"] = None
   /\ name_lookup w "out/snps.csv.gz" = Ok (["home"; "out"; "snps.csv.gz"], Plain)
   /\ node_at (fs w) ["home"; "out"; "snps.csv.gz"] <> Some Dir)
  /\ exists w', gzip_file "out/snps.csv" "out/snps.csv.gz" w = (Ok "out/snps.csv.gz", w').
Proof.
  cbv zeta.
  assert (H1 : name_lookup demo_world_src "out/snps.csv"
               = Ok (["home"; "out"; "snps.csv"], Plain)) by (vm_compute; reflexivity).
  assert (H2 : node_at (fs demo_world_src) ["home"; "out"; "snps.csv"]
               = Some (File "rsid,chrom,pos")) by reflexivity.
  assert (H3 : tmp_names demo_world_src = ["a1b2c3d4"; "e5f6g7h8"]) by reflexivity.
  assert (H4 : name_lookup demo_world_src
                 (atomic_tmp (cwd demo_world_src) "out/snps.csv.gz" "a1b2c3d4")
               = Ok (["home"; "out"; "tmpa1b2c3d4"], Plain)) by (vm_compute; reflexivity).
  assert (H5 : node_at (fs demo_world_src) ["home"; "out"; "tmpa1b2c3d4"] = None)
    by reflexivity.
  assert (H6 : name_lookup demo_world_src "out/snps.csv.gz"
               = Ok (["home"; "out"; "snps.csv.gz"], Plain)) by (vm_compute; reflexivity).
  assert (H7 : node_at (fs demo_world_src) ["home"; "out"; "snps.csv.gz"] <> Some Dir).
  { intros E. vm_compute in E. discriminate E. }
  split; [exact (conj H1 (conj H2 (conj H3 (conj H4 (conj H5 (conj H6 H7))))))|].
  exact (gzip_file_returns "out/snps.csv" "out/snps.csv.gz" "rsid,chrom,pos"
           "a1b2c3d4" ["e5f6g7h8"] demo_world_src
           ["home"; "out"; "snps.csv"] ["home"; "out"; "tmpa1b2c3d4"]
           ["home"; "out"; "snps.csv.gz"] H1 H2 H3 H4 H5 H6 H7).
Defined.

End Runs.
